(** * Order notifications and webhook registration: a shallow embedding

    The development follows [src/app/notifications.py] and
    [src/setup_webhook.py].

    Conventions of the embedding.

    - A Python [str] is held as the sequence of bytes of its UTF-8 encoding
      (Rocq's [string]); the literals of the source are written as they are.
      Operations that count characters ([s[-6:]]) count UTF-8 lead bytes.
    - An amount is a finite Python [float], read at its exact rational
      value (type [Q]); [format_amount] depends on nothing else.  Products,
      sums and differences of amounts are those of binary64 arithmetic: the
      exact result rounded to the nearest binary64 number, ties going to
      the even significand.  An [int] takes part with the float of its
      value.  The floats [inf] and [nan] (so overflow) and integers that
      are multiplied or added as integers beyond 2^53 are outside the
      model.
    - External collaborators (the messaging provider, the product catalogue,
      the blob store, the customer registry, the settings) are parameters of
      the code; everything the code does to them is recorded in a [world].
      A computation returns a value or raises an exception, and changes the
      world either way.
    - The tasks of an [asyncio.gather] are run one after the other, which
      is one of the schedules of the event loop: the tasks start in the
      order of the list, and what one task does keeps its order.  How the
      calls and records of different tasks interleave is not fixed by the
      code; what is stated of a batch beyond the order in which the tasks
      start is stated up to that interleaving. *)

From Stdlib Require Import ZArith QArith Qround Qabs String Ascii List Bool Lia Lqa.
From Stdlib Require Import Permutation.
From Stdlib Require Decimal DecimalString Qcanon.
Import ListNotations.

Local Open Scope string_scope.

(** ** Python strings *)

Module PyStr.

Definition nl : string := String "010" "".

(** [str(z)] for an [int]. *)
Definition str_int (z : Z) : string := DecimalString.NilZero.string_of_int (Z.to_int z).

Definition is_upper (c : ascii) : bool :=
  ((65 <=? nat_of_ascii c) && (nat_of_ascii c <=? 90))%nat.

Definition lower_ascii (c : ascii) : ascii :=
  if is_upper c then ascii_of_nat (nat_of_ascii c + 32) else c.

(** [s.lower()].  ASCII capitals are mapped to their small letters.  Two
    characters outside ASCII have a lower-case form with an ASCII letter in
    it, and are mapped as Python maps them: U+212A (KELVIN SIGN, bytes
    E2 84 AA) to [k], and U+0130 (bytes C4 B0) to [i] followed by U+0307
    (bytes CC 87).  Every other character outside ASCII is left as it is:
    its lower-case form is outside ASCII as well, so no comparison with an
    ASCII literal of the source can tell the difference. *)
Fixpoint lower (s : string) : string :=
  match s with
  | EmptyString => EmptyString
  | String "226" (String "132" (String "170" r)) => String "k" (lower r)
  | String "196" (String "176" r) =>
      String "i" (String "204" (String "135" (lower r)))
  | String c r => String (lower_ascii c) (lower r)
  end.

(** [p in s] for strings: [p] occurs in [s] as a contiguous run. *)
Fixpoint contains (p s : string) : bool :=
  if prefix p s then true
  else match s with
       | EmptyString => false
       | String _ r => contains p r
       end.

(** [s.startswith(p)]. *)
Definition startswith (s p : string) : bool := prefix p s.

(** [s.rstrip(c)] for a one-character set [c]. *)
Fixpoint rstrip (c : ascii) (s : string) : string :=
  match s with
  | EmptyString => EmptyString
  | String a r =>
      match rstrip c r with
      | EmptyString => if Ascii.eqb a c then EmptyString else String a EmptyString
      | r' => String a r'
      end
  end.

(** [s.replace(old, new)] for a non-empty [old]: the string is read from
    the left; where [old] starts, [new] is written and [old] is skipped
    ([skip] counts the characters of [old] still to pass over). *)
Fixpoint replace_from (skip : nat) (old new s : string) : string :=
  match s with
  | EmptyString => EmptyString
  | String a r =>
      match skip with
      | S k => replace_from k old new r
      | O =>
          if prefix old s
          then new ++ replace_from (String.length old - 1) old new r
          else String a (replace_from 0 old new r)
      end
  end.

Definition replace (old new s : string) : string := replace_from 0 old new s.

(** A byte of the form 10xxxxxx continues a UTF-8 character. *)
Definition is_continuation (c : ascii) : bool :=
  ((128 <=? nat_of_ascii c) && (nat_of_ascii c <? 192))%nat.

(** The last [n] characters of a string given by its bytes in reverse. *)
Fixpoint take_chars_rev (n : nat) (rev_bytes : list ascii) : list ascii :=
  match n, rev_bytes with
  | O, _ => []
  | _, [] => []
  | S k, c :: r =>
      if is_continuation c then c :: take_chars_rev n r
      else c :: take_chars_rev k r
  end.

(** [s[-n:]] for [n > 0]. *)
Definition last_chars (n : nat) (s : string) : string :=
  string_of_list_ascii
    (List.rev (take_chars_rev n (List.rev (list_ascii_of_string s)))).

(** [s.rfind(".")]: the index of the last dot. *)
Fixpoint rfind_dot (s : string) : option nat :=
  match s with
  | EmptyString => None
  | String a r =>
      match rfind_dot r with
      | Some i => Some (S i)
      | None => if Ascii.eqb a "." then Some O else None
      end
  end.

(** [s.split("/")]. *)
Fixpoint split_slash (s : string) : list string :=
  match s with
  | EmptyString => [EmptyString]
  | String a r =>
      if Ascii.eqb a "/" then EmptyString :: split_slash r
      else match split_slash r with
           | [] => [String a EmptyString]
           | w :: ws => String a w :: ws
           end
  end.

(** A hexadecimal digit, of either case. *)
Definition is_hex_digit (c : ascii) : bool :=
  let n := nat_of_ascii c in
  (((48 <=? n) && (n <=? 57)) || ((65 <=? n) && (n <=? 70))
   || ((97 <=? n) && (n <=? 102)))%nat.

(** ASCII white space: space, tab, line feed, vertical tab, form feed and
    carriage return. *)
Definition is_space (c : ascii) : bool :=
  let n := nat_of_ascii c in
  ((n =? 32) || ((9 <=? n) && (n <=? 13)))%nat.

(** [bytes.fromhex(s)] returns: [s] is made of pairs of hexadecimal digits,
    with white space allowed before each pair and at the end. *)
Fixpoint fromhex_ok (s : string) : bool :=
  match s with
  | EmptyString => true
  | String c r =>
      if is_space c then fromhex_ok r
      else match r with
           | String d r' => is_hex_digit c && is_hex_digit d && fromhex_ok r'
           | EmptyString => false
           end
  end.

(** [ObjectId(s)] of [bson] returns for a [str]: [s] has 24 characters and
    [bytes.fromhex] reads it. *)
Definition valid_object_id (s : string) : bool :=
  (String.length s =? 24)%nat && fromhex_ok s.

Definition hex_digit (n : nat) : ascii :=
  if (n <? 10)%nat then ascii_of_nat (48 + n) else ascii_of_nat (55 + n).

Definition is_unreserved (c : ascii) : bool :=
  let n := nat_of_ascii c in
  (((65 <=? n) && (n <=? 90)) || ((97 <=? n) && (n <=? 122))
   || ((48 <=? n) && (n <=? 57))
   || (n =? 95) || (n =? 46) || (n =? 45) || (n =? 126))%nat.

(** [urllib.parse.quote(s, safe="")]: every byte of the UTF-8 encoding
    that is not a letter, a digit or one of [_.-~] becomes [%XX]. *)
Fixpoint quote (s : string) : string :=
  match s with
  | EmptyString => EmptyString
  | String c r =>
      if is_unreserved c then String c (quote r)
      else String "%" (String (hex_digit (nat_of_ascii c / 16))
                        (String (hex_digit (nat_of_ascii c mod 16)) (quote r)))
  end.

End PyStr.

(** ** Amounts *)

Module Amount.
Import PyStr.
Local Open Scope Q_scope.

(** The exact value of the binary64 number [m * 2^e]. *)
Definition binary64 (m e : Z) : Q :=
  match e with
  | Zneg p => m # (2 ^ p)
  | _ => inject_Z (m * 2 ^ e)%Z
  end.

(** [int(amount)]: the integer part, rounding toward zero. *)
Definition py_int (amount : Q) : Z :=
  match Qcompare amount 0 with
  | Lt => Qceiling amount
  | _ => Qfloor amount
  end.

(** The decimal digit [d] (0..9) as a one-character string. *)
Definition digit (d : Z) : string :=
  String (ascii_of_nat (48 + Z.to_nat d)) EmptyString.

(** The nearest integer to a non-negative [x], ties going to the even
    neighbour: the rounding of Python's float formatting. *)
Definition round_half_even (x : Q) : Z :=
  let k := Qfloor x in
  match Qcompare (x - inject_Z k) (1 # 2) with
  | Lt => k
  | Gt => (k + 1)%Z
  | Eq => if Z.even k then k else (k + 1)%Z
  end.

(** The number of hundredths that [f"{amount:.2f}"] shows, without sign. *)
Definition hundredths (amount : Q) : Z :=
  round_half_even (Qabs amount * inject_Z 100).

(** [f"{amount:.2f}"]: sign, integer part, separator, two digits. *)
Definition format_2f (amount : Q) : string :=
  let n := hundredths amount in
  (match Qcompare amount 0 with Lt => "-" | _ => "" end)
    ++ str_int (n / 100)%Z ++ "."
    ++ digit ((n / 10) mod 10)%Z ++ digit (n mod 10)%Z.

(** [format_amount], lines 19-31. *)
Definition format_amount (amount : Q) : string :=
  if Qeq_bool amount (inject_Z (py_int amount))
  then str_int (py_int amount)
  else rstrip "." (rstrip "0" (format_2f amount)).

(** *** Binary64 arithmetic *)

(** [floor (log2 x)] for a positive [x]: the difference of the bit lengths
    of numerator and denominator, or one less. *)
Definition ilog2 (x : Q) : Z :=
  let k := (Z.log2 (Qnum x) - Z.log2 (Zpos (Qden x)))%Z in
  if Qle_bool (binary64 1 k) x then k else (k - 1)%Z.

(** The binary64 number nearest to [x], ties going to the even significand:
    [x] is counted in units of the last place of its binade (2^-1074 for a
    subnormal number), and the count is rounded. *)
Definition round64 (x : Q) : Q :=
  let r := Qred x in
  if Qeq_bool r 0 then 0
  else
    let unit := (Z.max (ilog2 (Qabs r)) (-1022) - 52)%Z in
    let count := round_half_even (Qabs r / binary64 1 unit) in
    binary64 (if Qle_bool 0 r then count else - count)%Z unit.

(** [float(z)] for an [int], and [a * b], [a + b], [a - b] on floats. *)
Definition float_of_int (z : Z) : Q := round64 (inject_Z z).

Definition float_mul (a b : Q) : Q := round64 (a * b).

Definition float_add (a b : Q) : Q := round64 (a + b).

Definition float_sub (a b : Q) : Q := round64 (a - b).

End Amount.

(** ** Python values read from dictionaries *)

Module Py.

(** A key of a dictionary: absent, present with [None], or present with a
    value. *)
Inductive field (A : Type) : Type :=
| Missing
| Null
| Val (a : A).
Arguments Missing {A}.
Arguments Null {A}.
Arguments Val {A} a.

(** [d.get(k)]. *)
Definition get {A : Type} (f : field A) : option A :=
  match f with
  | Val a => Some a
  | _ => None
  end.

(** [d.get(k, default)]. *)
Definition get_default {A : Type} (f : field A) (default : A) : option A :=
  match f with
  | Missing => Some default
  | Null => None
  | Val a => Some a
  end.

(** Truth values of the objects the code tests. *)
Definition truthy_str (s : option string) : bool :=
  match s with
  | Some (String _ _) => true
  | _ => false
  end.

Definition truthy_int (z : option Z) : bool :=
  match z with
  | Some z => negb (z =? 0)%Z
  | None => false
  end.

Definition truthy_amount (q : option Q) : bool :=
  match q with
  | Some q => negb (Qeq_bool q 0)
  | None => false
  end.

Definition truthy_bool (b : option bool) : bool :=
  match b with
  | Some true => true
  | _ => false
  end.

(** [x or d]. *)
Definition or_str (s : option string) (d : string) : string :=
  match s with
  | Some (String a r) => String a r
  | _ => d
  end.

Definition or_int (z : option Z) (d : Z) : Z :=
  if truthy_int z then match z with Some z => z | None => d end else d.

Definition or_amount (q : option Q) (d : Q) : Q :=
  if truthy_amount q then match q with Some q => q | None => d end else d.

(** [str(x)] inside an f-string, for a value that may be [None]. *)
Definition str_opt (s : option string) : string :=
  match s with
  | Some s => s
  | None => "None"
  end.

Definition str_int_opt (z : option Z) : string :=
  match z with
  | Some z => PyStr.str_int z
  | None => "None"
  end.

End Py.

(** ** The world of the notification code *)

Module World.

(** Exceptions.  The handlers of the source tell apart
    [httpx.TimeoutException], [httpx.HTTPStatusError] (which carries the
    response: status code and text) and every other [Exception]. *)
Inductive exn_class : Type :=
| TimeoutException
| HTTPStatusError
| OtherException.

Record exn : Type := mk_exn {
  exn_class_of : exn_class;
  exn_name : string;            (* type(e).__name__ *)
  exn_str : string;             (* str(e) *)
  exn_status_code : Z;          (* e.response.status_code *)
  exn_response_text : string    (* e.response.text *)
}.

(** The JSON object of a provider response: a boolean [ok] and, on failure,
    an integer [error_code] and a [description]. *)
Record tg_body : Type := mk_body {
  ok : Py.field bool;
  error_code : Py.field Z;
  description : Py.field string
}.

(** An HTTP response.  [response_json] is what [response.json()] followed by
    a [.get] on the result gives: the object, or the exception raised by a
    body that is not JSON or not an object. *)
Record response : Type := mk_response {
  status_code : Z;
  response_text : string;
  response_json : exn + tg_body
}.

(** The calls made through [httpx.AsyncClient.post]. *)
Inductive request : Type :=
| PostJson (url : string) (chat_id : Z) (text parse_mode : string)
    (reply_markup : option (list string)) (timeout : Z)
| PostMultipart (url : string) (chat_id caption parse_mode : string)
    (file_field file_name : string) (file_data : string)
    (file_content_type : option string) (timeout : Z).

Inductive log_level : Type := INFO | WARNING | ERROR.

Record log_record : Type := mk_log {
  level : log_level;
  message : string
}.

(** Calls to the database: lookups in the catalogue (line 176) and in the
    blob store (line 227), deletions from the customer registry. *)
Inductive db_call : Type :=
| FindProduct (product_id : string)
| GridGet (file_id : string)
| DeleteCustomer (telegram_id : Z).

(** A product of the catalogue, as projected by the query of line 176. *)
Record variant : Type := mk_variant {
  variant_id_of : Py.field string;
  variant_name_of : Py.field string
}.

Record product : Type := mk_product {
  product_name_of : Py.field string;
  product_variants : Py.field (list variant)
}.

(** A file of the blob store. *)
Record grid_file : Type := mk_grid_file {
  grid_read : exn + string;            (* the bytes of the file *)
  grid_filename : option string;
  grid_content_type : option string
}.

Record settings : Type := mk_settings {
  telegram_bot_token : option string;
  admin_ids : list Z
}.

(** What the code has done so far: the provider calls in the order they were
    made, the log, the database calls, and the customer registry (the
    [telegram_id] of each customer document). *)
Record world : Type := mk_world {
  sent : list request;
  log : list log_record;
  db_calls : list db_call;
  customers : list Z
}.

Definition empty_world (registry : list Z) : world :=
  mk_world [] [] [] registry.

(** The collaborators.  The provider answers the [n]-th call with an
    exception or a response. *)
Record environment : Type := mk_env {
  provider : nat -> request -> exn + response;
  find_one : string -> exn + option product;
  gridfs_get : string -> exn + grid_file;
  delete_one_error : Z -> option exn;
  status_error_str : response -> string
}.

(** A computation returns or raises, and changes the world either way. *)
Inductive outcome (A : Type) : Type :=
| Ret (a : A)
| Exc (e : exn).
Arguments Ret {A} a.
Arguments Exc {A} e.

Definition M (A : Type) : Type := world -> outcome A * world.

Definition ret {A : Type} (a : A) : M A := fun w => (Ret a, w).

Definition raise {A : Type} (e : exn) : M A := fun w => (Exc e, w).

Definition bind {A B : Type} (m : M A) (k : A -> M B) : M B :=
  fun w =>
    match m w with
    | (Ret a, w') => k a w'
    | (Exc e, w') => (Exc e, w')
    end.

(** [try: m / except Exception as e: handler e]. *)
Definition try_except {A : Type} (m : M A) (handler : exn -> M A) : M A :=
  fun w =>
    match m w with
    | (Ret a, w') => (Ret a, w')
    | (Exc e, w') => handler e w'
    end.

End World.

(** ** [src/app/notifications.py] *)

Module Notifications.
Import PyStr Py World Amount.

(** A line item of an order (a dictionary of the order document). *)
Record item : Type := mk_item {
  item_product_id : field string;
  item_variant_id : field string;
  item_quantity : field Z;
  item_product_name : field string;
  item_variant_name : field string;
  item_price : field Q
}.

Section Code.

(** [get_settings()] and the collaborators behind [httpx], [db] and
    [get_gridfs()]. *)
Variable cfg : settings.
Variable env : environment.

Notation "x <- c1 ;; c2" := (bind c1 (fun x => c2))
  (at level 61, c1 at next level, right associativity).
Notation "c1 ;; c2" := (bind c1 (fun _ => c2))
  (at level 61, right associativity).

(** [await client.post(...)]: the call is recorded, and the provider's
    answer to it is returned or raised. *)
Definition post (r : request) : M response :=
  fun w =>
    let w' := mk_world (sent w ++ [r]) (log w) (db_calls w) (customers w) in
    match provider env (length (sent w)) r with
    | inl e => (Exc e, w')
    | inr resp => (Ret resp, w')
    end.

(** [logger.info], [logger.warning], [logger.error], [logger.exception]. *)
Definition logger (l : log_level) (msg : string) : M unit :=
  fun w =>
    (Ret tt, mk_world (sent w) (log w ++ [mk_log l msg]) (db_calls w) (customers w)).

Definition is_success (resp : response) : bool :=
  ((200 <=? status_code resp) && (status_code resp <? 300))%Z.

(** [response.raise_for_status()]: every status outside 200..299 raises. *)
Definition raise_for_status (resp : response) : M unit :=
  if is_success resp then ret tt
  else raise (mk_exn HTTPStatusError "HTTPStatusError" (status_error_str env resp)
                (status_code resp) (response_text resp)).

(** [response.json()], as far as the following [.get] needs it. *)
Definition json (resp : response) : M tg_body :=
  match response_json resp with
  | inl e => raise e
  | inr body => ret body
  end.

(** [await db.products.find_one({"_id": as_object_id(product_id)}, ...)]. *)
Definition products_find_one (product_id : string) : M (option product) :=
  fun w =>
    let w' := mk_world (sent w) (log w) (db_calls w ++ [FindProduct product_id])
                (customers w) in
    match find_one env product_id with
    | inl e => (Exc e, w')
    | inr p => (Ret p, w')
    end.

(** [ObjectId(file_id)]: the identifier, or [InvalidId] for a string that
    is not one (the words of the exception are read nowhere). *)
Definition ObjectId (file_id : string) : M string :=
  if valid_object_id file_id then ret file_id
  else raise (mk_exn OtherException "InvalidId"
                ("'" ++ file_id ++ "' is not a valid ObjectId, it must be a "
                 ++ "12-byte input or a 24-character hex string") 0 "").

(** [fs.get(ObjectId(receipt_file_id))] on [get_gridfs()]: the identifier
    is built first, and the blob store is asked for a well-formed one
    only. *)
Definition fs_get (file_id : string) : M grid_file :=
  oid <- ObjectId file_id ;;
  fun w =>
    let w' := mk_world (sent w) (log w) (db_calls w ++ [GridGet oid])
                (customers w) in
    match gridfs_get env oid with
    | inl e => (Exc e, w')
    | inr f => (Ret f, w')
    end.

(** [grid_file.read()]. *)
Definition read (f : grid_file) : M string :=
  match grid_read f with
  | inl e => raise e
  | inr data => ret data
  end.

(** The registry without its first document of [telegram_id = user_id]. *)
Fixpoint remove_first (user_id : Z) (registry : list Z) : list Z :=
  match registry with
  | [] => []
  | c :: r => if (c =? user_id)%Z then r else c :: remove_first user_id r
  end.

(** [await db.customers.delete_one({"telegram_id": user_id})]; the value is
    [deleted_count]. *)
Definition customers_delete_one (user_id : Z) : M nat :=
  fun w =>
    let calls := (db_calls w ++ [DeleteCustomer user_id])%list in
    match delete_one_error env user_id with
    | Some e => (Exc e, mk_world (sent w) (log w) calls (customers w))
    | None =>
        (Ret (if existsb (Z.eqb user_id) (customers w) then 1 else 0)%nat,
         mk_world (sent w) (log w) calls (remove_first user_id (customers w)))
    end.

(** [asyncio.gather] over the tasks with [return_exceptions=True].  The tasks are
    run one after the other, in the order of the list; each contributes its
    value or the exception it raised. *)
Fixpoint gather {A : Type} (tasks : list (M A)) : M (list (exn + A)) :=
  match tasks with
  | [] => ret []
  | t :: ts =>
      r <- try_except (a <- t ;; ret (inr a)) (fun e => ret (inl e)) ;;
      rs <- gather ts ;;
      ret (r :: rs)
  end.

(** [r is True]. *)
Definition is_True (r : exn + option bool) : bool :=
  match r with
  | inr (Some true) => true
  | _ => false
  end.

(** [sum(1 for r in results if r is True)]. *)
Definition success_count (results : list (exn + option bool)) : nat :=
  List.length (filter is_True results).

(** [_send_simple_notification], lines 95-122. *)
Definition _send_simple_notification (bot_token : string) (admin_id : Z)
    (message : string) (keyboard : option (list string)) : M (option bool) :=
  try_except
    (let api_url := "https://api.telegram.org/bot" ++ bot_token ++ "/sendMessage" in
     let reply_markup :=
       match keyboard with
       | Some (_ :: _) => keyboard
       | _ => None
       end in
     response <- post (PostJson api_url admin_id message "Markdown" reply_markup 30) ;;
     body <- json response ;;
     ret (get_default (ok body) false))
    (fun e =>
       logger ERROR ("Ошибка при отправке уведомления администратору "
                     ++ str_int admin_id ++ ": " ++ exn_str e) ;;
       ret (Some false)).

(** [notify_admins_new_order], lines 34-92. *)
Definition notify_admins_new_order (order_id customer_name customer_phone
    delivery_address : string) (total_amount : Q) (items : list item)
    (user_id : Z) (receipt_file_id : option string) : M unit :=
  if negb (truthy_str (telegram_bot_token cfg)) then ret tt
  else
    match admin_ids cfg with
    | [] => ret tt
    | _ =>
        let message :=
          "🆕 *Новый заказ!*" ++ nl ++ nl ++ "📋 Заказ: `" ++ last_chars 6 order_id ++ "`" in
        results <- gather
          (map (fun admin_id =>
                  _send_simple_notification (str_opt (telegram_bot_token cfg))
                    admin_id message None)
               (admin_ids cfg)) ;;
        let failed_count := (List.length results - success_count results)%nat in
        if (0 <? failed_count)%nat
        then logger ERROR ("Не удалось отправить уведомление о новом заказе "
                           ++ order_id ++ " " ++ str_int (Z.of_nat failed_count)
                           ++ " админам")
        else ret tt
    end.

(** [Path(filename).name] on a POSIX system: the last component of the path,
    where empty components and [.] components do not count. *)
Definition path_name (filename : string) : string :=
  last (filter (fun c => negb (String.eqb c "" || String.eqb c "."))
          (split_slash filename)) "".

(** [Path(filename).suffix]: the name from its last dot on, when that dot is
    neither the first nor the last character of the name. *)
Definition path_suffix (filename : string) : string :=
  let name := path_name filename in
  match rfind_dot name with
  | Some i =>
      if ((0 <? i) && (i + 1 <? String.length name))%nat
      then substring i (String.length name - i) name
      else ""
  | None => ""
  end.

(** Lines 283-287. *)
Definition image_extensions : list string :=
  [".jpg"; ".jpeg"; ".png"; ".webp"; ".heic"; ".heif"].

Definition is_image (file_extension : string)
    (receipt_content_type : option string) : bool :=
  existsb (String.eqb file_extension) image_extensions
  || (truthy_str receipt_content_type
      && startswith (str_opt receipt_content_type) "image/").

Definition is_pdf (file_extension : string)
    (receipt_content_type : option string) : bool :=
  String.eqb file_extension ".pdf"
  || match receipt_content_type with
     | Some c => String.eqb c "application/pdf"
     | None => false
     end.

(** The three branches of lines 289-297. *)
Inductive attachment_kind : Type := Image | Pdf | Document.

Definition classify (receipt_filename : string)
    (receipt_content_type : option string) : attachment_kind :=
  let file_extension := lower (path_suffix receipt_filename) in
  if is_image file_extension receipt_content_type then Image
  else if is_pdf file_extension receipt_content_type then Pdf
  else Document.

Definition api_method (k : attachment_kind) : string :=
  match k with
  | Image => "sendPhoto"
  | Pdf => "sendDocument"
  | Document => "sendDocument"
  end.

Definition file_field (k : attachment_kind) : string :=
  match k with
  | Image => "photo"
  | Pdf => "document"
  | Document => "document"
  end.

(** The call of lines 299-314. *)
Definition file_request (bot_token : string) (admin_id : Z) (message : string)
    (receipt_data receipt_filename : string)
    (receipt_content_type : option string) : request :=
  let k := classify receipt_filename receipt_content_type in
  PostMultipart ("https://api.telegram.org/bot" ++ bot_token ++ "/" ++ api_method k)
    (str_int admin_id) message "Markdown" (file_field k)
    (or_str (Some receipt_filename) "receipt") receipt_data
    (if truthy_str receipt_content_type then receipt_content_type else None) 30.

(** The call of lines 333-340. *)
Definition text_request (bot_token : string) (admin_id : Z) (message : string)
    : request :=
  PostJson ("https://api.telegram.org/bot" ++ bot_token ++ "/sendMessage")
    admin_id message "Markdown" None 30.

(** [_send_notification_with_receipt], lines 262-349. *)
Definition _send_notification_with_receipt (bot_token : string) (admin_id : Z)
    (message : string) (receipt_data : option string)
    (receipt_filename receipt_content_type : option string) : M bool :=
  try_except
    (file_sent <-
       (if truthy_str receipt_data && truthy_str receipt_filename
        then
          try_except
            (response <- post (file_request bot_token admin_id message
                                 (str_opt receipt_data) (str_opt receipt_filename)
                                 receipt_content_type) ;;
             raise_for_status response ;;
             result <- json response ;;
             ret (truthy_bool (get (ok result))))
            (fun e =>
               match exn_class_of e with
               | HTTPStatusError =>
                   logger ERROR ("HTTP ошибка при отправке файла администратору "
                                 ++ str_int admin_id ++ ": "
                                 ++ str_int (exn_status_code e) ++ " - "
                                 ++ exn_response_text e) ;;
                   ret false
               | _ =>
                   logger ERROR ("Исключение при отправке файла администратору "
                                 ++ str_int admin_id) ;;
                   ret false
               end)
        else ret false) ;;
     if file_sent then ret true
     else
       response <- post (text_request bot_token admin_id message) ;;
       raise_for_status response ;;
       result <- json response ;;
       if negb (truthy_bool (get (ok result))) then ret false else ret true)
    (fun e =>
       logger ERROR ("Ошибка при отправке уведомления администратору "
                     ++ str_int admin_id ++ ": " ++ exn_str e) ;;
       ret false).

(** An entry of [items_details], line 186. *)
Record item_detail : Type := mk_detail {
  detail_product_name : option string;
  detail_variant_name : string;
  detail_quantity : option Z
}.

(** [next((v for v in variants if v.get("id") == variant_id), None)]. *)
Definition find_variant (variant_id : string) (variants : list variant)
    : option variant :=
  find (fun v => match get (variant_id_of v) with
                 | Some i => String.eqb i variant_id
                 | None => false
                 end) variants.

(** The body of the loop of lines 164-186, for one line item. *)
Definition item_details (it : item) : M item_detail :=
  let product_id := get (item_product_id it) in
  let variant_id := get (item_variant_id it) in
  let quantity := get_default (item_quantity it) 1%Z in
  let product_name := get_default (item_product_name it) "Товар" in
  let variant_name := get (item_variant_name it) in
  names <-
    (if negb (truthy_str variant_name) && truthy_str variant_id
        && truthy_str product_id
     then
       try_except
         (found <- products_find_one (str_opt product_id) ;;
          match found with
          | Some p =>
              variants <-
                match get_default (product_variants p) [] with
                | Some l => ret l
                | None => raise (mk_exn OtherException "TypeError"
                                   "'NoneType' object is not iterable" 0 "")
                end ;;
              let variant_name' :=
                match find_variant (str_opt variant_id) variants with
                | Some v => get_default (variant_name_of v) ""
                | None => variant_name
                end in
              let product_name' :=
                if negb (truthy_str product_name)
                then get_default (product_name_of p) "Товар"
                else product_name in
              ret (product_name', variant_name')
          | None => ret (product_name, variant_name)
          end)
         (fun _ => ret (product_name, variant_name))
     else ret (product_name, variant_name)) ;;
  ret (mk_detail (fst names) (or_str (snd names) "") quantity).

(** The loop over [items]. *)
Fixpoint items_details (items : list item) : M (list item_detail) :=
  match items with
  | [] => ret []
  | it :: rest =>
      d <- item_details it ;;
      ds <- items_details rest ;;
      ret (d :: ds)
  end.

(** Lines 190-192: the lines of the product list, numbered from [idx]. *)
Fixpoint items_lines (idx : Z) (details : list item_detail) : string :=
  match details with
  | [] => ""
  | d :: rest =>
      let variant_info :=
        if truthy_str (Some (detail_variant_name d))
        then " (" ++ detail_variant_name d ++ ")" else "" in
      str_int idx ++ ". " ++ str_opt (detail_product_name d) ++ variant_info
        ++ " × " ++ str_int_opt (detail_quantity d) ++ nl
        ++ items_lines (idx + 1) rest
  end.

Definition items_text (details : list item_detail) : string :=
  "📦 *Товары:*" ++ nl ++ items_lines 1 details.

(** Line 203: [(item.get("price", 0) or 0) * (item.get("quantity", 0) or 0)],
    the product of a float and an [int]. *)
Definition line_total (it : item) : Q :=
  float_mul (or_amount (get_default (item_price it) 0) 0)
    (float_of_int (or_int (get_default (item_quantity it) 0%Z) 0)).

(** Line 203: [sum(...)], which adds the products from the left, starting
    from 0, each addition rounded (CPython up to 3.11; from 3.12 on [sum]
    carries a correction term for floats). *)
Definition items_total (items : list item) : Q :=
  fold_left (fun acc it => float_add acc (line_total it)) items 0.

(** Line 205. *)
Definition delivery_fee (total_amount : Q) (items : list item) : Q :=
  float_sub total_amount (items_total items).

(** Lines 198-200. *)
Definition address_link (delivery_address : string) : string :=
  "[" ++ delivery_address ++ "](" ++ "https://2gis.kz/search/"
    ++ quote delivery_address ++ ")".

(** Lines 206-217. *)
Definition accepted_message (order_id customer_name customer_phone
    delivery_address : string) (total_amount : Q) (items : list item)
    (delivery_time_slot : string) (details : list item_detail) : string :=
  "✅ *Заказ принят!*" ++ nl ++ nl
  ++ "📋 Заказ: `" ++ last_chars 6 order_id ++ "`" ++ nl
  ++ "⏰ Время доставки: *" ++ delivery_time_slot ++ "*" ++ nl ++ nl
  ++ "👤 Клиент: " ++ customer_name ++ nl
  ++ "📞 Телефон: " ++ customer_phone ++ nl
  ++ "📍 Адрес: " ++ address_link delivery_address ++ nl
  ++ "💰 Товары: " ++ format_amount (items_total items) ++ " ₸" ++ nl
  ++ "🚚 Доставка: " ++ format_amount (delivery_fee total_amount items) ++ " ₸" ++ nl
  ++ "💰 *Итого: " ++ format_amount total_amount ++ " ₸*" ++ nl ++ nl
  ++ items_text details.

(** Lines 219-234: the receipt file, its name and its content type. *)
Definition fetch_receipt (receipt_file_id : option string)
    : M (option string * option string * option string) :=
  if truthy_str receipt_file_id
  then
    try_except
      (grid_file <- fs_get (str_opt receipt_file_id) ;;
       receipt_data <- read grid_file ;;
       let receipt_filename := or_str (grid_filename grid_file) "receipt" in
       let receipt_content_type :=
         or_str (grid_content_type grid_file) "application/octet-stream" in
       ret (if truthy_str (Some receipt_data) then Some receipt_data else None,
            Some receipt_filename, Some receipt_content_type))
      (fun _ => ret (None, None, None))
  else ret (None, None, None).

(** [notify_admin_order_accepted], lines 125-259. *)
Definition notify_admin_order_accepted (order_id customer_name customer_phone
    delivery_address : string) (total_amount : Q) (items : list item)
    (user_id : Z) (receipt_file_id : option string)
    (delivery_time_slot : string) : M unit :=
  if negb (truthy_str (telegram_bot_token cfg)) then ret tt
  else
    match admin_ids cfg with
    | [] => ret tt
    | _ =>
        details <- items_details items ;;
        let message :=
          accepted_message order_id customer_name customer_phone
            delivery_address total_amount items delivery_time_slot details in
        receipt <- fetch_receipt receipt_file_id ;;
        let '(receipt_data, receipt_filename, receipt_content_type) := receipt in
        results <- gather
          (map (fun admin_id =>
                  sent_ok <- _send_notification_with_receipt
                               (str_opt (telegram_bot_token cfg)) admin_id message
                               receipt_data receipt_filename receipt_content_type ;;
                  ret (Some sent_ok))
               (admin_ids cfg)) ;;
        let failed_count := (List.length results - success_count results)%nat in
        if (0 <? failed_count)%nat
        then logger ERROR ("Не удалось отправить полное уведомление о принятом заказе "
                           ++ order_id ++ " " ++ str_int (Z.of_nat failed_count)
                           ++ " админам")
        else ret tt
    end.

(** The registry handle [db] of [notify_customer_order_status]: [None], or
    a database of Motor. *)
Inductive AsyncIOMotorDatabase : Type := motor_database.

(** [bool(db)], the test [if db and ...] of line 441.  [None] is false.  A
    database of Motor hands the test to the database of PyMongo, which does
    not implement truth value testing and raises. *)
Definition truth_value_error : exn :=
  mk_exn OtherException "NotImplementedError"
    ("Database objects do not implement truth value testing or bool(). "
     ++ "Please compare with None instead: database is not None") 0 "".

Definition truth_value (db : option AsyncIOMotorDatabase) : M bool :=
  match db with
  | None => ret false
  | Some _ => raise truth_value_error
  end.

(** Lines 413-419. *)
Definition invalid_user_phrases : list string :=
  ["chat not found"; "user not found"; "receiver not found";
   "chat_id is empty"; "peer_id_invalid"].

Definition blocked_phrases : list string :=
  ["blocked"; "bot blocked"; "bot was blocked"; "user is deactivated"].

Definition is_invalid_user (error_description_lower : string) : bool :=
  existsb (fun phrase => contains phrase error_description_lower)
    invalid_user_phrases.

Definition is_blocked (error_description_lower : string) : bool :=
  existsb (fun phrase => contains phrase error_description_lower)
    blocked_phrases.

Definition code_is (error_code : option Z) (n : Z) : bool :=
  match error_code with
  | Some c => (c =? n)%Z
  | None => false
  end.

(** Lines 421-432. *)
Definition error_type (invalid_user blocked : bool) (error_code : option Z)
    : string :=
  if invalid_user then "невалидный пользователь"
  else if blocked then "пользователь заблокировал бота"
  else if code_is error_code 429 then "rate limit (слишком много запросов)"
  else if code_is error_code 400 then "неверный запрос"
  else if code_is error_code 403 then "доступ запрещен"
  else "неизвестная ошибка".

(** Lines 378-389. *)
Definition status_message (order_status : string)
    (rejection_reason delivery_time_slot : option string) : string :=
  if String.eqb order_status "новый"
  then "✅ Ваш заказ получен. Вы получите уведомление о времени доставки."
  else if String.eqb order_status "принят"
  then
    if truthy_str delivery_time_slot
    then "✅ Ваш заказ принят! Доставка будет осуществлена в период *"
         ++ str_opt delivery_time_slot ++ "*."
    else "✅ Ваш заказ принят!"
  else if String.eqb order_status "отказано"
  then
    let reason_text :=
      if truthy_str rejection_reason
      then nl ++ nl ++ "Причина: " ++ str_opt rejection_reason else "" in
    "❌ Ваш заказ отклонен по какой-то причине." ++ reason_text
  else "Статус вашего заказа изменён: " ++ order_status.

(** Line 392. *)
Definition customer_message (order_id order_status : string)
    (rejection_reason delivery_time_slot : option string) : string :=
  status_message order_status rejection_reason delivery_time_slot
  ++ nl ++ nl ++ "📋 Заказ: `" ++ last_chars 6 order_id ++ "`" ++ nl
  ++ "📊 Статус: *" ++ order_status ++ "*".

(** [s[:n]]: the first [n] characters. *)
Fixpoint first_chars (n : nat) (s : string) : string :=
  match s with
  | EmptyString => EmptyString
  | String c r =>
      if is_continuation c then String c (first_chars n r)
      else match n with
           | O => EmptyString
           | S k => String c (first_chars k r)
           end
  end.

(** [notify_customer_order_status], lines 352-472. *)
Definition notify_customer_order_status (user_id : Z)
    (order_id order_status : string)
    (customer_name rejection_reason delivery_time_slot : option string)
    (db : option AsyncIOMotorDatabase) : M unit :=
  if negb (truthy_str (telegram_bot_token cfg)) then ret tt
  else
    let message :=
      customer_message order_id order_status rejection_reason delivery_time_slot in
    let context :=
      "user_id=" ++ str_int user_id ++ ", order_id=" ++ order_id
      ++ ", status=" ++ order_status in
    try_except
      (let api_url := "https://api.telegram.org/bot"
                      ++ str_opt (telegram_bot_token cfg) ++ "/sendMessage" in
       response <- post (PostJson api_url user_id message "Markdown" None 10) ;;
       result <- json response ;;
       if negb (truthy_bool (get (ok result)))
       then
         let code := get (error_code result) in
         error_description <-
           match get_default (description result) "Unknown error" with
           | Some d => ret d
           | None => raise (mk_exn OtherException "AttributeError"
                              "'NoneType' object has no attribute 'lower'" 0 "")
           end ;;
         let error_description_lower := lower error_description in
         let invalid_user := is_invalid_user error_description_lower in
         let blocked := is_blocked error_description_lower in
         let kind := error_type invalid_user blocked code in
         logger WARNING ("Ошибка при отправке уведомления клиенту (" ++ kind
                         ++ "): " ++ error_description ++ ", error_code="
                         ++ str_int_opt code ++ ", " ++ context) ;;
         supplied <- truth_value db ;;
         if supplied && (invalid_user || blocked)
         then
           try_except
             (deleted_count <- customers_delete_one user_id ;;
              if (0 <? deleted_count)%nat
              then logger INFO ("Удален невалидный пользователь из базы: user_id="
                                ++ str_int user_id ++ ", reason=" ++ kind
                                ++ ", order_id=" ++ order_id)
              else ret tt)
             (fun e =>
                logger ERROR ("Ошибка при удалении невалидного пользователя из базы: user_id="
                              ++ str_int user_id ++ ", order_id=" ++ order_id
                              ++ ", error=" ++ exn_str e))
         else ret tt
       else ret tt)
      (fun e =>
         match exn_class_of e with
         | TimeoutException =>
             logger ERROR ("Таймаут при отправке уведомления клиенту: " ++ context
                           ++ ", timeout=10.0s")
         | HTTPStatusError =>
             logger ERROR ("HTTP ошибка при отправке уведомления клиенту: status_code="
                           ++ str_int (exn_status_code e) ++ ", " ++ context
                           ++ ", response_text=" ++ first_chars 200 (exn_response_text e))
         | OtherException =>
             logger ERROR ("Исключение при отправке уведомления клиенту: "
                           ++ exn_name e ++ ": " ++ exn_str e ++ ", " ++ context)
         end).

End Code.
End Notifications.

(** ** [src/setup_webhook.py] *)

Module SetupWebhook.
Import PyStr.

(** Lines 28 and 96: [backend_url.rstrip('/').replace('/api', '')]. *)
Definition normalize (backend_url : string) : string :=
  replace "/api" "" (rstrip "/" backend_url).

(** Line 32. *)
Definition webhook_url (backend_url : string) : string :=
  normalize backend_url ++ "/api/bot/webhook".

(** Line 59. *)
Definition setup_url (backend_url : string) : string :=
  normalize backend_url ++ "/api/bot/webhook/setup".

(** Line 97. *)
Definition status_url (backend_url : string) : string :=
  normalize backend_url ++ "/api/bot/webhook/status".

(** The HTTP calls of the tool. *)
Inductive call : Type :=
| SetWebhook (url webhook : string) (allowed_updates : list string)
| BackendSetup (url backend : string)
| StatusQuery (url : string).

(** The call made by [setup_webhook], lines 30-70. *)
Definition setup_webhook_call (backend_url : string) (bot_token : option string)
    : call :=
  if Py.truthy_str bot_token
  then SetWebhook ("https://api.telegram.org/bot" ++ Py.str_opt bot_token ++ "/setWebhook")
         (webhook_url backend_url) ["callback_query"; "message"]
  else BackendSetup (setup_url backend_url) (normalize backend_url).

(** The call made by [check_webhook_status], lines 96-104. *)
Definition check_webhook_status_call (backend_url : string) : call :=
  StatusQuery (status_url backend_url).

End SetupWebhook.

(** ** Notions used in the statements *)

Module Spec.
Import PyStr Py World Amount Notifications.

(** *** Amounts *)

(** [c] does not occur in [s]. *)
Fixpoint free_of (c : ascii) (s : string) : bool :=
  match s with
  | EmptyString => true
  | String a r => negb (Ascii.eqb a c) && free_of c r
  end.

Definition digit_char (d : Z) : ascii := ascii_of_nat (48 + Z.to_nat d).

(** The sign that [format_2f] writes. *)
Definition sign (amount : Q) : string :=
  match Qcompare amount 0 with
  | Lt => "-"
  | _ => ""
  end.

(** The separator and the fractional digits that are left of [n]
    hundredths once trailing zeros and a trailing separator are gone. *)
Definition fraction_tail (n : Z) : string :=
  if (n mod 10 =? 0)%Z
  then if ((n / 10) mod 10 =? 0)%Z then "" else "." ++ digit ((n / 10) mod 10)
  else "." ++ digit ((n / 10) mod 10) ++ digit (n mod 10).

(** The rendering of an amount, in the words of the specification: the
    integer when the fractional part is zero, else two fractional digits
    without trailing zeros. *)
Definition format_amount_spec (amount : Q) : string :=
  if Qeq_bool amount (inject_Z (Qfloor amount))
  then str_int (Qfloor amount)
  else sign amount ++ str_int (hundredths amount / 100)
         ++ fraction_tail (hundredths amount).

(** *** The accepted-order message *)










(** *** Attachments *)

(** The extension the classification looks at. *)
Definition extension (receipt_filename : string) : string :=
  lower (path_suffix receipt_filename).

Definition image_extension (receipt_filename : string) : bool :=
  existsb (String.eqb (extension receipt_filename)) image_extensions.

Definition image_type (receipt_content_type : option string) : bool :=
  match receipt_content_type with
  | Some c => startswith c "image/"
  | None => false
  end.

(** *** The customer message *)

(** The footer of line 392. *)
Definition footer (order_id order_status : string) : string :=
  nl ++ nl ++ "📋 Заказ: `" ++ last_chars 6 order_id ++ "`" ++ nl
  ++ "📊 Статус: *" ++ order_status ++ "*".

(** *** The webhook tool *)

(** [n] times the character [/]. *)
Fixpoint slashes (n : nat) : string :=
  match n with
  | O => ""
  | S k => slashes k ++ "/"
  end.

End Spec.

(** ** Notions used in the statements about deliveries *)

Module Delivery.
Import PyStr Py World Amount Notifications.

(** The recipient of a provider call, and the message it carries. *)
Definition addressed_to (admin_id : Z) (r : request) : bool :=
  match r with
  | PostJson _ chat_id _ _ _ _ => (chat_id =? admin_id)%Z
  | PostMultipart _ chat_id _ _ _ _ _ _ _ => String.eqb chat_id (str_int admin_id)
  end.

Definition request_text (r : request) : string :=
  match r with
  | PostJson _ _ text _ _ _ => text
  | PostMultipart _ _ caption _ _ _ _ _ _ => caption
  end.

(** The aggregate diagnostics of lines 92 and 259 start with these words;
    no other record of the log does. *)
Definition is_aggregate (l : log_record) : bool :=
  prefix "Не удалось отправить" (message l).

(** A record written for one recipient. *)
Definition per_recipient (l : log_record) : Prop :=
  level l = ERROR /\ is_aggregate l = false.

(** The provider acknowledged a call: it answered, with a success status
    and a JSON object whose [ok] is true. *)
Definition acknowledged (answer : exn + response) : bool :=
  match answer with
  | inr resp =>
      is_success resp
      && match response_json resp with
         | inr body => truthy_bool (get (ok body))
         | inl _ => false
         end
  | inl _ => false
  end.

(** No call raises: the provider always answers with a success status and
    a JSON object. *)
Definition answers_all (env : environment) : Prop :=
  forall n r, exists resp body,
    provider env n r = inr resp /\ is_success resp = true
    /\ response_json resp = inr body.

(** Every call is answered with a JSON object, whatever the status. *)
Definition answers_json (env : environment) : Prop :=
  forall n r, exists resp body,
    provider env n r = inr resp /\ response_json resp = inr body.

(** What a delivery to the recipients [admins] adds to the world: calls
    that carry [msg], at least one to each recipient and none to anyone
    else, and records written for single recipients. *)
Definition delivers (env : environment) (admins : list Z) (msg : string)
    (w w' : world) : Prop :=
  exists calls lines,
    sent w' = (sent w ++ calls)%list /\ log w' = (log w ++ lines)%list
    /\ db_calls w' = db_calls w /\ customers w' = customers w
    /\ (forall a, In a admins -> exists r, In r calls /\ addressed_to a r = true)
    /\ Forall (fun r => request_text r = msg
                       /\ exists a, In a admins /\ addressed_to a r = true) calls
    /\ Forall per_recipient lines
    /\ (answers_all env -> lines = []).

(** The number of results of a batch that are not [True]. *)
Definition failed_count (results : list (exn + option bool)) : nat :=
  List.length results - success_count results.

(** The records a run added to the log. *)
Definition new_records (w w' : world) : list log_record :=
  skipn (List.length (log w)) (log w').

(** The message of line 69. *)
Definition new_order_message (order_id : string) : string :=
  "🆕 *Новый заказ!*" ++ nl ++ nl ++ "📋 Заказ: `" ++ last_chars 6 order_id ++ "`".

(** The aggregate diagnostics of lines 92 and 259, for [m] failures. *)
Definition new_order_aggregate (order_id : string) (m : nat) : log_record :=
  mk_log ERROR ("Не удалось отправить уведомление о новом заказе "
                ++ order_id ++ " " ++ str_int (Z.of_nat m) ++ " админам").

Definition accepted_aggregate (order_id : string) (m : nat) : log_record :=
  mk_log ERROR ("Не удалось отправить полное уведомление о принятом заказе "
                ++ order_id ++ " " ++ str_int (Z.of_nat m) ++ " админам").

Definition aggregate_records (line : nat -> log_record) (m : nat)
    : list log_record :=
  if (0 <? m)%nat then [line m] else [].

(** What a batch leaves behind: one result per recipient, a call with the
    message to every recipient, records for single recipients (none when no
    call raises), and after them the aggregate diagnostic, present exactly
    when some result is not [True]. *)
Definition batch_report (env : environment) (admins : list Z) (msg : string)
    (line : nat -> log_record) (w : world) (results : list (exn + option bool))
    (w' : world) : Prop :=
  List.length results = List.length admins
  /\ (forall a, In a admins ->
        exists r, In r (skipn (List.length (sent w)) (sent w'))
                  /\ addressed_to a r = true /\ request_text r = msg)
  /\ customers w' = customers w
  /\ exists lines,
       new_records w w' = (lines ++ aggregate_records line (failed_count results))%list
       /\ Forall per_recipient lines
       /\ (answers_all env -> lines = [])
       /\ filter is_aggregate (new_records w w')
          = aggregate_records line (failed_count results).

(** The receipt as the blob store gives it: [None] when there is no
    reference, when the reference is not an object identifier, when the
    lookup or the read raises, or when the file is empty. *)
Definition stored_receipt (env : environment) (receipt_file_id : option string)
    : option string :=
  if truthy_str receipt_file_id && valid_object_id (str_opt receipt_file_id)
  then match gridfs_get env (str_opt receipt_file_id) with
       | inr f =>
           match grid_read f with
           | inr data => if truthy_str (Some data) then Some data else None
           | inl _ => None
           end
       | inl _ => None
       end
  else None.

(** The call of lines 397-405. *)
Definition customer_request (cfg : settings) (user_id : Z)
    (order_id order_status : string)
    (rejection_reason delivery_time_slot : option string) : request :=
  PostJson ("https://api.telegram.org/bot" ++ str_opt (telegram_bot_token cfg)
            ++ "/sendMessage")
    user_id
    (customer_message order_id order_status rejection_reason delivery_time_slot)
    "Markdown" None 10.

(** The description of a response names a recipient that is invalid or has
    blocked the sender: one of the phrases occurs in it, whatever the case
    of its letters. *)
Definition permanent_failure (error_description : string) : bool :=
  is_invalid_user (lower error_description)
  || is_blocked (lower error_description).

(** The answer of the provider is a response that is not [ok] and whose
    description classifies as a permanent failure. *)
Definition calls_for_pruning (answer : exn + response) : bool :=
  match answer with
  | inr resp =>
      match response_json resp with
      | inr body =>
          negb (truthy_bool (get (ok body)))
          && match get_default (description body) "Unknown error" with
             | Some d => permanent_failure d
             | None => false
             end
      | inl _ => false
      end
  | inl _ => false
  end.

(** The words [user_id=..., order_id=..., status=...] of the records of the
    customer notification. *)
Definition customer_context (user_id : Z) (order_id order_status : string)
    : string :=
  "user_id=" ++ str_int user_id ++ ", order_id=" ++ order_id
  ++ ", status=" ++ order_status.

(** The record of lines 434-438, for an answer that is not [ok] with the
    error code [code] and the description [d]. *)
Definition refusal_record (user_id : Z) (order_id order_status : string)
    (code : option Z) (d : string) : log_record :=
  mk_log WARNING
    ("Ошибка при отправке уведомления клиенту ("
     ++ error_type (is_invalid_user (lower d)) (is_blocked (lower d)) code
     ++ "): " ++ d ++ ", error_code=" ++ str_int_opt code ++ ", "
     ++ customer_context user_id order_id order_status).

(** The record of lines 467-472 for the exception of [bool(db)]. *)
Definition truth_test_record (user_id : Z) (order_id order_status : string)
    : log_record :=
  mk_log ERROR
    ("Исключение при отправке уведомления клиенту: "
     ++ exn_name truth_value_error ++ ": " ++ exn_str truth_value_error ++ ", "
     ++ customer_context user_id order_id order_status).

(** The catalogue has no name for the variant of a line item: the lookup
    raises, finds no product, finds a product whose variants cannot be
    read, or finds no variant of that identifier. *)
Definition lookup_fails (env : environment) (it : item) : Prop :=
  match find_one env (str_opt (get (item_product_id it))) with
  | inl _ => True
  | inr None => True
  | inr (Some p) =>
      match get_default (product_variants p) [] with
      | None => True
      | Some variants =>
          find_variant (str_opt (get (item_variant_id it))) variants = None
      end
  end.

End Delivery.

(** ** Inputs of the examples *)

Module Examples.
Import PyStr Py World Amount Notifications.

Definition order_id : string := "65a1b2c3d4e5f6a7b8c9d0e1".

(** The line item [{price: 500, quantity: 2}]. *)
Definition two_at_500 : item :=
  mk_item Missing Missing (Val 2%Z) Missing Missing (Val 500).

Definition one_admin : settings := mk_settings (Some "TOKEN") [7%Z].

Definition two_admins : settings := mk_settings (Some "TOKEN") [7%Z; 8%Z].

Definition no_token : settings := mk_settings None [7%Z].

Definition refused : exn :=
  mk_exn OtherException "ConnectError" "connection refused" 0 "".

Definition timed_out : exn :=
  mk_exn TimeoutException "ReadTimeout" "timed out" 0 "".

(** A provider that cannot be reached, an empty catalogue and an empty blob
    store. *)
Definition unreachable : environment :=
  mk_env (fun _ _ => inl refused) (fun _ => inr None) (fun _ => inl refused)
    (fun _ => None) (fun _ => "").

(** A provider that answers every call with the status [status] and the
    JSON object [body]. *)
Definition answering (status : Z) (body : tg_body) : environment :=
  mk_env (fun _ _ => inr (mk_response status "" (inr body)))
    (fun _ => inr None) (fun _ => inl refused) (fun _ => None) (fun _ => "").

(** [{"ok": true}]. *)
Definition accepted_body : tg_body := mk_body (Val true) Missing Missing.

(** [{"ok": false, "error_code": 403,
      "description": "Forbidden: bot was blocked by the user"}]. *)
Definition blocked_body : tg_body :=
  mk_body (Val false) (Val 403%Z) (Val "Forbidden: bot was blocked by the user").

(** [{"ok": false, "error_code": 429, "description": "Too Many Requests"}]. *)
Definition rate_limited_body : tg_body :=
  mk_body (Val false) (Val 429%Z) (Val "Too Many Requests").

(** [{"ok": false, "error_code": 400,
      "description": "Bad Request: message text is empty"}]. *)
Definition bad_request_body : tg_body :=
  mk_body (Val false) (Val 400%Z) (Val "Bad Request: message text is empty").

(** A receipt of the blob store, and one that cannot be read. *)
Definition receipt_file : grid_file :=
  mk_grid_file (inr "JPEGDATA") (Some "receipt.jpg") (Some "image/jpeg").

Definition unreadable_file : grid_file :=
  mk_grid_file (inl refused) (Some "receipt.jpg") None.

Definition empty_file : grid_file :=
  mk_grid_file (inr "") (Some "receipt.jpg") None.

(** A blob store that holds [f] under every reference, with a provider that
    refuses every file and acknowledges every text message. *)
Definition files_refused (f : grid_file) : environment :=
  mk_env (fun _ r =>
            match r with
            | PostMultipart _ _ _ _ _ _ _ _ _ => inl refused
            | PostJson _ _ _ _ _ _ => inr (mk_response 200 "" (inr accepted_body))
            end)
    (fun _ => inr None) (fun _ => inr f) (fun _ => None) (fun _ => "").





(** A line item that names a variant by its identifier only. *)
Definition flavoured : item :=
  mk_item (Val "p1") (Val "v1") (Val 1%Z) (Val "Чай") Missing (Val 500).

End Examples.

(** ** [src/setup_webhook.py]: the tool as a whole *)

Module WebhookTool.
Import PyStr Py SetupWebhook.

(** An exception of the tool: the handlers tell [httpx.ConnectError] from
    every other [Exception]. *)
Record tool_exn : Type := mk_tool_exn {
  is_connect_error : bool;
  tool_exn_str : string              (* str(e) *)
}.

(** The keys that [setup_webhook] reads in the JSON object of an answer. *)
Record setup_body : Type := mk_setup_body {
  body_ok : field bool;
  body_description : field string;
  body_success : field bool;
  body_url : field string;
  body_detail : field string
}.

(** An HTTP answer.  [tool_json] is the body as [setup_webhook] reads it,
    with [response.json()] and then [.get]: the object, or the exception of
    a body that is not JSON or not an object.  [tool_dump] is the body as
    [check_webhook_status] reads it, with [response.json()] and then
    [json.dumps(result, indent=2, ensure_ascii=False)]: the text printed, or
    the exception of a body that is not JSON. *)
Record tool_response : Type := mk_tool_response {
  tool_status : Z;
  tool_text : string;
  tool_json : tool_exn + setup_body;
  tool_dump : tool_exn + string
}.

(** The lines printed and the HTTP calls made, in order. *)
Record tool_world : Type := mk_tool_world {
  printed : list string;
  called : list call
}.

(** The network: the answer to the [n]-th call. *)
Definition network : Type := nat -> call -> tool_exn + tool_response.

(** A computation of the tool returns or raises, and changes the world. *)
Definition T (A : Type) : Type := tool_world -> (tool_exn + A) * tool_world.

Definition tret {A : Type} (a : A) : T A := fun w => (inr a, w).

Definition traise {A : Type} (e : tool_exn) : T A := fun w => (inl e, w).

Definition tbind {A B : Type} (m : T A) (k : A -> T B) : T B :=
  fun w =>
    match m w with
    | (inr a, w') => k a w'
    | (inl e, w') => (inl e, w')
    end.

Definition ttry {A : Type} (m : T A) (handler : tool_exn -> T A) : T A :=
  fun w =>
    match m w with
    | (inr a, w') => (inr a, w')
    | (inl e, w') => handler e w'
    end.

(** [print(line)]. *)
Definition print (line : string) : T unit :=
  fun w => (inr tt, mk_tool_world (printed w ++ [line]) (called w)).

(** [s * n]. *)
Fixpoint times (s : string) (n : nat) : string :=
  match n with
  | O => ""
  | S k => s ++ times s k
  end.

(** The parsed command line: [--backend-url], [--bot-token],
    [--check-status]. *)
Record arguments : Type := mk_arguments {
  arg_backend_url : string;
  arg_bot_token : option string;
  arg_check_status : bool
}.

Section Tool.

Variable net : network.

Notation "x <- c1 ;; c2" := (tbind c1 (fun x => c2))
  (at level 61, c1 at next level, right associativity).
Notation "c1 ;; c2" := (tbind c1 (fun _ => c2))
  (at level 61, right associativity).

(** [client.post(...)] and [client.get(...)]. *)
Definition request (c : call) : T tool_response :=
  fun w =>
    let w' := mk_tool_world (printed w) (called w ++ [c]) in
    match net (List.length (called w)) c with
    | inl e => (inl e, w')
    | inr resp => (inr resp, w')
    end.

(** [response.json()], as far as the following [.get] needs it. *)
Definition json_object (resp : tool_response) : T setup_body :=
  match tool_json resp with
  | inl e => traise e
  | inr body => tret body
  end.

(** [setup_webhook], lines 16-91. *)
Definition setup_webhook (backend_url : string) (bot_token : option string)
    : T bool :=
  if truthy_str bot_token
  then
    print "🔧 Настраиваем webhook через Telegram API..." ;;
    print ("   Webhook URL: " ++ webhook_url backend_url) ;;
    ttry
      (response <- request
         (SetWebhook ("https://api.telegram.org/bot" ++ str_opt bot_token
                      ++ "/setWebhook")
            (webhook_url backend_url) ["callback_query"; "message"]) ;;
       result <- json_object response ;;
       if truthy_bool (get (body_ok result))
       then print "✅ Webhook успешно настроен!" ;; tret true
       else
         print ("❌ Ошибка: "
                ++ str_opt (get_default (body_description result) "Unknown error")) ;;
         tret false)
      (fun e =>
         print ("❌ Ошибка при настройке: " ++ tool_exn_str e) ;;
         tret false)
  else
    print "🔧 Настраиваем webhook через API бэкенда..." ;;
    print ("   Backend URL: " ++ normalize backend_url) ;;
    print ("   Setup endpoint: " ++ setup_url backend_url) ;;
    ttry
      (response <- request (BackendSetup (setup_url backend_url)
                              (normalize backend_url)) ;;
       if (tool_status response =? 200)%Z
       then
         result <- json_object response ;;
         if truthy_bool (get (body_success result))
         then
           print "✅ Webhook успешно настроен!" ;;
           print ("   URL: " ++ str_opt (get (body_url result))) ;;
           tret true
         else
           print ("❌ Ошибка: "
                  ++ str_opt (get_default (body_detail result) "Unknown error")) ;;
           tret false
       else
         print ("❌ Ошибка HTTP " ++ str_int (tool_status response) ++ ": "
                ++ tool_text response) ;;
         tret false)
      (fun e =>
         if is_connect_error e
         then
           print ("❌ Не удалось подключиться к " ++ normalize backend_url) ;;
           print "   Проверьте, что бэкенд доступен из интернета" ;;
           tret false
         else
           print ("❌ Ошибка: " ++ tool_exn_str e) ;;
           tret false).

(** [check_webhook_status], lines 94-113. *)
Definition check_webhook_status (backend_url : string) : T unit :=
  print (nl ++ "📊 Проверяем статус webhook...") ;;
  print ("   Status endpoint: " ++ status_url backend_url) ;;
  ttry
    (response <- request (StatusQuery (status_url backend_url)) ;;
     if (tool_status response =? 200)%Z
     then
       match tool_dump response with
       | inl e => traise e
       | inr dumped =>
           print (nl ++ "📋 Текущий статус webhook:") ;;
           print dumped
       end
     else
       print ("❌ Ошибка HTTP " ++ str_int (tool_status response) ++ ": "
              ++ tool_text response))
    (fun e => print ("❌ Ошибка при проверке статуса: " ++ tool_exn_str e)).

(** [main], lines 116-151, from the parsed arguments on; the value is the
    exit status given to [sys.exit]. *)
Definition main (args : arguments) : T Z :=
  print (times "=" 60) ;;
  print "🤖 Настройка Webhook для Telegram Bot" ;;
  print (times "=" 60) ;;
  success <- setup_webhook (arg_backend_url args) (arg_bot_token args) ;;
  (if arg_check_status args || success
   then check_webhook_status (arg_backend_url args)
   else tret tt) ;;
  if success
  then
    print (nl ++ "✅ Готово! Webhook настроен и готов к работе.") ;;
    tret 0%Z
  else
    print (nl ++ "❌ Не удалось настроить webhook. Проверьте ошибки выше.") ;;
    tret 1%Z.

End Tool.
End WebhookTool.

(** ** The outcome of the tool *)

Module ToolSpec.
Import PyStr Py SetupWebhook WebhookTool.

(** The answer that makes [setup_webhook] succeed: with a bot token, a JSON
    object whose [ok] is true; without one, the status 200 and a JSON object
    whose [success] is true. *)
Definition setup_accepted (bot_token : option string)
    (answer : tool_exn + tool_response) : bool :=
  match answer with
  | inr resp =>
      match tool_json resp with
      | inr body =>
          if truthy_str bot_token
          then truthy_bool (get (body_ok body))
          else (tool_status resp =? 200)%Z && truthy_bool (get (body_success body))
      | inl _ => false
      end
  | inl _ => false
  end.

(** The answer whose body [check_webhook_status] prints. *)
Definition status_shown (answer : tool_exn + tool_response) : option string :=
  match answer with
  | inr resp =>
      if (tool_status resp =? 200)%Z
      then match tool_dump resp with
           | inr dumped => Some dumped
           | inl _ => None
           end
      else None
  | inl _ => None
  end.

End ToolSpec.

(** ** Characters of a string *)

Module StrSpec.
Import PyStr.
(** Every character of [s] satisfies [p]. *)
Fixpoint all_chars (p : ascii -> bool) (s : string) : bool :=
  match s with
  | EmptyString => true
  | String c r => p c && all_chars p r
  end.

(** The characters [quote] writes: the unreserved ones and the percent sign. *)
Definition url_safe (c : ascii) : bool := is_unreserved c || Ascii.eqb c "%".

(** A byte below 128: a character of ASCII. *)
Definition is_ascii (c : ascii) : bool := (nat_of_ascii c <? 128)%nat.
End StrSpec.

(** ** Observations on a run *)

Module Observations.
Import PyStr Py World Amount Notifications Delivery.

(** The bot credential is set and there is an administrator: the test of
    lines 64-66 and 158-160 lets the notification through. *)
Definition configured (cfg : settings) : bool :=
  truthy_str (telegram_bot_token cfg)
  && match admin_ids cfg with
     | [] => false
     | _ :: _ => true
     end.

(** The provider acknowledges every call, and the provider raises on every
    call. *)
Definition acknowledges_all (env : environment) : Prop :=
  forall n r, acknowledged (provider env n r) = true.

Definition unreachable_provider (env : environment) : Prop :=
  forall n r, exists e, provider env n r = inl e.

(** The line item has no variant name of its own and names both a variant
    and a product: the test of line 171. *)
Definition needs_lookup (it : item) : bool :=
  negb (truthy_str (get (item_variant_name it)))
  && truthy_str (get (item_variant_id it))
  && truthy_str (get (item_product_id it)).

(** The catalogue lookups for the line items, and the blob-store lookup
    for a receipt whose reference is an object identifier. *)
Definition catalogue_reads (items : list item) : list db_call :=
  map (fun it => FindProduct (str_opt (get (item_product_id it))))
    (filter needs_lookup items).

Definition receipt_reads (receipt_file_id : option string) : list db_call :=
  if truthy_str receipt_file_id && valid_object_id (str_opt receipt_file_id)
  then [GridGet (str_opt receipt_file_id)]
  else [].

Definition is_info (l : log_record) : bool :=
  match level l with
  | INFO => true
  | _ => false
  end.

(** The call of lines 103-113, with the keyboard as it is sent. *)
Definition simple_request (bot_token : string) (admin_id : Z) (message : string)
    (keyboard : option (list string)) : request :=
  PostJson ("https://api.telegram.org/bot" ++ bot_token ++ "/sendMessage")
    admin_id message "Markdown"
    (match keyboard with
     | Some [] => None
     | _ => keyboard
     end) 30.

(** The record of line 121. *)
Definition simple_failure_record (admin_id : Z) (e : exn) : log_record :=
  mk_log ERROR ("Ошибка при отправке уведомления администратору "
                ++ str_int admin_id ++ ": " ++ exn_str e).

(** The documents of the registry that belong to other users. *)
Definition others (user_id : Z) (registry : list Z) : list Z :=
  filter (fun c => negb (c =? user_id)%Z) registry.

(** The entry of [items_details] for a line item keeps the quantity, the
    variant name and the product name that the line item gives. *)
Definition keeps_given (it : item) (d : item_detail) : Prop :=
  detail_quantity d = get_default (item_quantity it) 1%Z
  /\ (truthy_str (get (item_variant_name it)) = true ->
      Some (detail_variant_name d) = get (item_variant_name it))
  /\ (truthy_str (get_default (item_product_name it) "Товар") = true ->
      detail_product_name d = get_default (item_product_name it) "Товар").

End Observations.

(** * Facts *)

(** ** Strings *)

Module StrFacts.
Import PyStr Spec.

Lemma append_assoc (a b c : string) : (a ++ b) ++ c = a ++ (b ++ c).
Proof. induction a as [|x a IH]; simpl; [reflexivity | now rewrite IH]. Qed.

Lemma append_nil_r (a : string) : a ++ "" = a.
Proof. induction a as [|x a IH]; simpl; [reflexivity | now rewrite IH]. Qed.

Lemma rstrip_snoc (c x : ascii) (s : string) :
  rstrip c (s ++ String x "") =
  if Ascii.eqb x c then rstrip c s else s ++ String x "".
Proof.
  induction s as [|a s IH]; simpl.
  - destruct (Ascii.eqb x c); reflexivity.
  - rewrite IH. destruct (Ascii.eqb x c); [reflexivity|].
    destruct s; reflexivity.
Qed.

Lemma rstrip_free (c : ascii) (s : string) : free_of c s = true -> rstrip c s = s.
Proof.
  induction s as [|a s IH]; simpl; [reflexivity|].
  intros H. apply andb_true_iff in H as [Ha Hs].
  rewrite (IH Hs). destruct s; [|reflexivity].
  apply negb_true_iff in Ha. now rewrite Ha.
Qed.

Lemma free_of_app (c : ascii) (a b : string) :
  free_of c (a ++ b) = free_of c a && free_of c b.
Proof.
  induction a as [|x a IH]; simpl; [reflexivity|].
  now rewrite IH, andb_assoc.
Qed.

Lemma uint_free_of_dot (d : Decimal.uint) :
  free_of "." (DecimalString.NilEmpty.string_of_uint d) = true.
Proof. induction d; simpl; auto. Qed.

Lemma str_int_free_of_dot (z : Z) : free_of "." (str_int z) = true.
Proof.
  unfold str_int. destruct (Z.to_int z) as [d|d]; simpl.
  - destruct d; simpl; auto using uint_free_of_dot.
  - destruct d; simpl; auto using uint_free_of_dot.
Qed.

Lemma rstrip_slashes (s : string) (n : nat) :
  rstrip "/" (s ++ slashes n) = rstrip "/" s.
Proof.
  induction n as [|n IH]; simpl.
  - now rewrite append_nil_r.
  - rewrite <- append_assoc. rewrite (rstrip_snoc "/" "/" (s ++ slashes n)).
    exact IH.
Qed.

Lemma prefix_cons (x c : ascii) (p s : string) :
  prefix (String x p) (String c s) = Ascii.eqb x c && prefix p s.
Proof.
  cbn [prefix]. destruct (ascii_dec x c) as [->|N].
  - now rewrite Ascii.eqb_refl.
  - apply Ascii.eqb_neq in N. now rewrite N.
Qed.

Lemma prefix_nil_l (s : string) : prefix "" s = true.
Proof. now destruct s. Qed.

Lemma replace_from_head (old new : string) (c : ascii) (s : string) :
  replace_from 0 old new (String c s) =
  if prefix old (String c s)
  then new ++ replace_from (String.length old - 1) old new s
  else String c (replace_from 0 old new s).
Proof. reflexivity. Qed.

Lemma replace_absent (old new s : string) :
  contains old s = false -> replace old new s = s.
Proof.
  unfold replace. induction s as [|a s IH]; intros H; [reflexivity|].
  cbn [contains] in H. cbn [replace_from].
  destruct (prefix old (String a s)); [discriminate|].
  now rewrite (IH H).
Qed.

(** An occurrence of [/api] that starts in [String c a] lies within it: the
    characters [a], [p], [i] are not [/]. *)
Lemma prefix_api_extend (c : ascii) (a b : string) :
  prefix "/api" (String c a) = false ->
  prefix "/api" (String c a ++ "/api" ++ b) = false.
Proof.
  cbn [append]. rewrite !prefix_cons.
  destruct (Ascii.eqb "/" c); [|reflexivity]. cbn [andb].
  destruct a as [|c1 a]; cbn [append]; rewrite ?prefix_cons; [reflexivity|].
  destruct (Ascii.eqb "a" c1); [|reflexivity]. cbn [andb].
  destruct a as [|c2 a]; cbn [append]; rewrite ?prefix_cons; [reflexivity|].
  destruct (Ascii.eqb "p" c2); [|reflexivity]. cbn [andb].
  destruct a as [|c3 a]; cbn [append]; rewrite ?prefix_cons; [reflexivity|].
  destruct (Ascii.eqb "i" c3); [|reflexivity]. cbn [andb].
  intros H. destruct a; discriminate H.
Qed.

Lemma replace_api_first (a b : string) :
  contains "/api" a = false ->
  replace "/api" "" (a ++ "/api" ++ b) = a ++ replace "/api" "" b.
Proof.
  unfold replace. induction a as [|c a IH]; intros H.
  - cbn [append]. rewrite replace_from_head, !prefix_cons, prefix_nil_l.
    reflexivity.
  - cbn [contains] in H.
    destruct (prefix "/api" (String c a)) eqn:P; [discriminate|].
    pose proof (prefix_api_extend c a b P) as E.
    change (String c a ++ "/api" ++ b) with (String c (a ++ "/api" ++ b)) in E |- *.
    rewrite replace_from_head, E, (IH H). reflexivity.
Qed.

End StrFacts.

(** ** Amounts *)

Module AmountFacts.
Import PyStr Amount Spec StrFacts.

Lemma digit_cases (d : Z) : (0 <= d < 10)%Z ->
  Ascii.eqb (digit_char d) "." = false /\
  Ascii.eqb (digit_char d) "0" = (d =? 0)%Z.
Proof.
  intros H.
  assert (d = 0 \/ d = 1 \/ d = 2 \/ d = 3 \/ d = 4 \/ d = 5 \/ d = 6 \/ d = 7
          \/ d = 8 \/ d = 9)%Z as C by lia.
  repeat (destruct C as [C|C]; [subst d; split; reflexivity|]).
  subst d; split; reflexivity.
Qed.

(** What the two [rstrip]s of line 31 leave of [p.ab]. *)
Lemma strip_two_digits (p : string) (a b : Z) :
  free_of "." p = true -> (0 <= a < 10)%Z -> (0 <= b < 10)%Z ->
  rstrip "." (rstrip "0" (p ++ "." ++ digit a ++ digit b)) =
  p ++ (if (b =? 0)%Z then if (a =? 0)%Z then "" else "." ++ digit a
        else "." ++ digit a ++ digit b).
Proof.
  intros Hp Ha Hb.
  destruct (digit_cases a Ha) as [Ha1 Ha2], (digit_cases b Hb) as [Hb1 Hb2].
  unfold digit. fold (digit_char a) (digit_char b).
  change (p ++ "." ++ String (digit_char a) "" ++ String (digit_char b) "")
    with (p ++ String "." (String (digit_char a) (String (digit_char b) ""))).
  replace (p ++ String "." (String (digit_char a) (String (digit_char b) "")))
    with (((p ++ String "." "") ++ String (digit_char a) "") ++ String (digit_char b) "")
    by (now rewrite !append_assoc).
  rewrite rstrip_snoc, Hb2.
  destruct (b =? 0)%Z.
  - rewrite rstrip_snoc, Ha2. destruct (a =? 0)%Z.
    + rewrite (rstrip_snoc "0" "." p).
      change (Ascii.eqb "." "0") with false. cbv iota.
      rewrite (rstrip_snoc "." "." p).
      change (Ascii.eqb "." ".") with true. cbv iota.
      rewrite (rstrip_free _ _ Hp). now rewrite append_nil_r.
    + rewrite rstrip_snoc, Ha1. now rewrite !append_assoc.
  - rewrite rstrip_snoc, Hb1. now rewrite !append_assoc.
Qed.

Lemma integral_floor_ceiling (a : Q) (z : Z) :
  a == inject_Z z -> Qfloor a = z /\ Qceiling a = z.
Proof.
  intros H. split.
  - rewrite (Qfloor_comp _ _ H). apply Qfloor_Z.
  - rewrite (Qceiling_comp _ _ H). apply Qceiling_Z.
Qed.

(** The test of line 29 holds exactly when the fractional part is zero, and
    then [int(amount)] is the floor. *)
Lemma py_int_integral (a : Q) :
  Qeq_bool a (inject_Z (py_int a)) = Qeq_bool a (inject_Z (Qfloor a)) /\
  (Qeq_bool a (inject_Z (Qfloor a)) = true -> py_int a = Qfloor a).
Proof.
  unfold py_int. destruct (Qcompare a 0); try (split; reflexivity).
  destruct (Qeq_bool a (inject_Z (Qfloor a))) eqn:F.
  - apply Qeq_bool_eq in F. destruct (integral_floor_ceiling _ _ F) as [_ C].
    rewrite C. split; [|reflexivity]. now apply Qeq_eq_bool.
  - split; [|discriminate].
    destruct (Qeq_bool a (inject_Z (Qceiling a))) eqn:C; [|reflexivity].
    apply Qeq_bool_eq in C. destruct (integral_floor_ceiling _ _ C) as [Fl _].
    rewrite Fl in F. apply Qeq_eq_bool in C. congruence.
Qed.

Lemma format_amount_refines (a : Q) : format_amount a = format_amount_spec a.
Proof.
  unfold format_amount, format_amount_spec.
  destruct (py_int_integral a) as [E1 E2]. rewrite E1.
  destruct (Qeq_bool a (inject_Z (Qfloor a))) eqn:F.
  - now rewrite E2.
  - unfold format_2f, fraction_tail. fold (sign a).
    set (n := hundredths a).
    rewrite <- (append_assoc (sign a)).
    rewrite strip_two_digits.
    + now rewrite append_assoc.
    + rewrite free_of_app, str_int_free_of_dot.
      unfold sign. now destruct (Qcompare a 0).
    + apply Z.mod_pos_bound. lia.
    + apply Z.mod_pos_bound. lia.
Qed.

Lemma round_half_even_comp (x y : Q) :
  x == y -> round_half_even x = round_half_even y.
Proof.
  intros H. unfold round_half_even.
  rewrite (Qfloor_comp _ _ H).
  assert (x - inject_Z (Qfloor y) == y - inject_Z (Qfloor y)) as E by now rewrite H.
  now rewrite (Qcompare_comp _ _ E (1#2) (1#2) (Qeq_refl _)).
Qed.

(** Equal amounts are rendered alike, whatever fraction denotes them. *)
Lemma format_amount_value (a b : Q) : a == b -> format_amount a = format_amount b.
Proof.
  intros H. rewrite !format_amount_refines.
  unfold format_amount_spec, sign, hundredths.
  rewrite (Qfloor_comp _ _ H).
  rewrite (Qeqb_comp _ _ H (inject_Z (Qfloor b)) (inject_Z (Qfloor b)) (Qeq_refl _)).
  rewrite (Qcompare_comp _ _ H 0 0 (Qeq_refl _)).
  assert (Qabs a * inject_Z 100 == Qabs b * inject_Z 100) as E by now rewrite H.
  now rewrite (round_half_even_comp _ _ E).
Qed.

Lemma round_half_even_nearest (x : Q) :
  Qabs (inject_Z (round_half_even x) - x) <= 1 # 2.
Proof.
  unfold round_half_even.
  pose proof (Qfloor_le x) as L. pose proof (Qlt_floor x) as U.
  rewrite inject_Z_plus in U. change (inject_Z 1) with 1 in U.
  apply Qabs_Qle_condition.
  destruct (Qcompare_spec (x - inject_Z (Qfloor x)) (1 # 2)) as [E|E|E].
  - destruct (Z.even (Qfloor x)).
    + split; lra.
    + rewrite inject_Z_plus. change (inject_Z 1) with 1. split; lra.
  - split; lra.
  - rewrite inject_Z_plus. change (inject_Z 1) with 1. split; lra.
Qed.

(** C7.  [format_amount] is a function of the value of the amount alone.
    When the fractional part of the amount is zero the result is the
    integer, written without a separator.  Otherwise it is the amount
    rounded to two fractional digits (to the nearest hundredth), written
    without trailing zeros and without a trailing separator.  The amounts
    10, 10.5, 10.50, 0 and 3.14 (as the decimal 3.14 and as the binary64
    number nearest to it) are rendered as 10, 10.5, 10.5, 0 and 3.14. *)
Theorem format_amount_rendering :
  (forall amount,
      format_amount amount =
      if Qeq_bool amount (inject_Z (Qfloor amount))
      then str_int (Qfloor amount)
      else sign amount ++ str_int (hundredths amount / 100)
             ++ fraction_tail (hundredths amount))
  /\ (forall z, free_of "." (str_int z) = true)
  /\ (forall amount,
         Qabs (inject_Z (hundredths amount) - Qabs amount * inject_Z 100) <= 1 # 2)
  /\ (forall a b, a == b -> format_amount a = format_amount b)
  /\ format_amount 10 = "10"
  /\ format_amount (binary64 21 (-1)) = "10.5"
  /\ format_amount (1050 # 100) = "10.5"
  /\ format_amount 0 = "0"
  /\ format_amount (314 # 100) = "3.14"
  /\ format_amount (binary64 7070651414971679 (-51)) = "3.14".
Proof.
  repeat apply conj; try reflexivity.
  - exact format_amount_refines.
  - exact str_int_free_of_dot.
  - intros amount. apply round_half_even_nearest.
  - exact format_amount_value.
Qed.

Lemma format_amount_rendering_witness :
  (21 # 2) == (42 # 4) /\ format_amount (21 # 2) = format_amount (42 # 4).
Proof.
  split; [reflexivity|].
  apply (proj1 (proj2 (proj2 (proj2 format_amount_rendering)))).
  reflexivity.
Defined.

(** *** Binary64 rounding *)









End AmountFacts.

(** ** The webhook tool *)

Module WebhookFacts.
Import PyStr SetupWebhook Spec StrFacts.

Lemma normalize_trailing_slashes (u : string) (n : nat) :
  normalize (u ++ slashes n) = normalize u.
Proof. unfold normalize. now rewrite rstrip_slashes. Qed.

Lemma normalize_api_anywhere (a b : string) (x : ascii) :
  contains "/api" a = false -> x <> "/"%char ->
  normalize (a ++ "/api" ++ b ++ String x "") = a ++ normalize (b ++ String x "").
Proof.
  intros Ha Hx. unfold normalize.
  assert (Ascii.eqb x "/" = false) as E by now apply Ascii.eqb_neq.
  replace (a ++ "/api" ++ b ++ String x "") with ((a ++ "/api" ++ b) ++ String x "")
    by now rewrite !append_assoc.
  rewrite !rstrip_snoc, E.
  rewrite !append_assoc. now apply replace_api_first.
Qed.

Lemma normalize_api_suffix (a : string) :
  contains "/api" a = false -> normalize (a ++ "/api") = a.
Proof.
  intros Ha. unfold normalize.
  replace (a ++ "/api") with ((a ++ "/ap") ++ String "i" "") by now rewrite append_assoc.
  rewrite (rstrip_snoc "/" "i" (a ++ "/ap")).
  change (Ascii.eqb "i" "/") with false. cbv iota.
  rewrite append_assoc. change ("/ap" ++ "i") with ("/api" ++ "").
  rewrite (replace_api_first a "" Ha). apply append_nil_r.
Qed.

Lemma normalize_without_api (u : string) :
  contains "/api" (rstrip "/" u) = false -> normalize u = rstrip "/" u.
Proof. intros H. unfold normalize. now apply replace_absent. Qed.

(** C10.  The tool strips every trailing [/] of the backend URL and then
    removes every occurrence of [/api], wherever it stands: the first
    occurrence is cut out and the rest of the URL is treated likewise, so
    an [/api] inside the host or the path goes as a trailing [/api] does.
    [setup_webhook] and [check_webhook_status] build the webhook, setup and
    status endpoints from the string so changed; for
    [https://x.example/apiary] that string is [https://x.exampleary]. *)
Theorem webhook_urls_from_normalized :
  (forall u token,
      setup_webhook_call u token =
      if Py.truthy_str token
      then SetWebhook ("https://api.telegram.org/bot" ++ Py.str_opt token ++ "/setWebhook")
             (normalize u ++ "/api/bot/webhook") ["callback_query"; "message"]
      else BackendSetup (normalize u ++ "/api/bot/webhook/setup") (normalize u))
  /\ (forall u, check_webhook_status_call u =
                StatusQuery (normalize u ++ "/api/bot/webhook/status"))
  /\ (forall u n, normalize (u ++ slashes n) = normalize u)
  /\ (forall a b x, contains "/api" a = false -> x <> "/"%char ->
         normalize (a ++ "/api" ++ b ++ String x "")
         = a ++ normalize (b ++ String x ""))
  /\ (forall a, contains "/api" a = false -> normalize (a ++ "/api") = a)
  /\ (forall u, contains "/api" (rstrip "/" u) = false -> normalize u = rstrip "/" u)
  /\ normalize "https://x.example/apiary" = "https://x.exampleary"
  /\ setup_webhook_call "https://x.example/apiary" (Some "TOKEN") =
       SetWebhook "https://api.telegram.org/botTOKEN/setWebhook"
         "https://x.exampleary/api/bot/webhook" ["callback_query"; "message"]
  /\ setup_webhook_call "https://x.example/apiary" None =
       BackendSetup "https://x.exampleary/api/bot/webhook/setup" "https://x.exampleary"
  /\ check_webhook_status_call "https://x.example/apiary" =
       StatusQuery "https://x.exampleary/api/bot/webhook/status".
Proof.
  repeat apply conj; try reflexivity.
  - apply normalize_trailing_slashes.
  - apply normalize_api_anywhere.
  - apply normalize_api_suffix.
  - apply normalize_without_api.
Qed.

Lemma webhook_urls_from_normalized_witness :
  normalize ("https://x.example" ++ "/api" ++ "ar" ++ String "y" "")
  = "https://x.example" ++ normalize ("ar" ++ String "y" "")
  /\ normalize ("https://host.example" ++ "/api") = "https://host.example"
  /\ normalize "https://host.example//" = rstrip "/" "https://host.example//".
Proof.
  pose proof webhook_urls_from_normalized as (_ & _ & _ & H1 & H2 & H3 & _).
  split; [|split].
  - apply H1; [reflexivity | discriminate].
  - apply H2; reflexivity.
  - apply H3; reflexivity.
Defined.

End WebhookFacts.

(** ** Messages and attachments *)

Module MessageFacts.
Import PyStr Py World Amount Notifications Spec StrFacts AmountFacts.














Lemma is_image_table (filename : string) (ct : option string) :
  is_image (extension filename) ct = image_extension filename || image_type ct.
Proof.
  unfold is_image, image_extension, image_type. f_equal.
  destruct ct as [[|a c]|]; reflexivity.
Qed.

End MessageFacts.

(** ** Runs of the notification code *)

Module RunFacts.
Import PyStr Py World Amount Notifications Spec Delivery.

Ltac run_step :=
  match goal with
  | |- context [match ?x with _ => _ end] =>
      match x with
      | context [match _ with _ => _ end] => fail 1
      | _ => destruct x eqn:?
      end
  end.

Ltac run_all :=
  repeat first [ progress (cbn -[append str_int Nat.add first_chars]) | run_step ].

Ltac negb_facts :=
  repeat match goal with
    | H : negb _ = true |- _ => apply negb_true_iff in H
    | H : negb _ = false |- _ => apply negb_false_iff in H
    end;
  repeat match goal with
    | H : truthy_bool _ = _ |- _ => rewrite H
    end.

Ltac use_answers A :=
  repeat match goal with
    | H : provider ?e ?n ?r = _ |- _ =>
        lazymatch goal with
        | _ : is_success _ = true, Hd : provider e n r = inr ?resp,
          _ : response_json ?resp = inr _ |- _ => fail
        | _ => idtac
        end;
        let resp := fresh "resp" in
        let body := fresh "body" in
        let E1 := fresh "E" in
        let E2 := fresh "E" in
        let E3 := fresh "E" in
        destruct (A n r) as (resp & body & E1 & E2 & E3);
        rewrite E1 in H; try discriminate H; injection H as <-
    end;
  try congruence.

Ltac close_lines :=
  first
    [ exists []; rewrite ?app_nil_r, <- ?app_assoc; split; [reflexivity|];
      split; [constructor | reflexivity]
    | eexists; rewrite <- ?app_assoc; split; [reflexivity|];
      split;
      [ repeat constructor
      | let A := fresh "A" in intros A; exfalso; use_answers A ] ].

Lemma receipt_run env token admin msg data fname ctype w :
  let n := List.length (sent w) in
  let has_file := truthy_str data && truthy_str fname in
  let fr := file_request token admin msg (str_opt data) (str_opt fname) ctype in
  let tr := text_request token admin msg in
  let file_ok := has_file && acknowledged (provider env n fr) in
  let calls := if has_file then (if file_ok then [fr] else [fr; tr]) else [tr] in
  let result :=
    if file_ok then true
    else acknowledged (provider env (n + (if has_file then 1 else 0)) tr) in
  exists lines,
    _send_notification_with_receipt env token admin msg data fname ctype w
    = (Ret result, mk_world (sent w ++ calls) (log w ++ lines) (db_calls w) (customers w))
    /\ Forall per_recipient lines
    /\ (answers_all env -> lines = []).
Proof.
  intros n has_file fr tr file_ok calls result.
  subst file_ok calls result n.
  assert (List.length (sent w ++ [fr]) = List.length (sent w) + 1)%nat as L
    by (rewrite length_app; reflexivity).
  unfold _send_notification_with_receipt, bind, try_except, acknowledged.
  fold has_file fr tr.
  unfold post, raise_for_status, json, logger, ret, raise.
  destruct has_file; cbn [andb]; rewrite ?Nat.add_0_r.
  - repeat first [ progress (cbn -[append str_int Nat.add]; rewrite ?L) | run_step ].
    all: negb_facts; close_lines.
  - run_all. all: negb_facts; close_lines.
Qed.

Lemma simple_run env token admin msg w :
  let r := text_request token admin msg in
  let result :=
    match provider env (List.length (sent w)) r with
    | inr resp =>
        match response_json resp with
        | inr body => get_default (ok body) false
        | inl _ => Some false
        end
    | inl _ => Some false
    end in
  exists lines,
    _send_simple_notification env token admin msg None w
    = (Ret result, mk_world (sent w ++ [r]) (log w ++ lines) (db_calls w) (customers w))
    /\ Forall per_recipient lines
    /\ (answers_all env -> lines = []).
Proof.
  intros r result. subst result.
  unfold _send_simple_notification, bind, try_except.
  fold (text_request token admin msg). fold r.
  unfold post, json, logger, ret, raise.
  run_all. all: close_lines.
Qed.

Lemma delivers_one_receipt env token admin msg data fname ctype w :
  exists b w',
    _send_notification_with_receipt env token admin msg data fname ctype w = (Ret b, w')
    /\ delivers env [admin] msg w w'.
Proof.
  destruct (receipt_run env token admin msg data fname ctype w) as (lines & E & F & A).
  cbv zeta in E. eexists; eexists; split; [exact E|].
  eexists; exists lines. cbn [sent log db_calls customers].
  repeat apply conj; try reflexivity; try assumption.
  - intros a [<-|[]].
    destruct (truthy_str data && truthy_str fname).
    + exists (file_request token admin msg (str_opt data) (str_opt fname) ctype).
      split; [|apply String.eqb_refl].
      destruct (_ && _); left; reflexivity.
    + exists (text_request token admin msg).
      split; [left; reflexivity|apply Z.eqb_refl].
  - assert (forall r, r = file_request token admin msg (str_opt data) (str_opt fname) ctype
                      \/ r = text_request token admin msg ->
                      request_text r = msg
                      /\ exists a, In a [admin] /\ addressed_to a r = true) as R.
    { intros r [->| ->]; (split; [reflexivity|]); exists admin; (split; [now left|]).
      - apply String.eqb_refl.
      - apply Z.eqb_refl. }
    destruct (truthy_str data && truthy_str fname); [destruct (_ && _)|];
      repeat constructor; apply R; auto.
Qed.

Lemma delivers_one_simple env token admin msg w :
  exists b w',
    _send_simple_notification env token admin msg None w = (Ret b, w')
    /\ delivers env [admin] msg w w'.
Proof.
  destruct (simple_run env token admin msg w) as (lines & E & F & A).
  cbv zeta in E. eexists; eexists; split; [exact E|].
  eexists; exists lines. cbn [sent log db_calls customers].
  repeat apply conj; try reflexivity; try assumption.
  - intros a [<-|[]]. exists (text_request token admin msg).
    split; [left; reflexivity|apply Z.eqb_refl].
  - repeat constructor. exists admin. split; [now left|apply Z.eqb_refl].
Qed.

Lemma delivers_cons env a admins msg w w1 w2 :
  delivers env [a] msg w w1 -> delivers env admins msg w1 w2 ->
  delivers env (a :: admins) msg w w2.
Proof.
  intros (c1 & l1 & S1 & L1 & D1 & C1 & I1 & F1 & P1 & A1)
         (c2 & l2 & S2 & L2 & D2 & C2 & I2 & F2 & P2 & A2).
  exists (c1 ++ c2)%list, (l1 ++ l2)%list.
  repeat apply conj.
  - now rewrite S2, S1, app_assoc.
  - now rewrite L2, L1, app_assoc.
  - congruence.
  - congruence.
  - intros x [Hx|Hx].
    + subst x. destruct (I1 a (or_introl eq_refl)) as (r & Hr & Ha).
      exists r. split; [apply in_or_app; now left|assumption].
    + destruct (I2 x Hx) as (r & Hr & Ha).
      exists r. split; [apply in_or_app; now right|assumption].
  - apply Forall_app. split.
    + eapply Forall_impl; [|exact F1]. cbn beta.
      intros r (T & x & [Hin|[]] & Hx). split; [assumption|].
      exists x. split; [now left|assumption].
    + eapply Forall_impl; [|exact F2]. cbn beta.
      intros r (T & x & Hin & Hx). split; [assumption|].
      exists x. split; [now right|assumption].
  - apply Forall_app. now split.
  - intros A. now rewrite (A1 A), (A2 A).
Qed.

Lemma delivers_nil env msg w : delivers env [] msg w w.
Proof.
  exists [], []. rewrite !app_nil_r. repeat apply conj; auto.
  intros a [].
Qed.

Lemma gather_delivers env (task : Z -> M (option bool)) msg admins :
  (forall a w, exists b w', task a w = (Ret b, w') /\ delivers env [a] msg w w') ->
  forall w, exists results w',
    gather (map task admins) w = (Ret results, w')
    /\ List.length results = List.length admins
    /\ delivers env admins msg w w'.
Proof.
  intros T. induction admins as [|a admins IH]; intros w.
  - exists [], w. repeat apply conj; try reflexivity. apply delivers_nil.
  - destruct (T a w) as (b & w1 & E1 & D1).
    destruct (IH w1) as (rs & w2 & E2 & L2 & D2).
    exists (inr b :: rs), w2. repeat apply conj.
    + cbn [map gather]. unfold bind at 1, try_except, bind at 1.
      rewrite E1. unfold ret at 1. unfold bind at 1. rewrite E2. reflexivity.
    + cbn [List.length]. now rewrite L2.
    + eapply delivers_cons; eassumption.
Qed.

Lemma skipn_length_app {A} (l ext : list A) : skipn (List.length l) (l ++ ext) = ext.
Proof. induction l; [reflexivity|assumption]. Qed.

Lemma filter_per_recipient (lines : list log_record) :
  Forall per_recipient lines -> filter is_aggregate lines = [].
Proof.
  induction 1 as [|l lines [_ H] _ IH]; [reflexivity|].
  cbn [filter]. now rewrite H.
Qed.

Lemma batch_report_intro env admins msg line w w0 results w1 :
  (forall m, is_aggregate (line m) = true) ->
  sent w0 = sent w -> log w0 = log w -> customers w0 = customers w ->
  List.length results = List.length admins ->
  delivers env admins msg w0 w1 ->
  batch_report env admins msg line w results
    (mk_world (sent w1)
       (log w1 ++ aggregate_records line (failed_count results))
       (db_calls w1) (customers w1)).
Proof.
  intros Hline S0 L0 C0 Hlen (calls & lines & S & L & D & C & I & F & P & A).
  unfold batch_report, new_records. cbn [sent log customers].
  rewrite S, L, S0, L0, skipn_length_app, <- app_assoc, skipn_length_app.
  repeat apply conj; [assumption| |congruence|].
  - intros a Ha. destruct (I a Ha) as (r & Hr & Hr').
    exists r. repeat apply conj; try assumption.
    rewrite Forall_forall in F. now destruct (F r Hr).
  - exists lines. repeat apply conj; try assumption; try reflexivity.
    rewrite filter_app, (filter_per_recipient lines P). cbn [app].
    unfold aggregate_records. destruct (0 <? _)%nat; [|reflexivity].
    cbn [filter]. now rewrite Hline.
Qed.

Lemma new_order_run cfg env order_id customer_name customer_phone
    delivery_address total_amount items user_id receipt_file_id w :
  truthy_str (telegram_bot_token cfg) = true -> admin_ids cfg <> [] ->
  exists results w1,
    let w' := mk_world (sent w1)
                (log w1 ++ aggregate_records (new_order_aggregate order_id)
                             (failed_count results))
                (db_calls w1) (customers w1) in
    gather (map (fun admin_id =>
                   _send_simple_notification env (str_opt (telegram_bot_token cfg))
                     admin_id (new_order_message order_id) None)
              (admin_ids cfg)) w = (Ret results, w1)
    /\ notify_admins_new_order cfg env order_id customer_name customer_phone
         delivery_address total_amount items user_id receipt_file_id w
       = (Ret tt, w')
    /\ batch_report env (admin_ids cfg) (new_order_message order_id)
         (new_order_aggregate order_id) w results w'.
Proof.
  intros Htoken Hadmins.
  destruct (gather_delivers env
              (fun admin_id =>
                 _send_simple_notification env (str_opt (telegram_bot_token cfg))
                   admin_id (new_order_message order_id) None)
              (new_order_message order_id) (admin_ids cfg)
              (fun a w => delivers_one_simple env _ a _ w) w)
    as (results & w1 & G & Hlen & D).
  exists results, w1. cbv zeta. split; [exact G|]. split.
  - unfold notify_admins_new_order. rewrite Htoken. cbn [negb].
    destruct (admin_ids cfg) as [|a admins] eqn:Ha; [congruence|].
    fold (new_order_message order_id). unfold bind at 1. rewrite G.
    fold (failed_count results).
    unfold logger, ret.
    unfold aggregate_records. destruct (0 <? failed_count results)%nat.
    + reflexivity.
    + rewrite app_nil_r. now destruct w1.
  - apply (batch_report_intro _ _ _ _ w w); try assumption; reflexivity.
Qed.

Lemma fetch_receipt_run env receipt_file_id w :
  exists name type reads,
    fetch_receipt env receipt_file_id w
    = (Ret (stored_receipt env receipt_file_id, name, type),
       mk_world (sent w) (log w) (db_calls w ++ reads) (customers w))
    /\ (stored_receipt env receipt_file_id <> None -> truthy_str name = true).
Proof.
  unfold fetch_receipt, stored_receipt, fs_get, ObjectId, bind, try_except,
    read, ret, raise.
  destruct (truthy_str receipt_file_id); cbn [andb].
  - destruct (valid_object_id (str_opt receipt_file_id)).
    + destruct (gridfs_get env (str_opt receipt_file_id)) as [e|f].
      * do 3 eexists. split; [reflexivity|]. congruence.
      * cbn [sent log db_calls customers]. destruct (grid_read f) as [e|data].
        -- do 3 eexists. split; [reflexivity|]. congruence.
        -- do 3 eexists. split; [reflexivity|]. intros _.
           unfold or_str. now destruct (grid_filename f) as [[|c s]|].
    + exists None, None, []. rewrite app_nil_r. split; [now destruct w|congruence].
  - exists None, None, []. rewrite app_nil_r. split; [now destruct w|congruence].
Qed.

Lemma item_details_run env it w :
  exists d reads,
    item_details env it w
    = (Ret d, mk_world (sent w) (log w) (db_calls w ++ reads) (customers w)).
Proof.
  unfold item_details, bind, try_except, products_find_one, ret, raise.
  destruct (negb _ && _ && _).
  - cbn [sent log db_calls customers].
    destruct (find_one env _) as [e|[p|]]; cbn [sent log db_calls customers].
    + do 2 eexists. reflexivity.
    + destruct (get_default (product_variants p) []) as [l|];
        do 2 eexists; reflexivity.
    + do 2 eexists. reflexivity.
  - exists (mk_detail (fst (get_default (item_product_name it) "Товар",
                            get (item_variant_name it)))
              (or_str (snd (get_default (item_product_name it) "Товар",
                            get (item_variant_name it))) "")
              (get_default (item_quantity it) 1%Z)), [].
    rewrite app_nil_r. now destruct w.
Qed.

Lemma items_details_run env items w :
  exists ds reads,
    items_details env items w
    = (Ret ds, mk_world (sent w) (log w) (db_calls w ++ reads) (customers w)).
Proof.
  revert w. induction items as [|it rest IH]; intros w.
  - exists [], []. rewrite app_nil_r. now destruct w.
  - destruct (item_details_run env it w) as (d & r1 & E1).
    destruct (IH (mk_world (sent w) (log w) (db_calls w ++ r1) (customers w)))
      as (ds & r2 & E2).
    exists (d :: ds), (r1 ++ r2)%list.
    cbn [items_details]. unfold bind at 1. rewrite E1.
    unfold bind at 1. rewrite E2. cbn [sent log db_calls customers].
    now rewrite app_assoc.
Qed.

Lemma accepted_run cfg env order_id customer_name customer_phone
    delivery_address total_amount items user_id receipt_file_id
    delivery_time_slot w :
  truthy_str (telegram_bot_token cfg) = true -> admin_ids cfg <> [] ->
  exists details name type w0 results w1,
    let message := accepted_message order_id customer_name customer_phone
                     delivery_address total_amount items delivery_time_slot
                     details in
    let w' := mk_world (sent w1)
                (log w1 ++ aggregate_records (accepted_aggregate order_id)
                             (failed_count results))
                (db_calls w1) (customers w1) in
    fst (items_details env items w) = Ret details
    /\ fst (fetch_receipt env receipt_file_id (snd (items_details env items w)))
       = Ret (stored_receipt env receipt_file_id, name, type)
    /\ sent w0 = sent w
    /\ gather
         (map (fun admin_id =>
                 bind (_send_notification_with_receipt env
                         (str_opt (telegram_bot_token cfg)) admin_id message
                         (stored_receipt env receipt_file_id) name type)
                      (fun sent_ok => ret (Some sent_ok)))
              (admin_ids cfg)) w0 = (Ret results, w1)
    /\ notify_admin_order_accepted cfg env order_id customer_name customer_phone
         delivery_address total_amount items user_id receipt_file_id
         delivery_time_slot w = (Ret tt, w')
    /\ batch_report env (admin_ids cfg) message (accepted_aggregate order_id)
         w results w'.
Proof.
  intros Htoken Hadmins.
  destruct (items_details_run env items w) as (details & r1 & E1).
  destruct (fetch_receipt_run env receipt_file_id
              (mk_world (sent w) (log w) (db_calls w ++ r1) (customers w)))
    as (name & type & r2 & E2 & _).
  cbn [sent log db_calls customers] in E2.
  set (w0 := mk_world (sent w) (log w) ((db_calls w ++ r1) ++ r2) (customers w)) in *.
  set (message := accepted_message order_id customer_name customer_phone
                    delivery_address total_amount items delivery_time_slot details).
  set (task := fun admin_id : Z =>
                 bind (_send_notification_with_receipt env
                         (str_opt (telegram_bot_token cfg)) admin_id message
                         (stored_receipt env receipt_file_id) name type)
                      (fun sent_ok => ret (Some sent_ok))).
  assert (forall a v, exists b v', task a v = (Ret b, v') /\ delivers env [a] message v v')
    as T.
  { intros a v.
    destruct (delivers_one_receipt env (str_opt (telegram_bot_token cfg)) a message
                (stored_receipt env receipt_file_id) name type v) as (b & v' & E & D).
    exists (Some b), v'. split; [|assumption].
    unfold task, bind. now rewrite E. }
  destruct (gather_delivers env task message (admin_ids cfg) T w0)
    as (results & w1 & G & Hlen & D).
  exists details, name, type, w0, results, w1. cbv zeta. fold message. fold task.
  split; [now rewrite E1|]. split; [rewrite E1; cbn [snd]; now rewrite E2|].
  split; [reflexivity|]. split; [exact G|]. split.
  - unfold notify_admin_order_accepted. rewrite Htoken. cbn [negb].
    destruct (admin_ids cfg) as [|a admins] eqn:Ha; [congruence|].
    unfold bind at 1. rewrite E1. unfold bind at 1. rewrite E2.
    fold message. fold task. unfold bind at 1. fold w0. rewrite G.
    fold (failed_count results). unfold logger, ret.
    unfold aggregate_records. destruct (0 <? failed_count results)%nat.
    + reflexivity.
    + rewrite app_nil_r. now destruct w1.
  - apply (batch_report_intro _ _ _ _ w w0); try assumption; reflexivity.
Qed.

Ltac customer_atom :=
  match goal with
  | |- context [exn_class_of truth_value_error] =>
      change (exn_class_of truth_value_error) with OtherException
  | |- context [provider ?e ?n ?r] => destruct (provider e n r) eqn:?
  | |- context [response_json ?r] => destruct (response_json r) eqn:?
  | |- context [truthy_bool ?x] => destruct (truthy_bool x) eqn:?
  | |- context [get_default (description ?b) ?d] =>
      destruct (get_default (description b) d) eqn:?
  | |- context [exn_class_of ?e] => destruct (exn_class_of e) eqn:?
  end.

(** A run of the customer notification: one call, no database call, the
    registry as it was; the records are those of the answer. *)
Lemma customer_run cfg env user_id order_id order_status customer_name
    rejection_reason delivery_time_slot db w :
  truthy_str (telegram_bot_token cfg) = true ->
  let request := customer_request cfg user_id order_id order_status
                   rejection_reason delivery_time_slot in
  exists lines,
    notify_customer_order_status cfg env user_id order_id order_status
      customer_name rejection_reason delivery_time_slot db w
    = (Ret tt,
       mk_world (sent w ++ [request]) (log w ++ lines) (db_calls w) (customers w))
    /\ existsb Observations.is_info lines = false
    /\ match provider env (List.length (sent w)) request with
       | inr resp =>
           match response_json resp with
           | inr body =>
               if truthy_bool (get (ok body)) then lines = []
               else
                 match get_default (description body) "Unknown error" with
                 | Some d =>
                     lines
                     = refusal_record user_id order_id order_status
                         (get (error_code body)) d
                       :: match db with
                          | Some _ =>
                              [truth_test_record user_id order_id order_status]
                          | None => []
                          end
                 | None => List.length lines = 1%nat
                 end
           | inl _ => List.length lines = 1%nat
           end
       | inl _ => List.length lines = 1%nat
       end.
Proof.
  intros Htoken request.
  unfold notify_customer_order_status. rewrite Htoken. cbn [negb].
  fold (customer_request cfg user_id order_id order_status rejection_reason
          delivery_time_slot). fold request.
  unfold refusal_record, truth_test_record, customer_context.
  unfold bind, try_except, post, json, logger, truth_value, ret, raise.
  destruct db as [d|];
    repeat first [ progress (cbn -[append str_int Nat.add first_chars lower
                                    is_invalid_user is_blocked error_type
                                    truth_value_error])
                 | customer_atom ].
  all: rewrite <- ?app_assoc.
  all: first [ eexists; split; [reflexivity|]
             | exists []; rewrite (app_nil_r (log w)); split; [reflexivity|] ].
  all: split; reflexivity.
Qed.

Lemma item_details_blank env it w :
  truthy_str (get (item_variant_name it)) = false ->
  lookup_fails env it ->
  exists d w', item_details env it w = (Ret d, w') /\ detail_variant_name d = "".
Proof.
  intros Hname Hfail. unfold lookup_fails in Hfail.
  assert (or_str (get (item_variant_name it)) "" = "") as Hblank.
  { destruct (get (item_variant_name it)) as [[|c s]|]; try reflexivity.
    discriminate Hname. }
  unfold item_details, bind, try_except, products_find_one, ret, raise.
  destruct (negb _ && _ && _).
  - cbn [sent log db_calls customers].
    destruct (find_one env _) as [e|[p|]]; cbn [sent log db_calls customers].
    + do 2 eexists. split; [reflexivity|]. exact Hblank.
    + destruct (get_default (product_variants p) []) as [l|].
      * rewrite Hfail. do 2 eexists. split; [reflexivity|]. exact Hblank.
      * do 2 eexists. split; [reflexivity|]. exact Hblank.
    + do 2 eexists. split; [reflexivity|]. exact Hblank.
  - do 2 eexists. split; [reflexivity|]. exact Hblank.
Qed.

Lemma item_details_catalogue env1 env2 it w1 w2 :
  (forall p, find_one env1 p = find_one env2 p) ->
  fst (item_details env1 it w1) = fst (item_details env2 it w2).
Proof.
  intros H.
  unfold item_details, bind, try_except, products_find_one, ret, raise.
  destruct (negb _ && _ && _); [|reflexivity].
  rewrite H.
  destruct (find_one env2 _) as [e|[p|]]; try reflexivity.
  destruct (get_default (product_variants p) []) as [l|]; reflexivity.
Qed.

Lemma items_details_catalogue env1 env2 items w1 w2 :
  (forall p, find_one env1 p = find_one env2 p) ->
  fst (items_details env1 items w1) = fst (items_details env2 items w2).
Proof.
  intros H. revert w1 w2. induction items as [|it rest IH]; intros w1 w2.
  - reflexivity.
  - cbn [items_details]. unfold bind at 1 3.
    pose proof (item_details_catalogue env1 env2 it w1 w2 H) as E.
    destruct (item_details_run env1 it w1) as (d1 & r1 & E1).
    destruct (item_details_run env2 it w2) as (d2 & r2 & E2).
    rewrite E1, E2 in E |- *. cbn [fst] in E. injection E as <-.
    unfold bind.
    specialize (IH (mk_world (sent w1) (log w1) (db_calls w1 ++ r1) (customers w1))
                   (mk_world (sent w2) (log w2) (db_calls w2 ++ r2) (customers w2))).
    destruct (items_details env1 rest _) as [[ds1|e1] v1],
             (items_details env2 rest _) as [[ds2|e2] v2];
      cbn [fst] in IH; try discriminate IH; now injection IH as <-.
Qed.

Lemma text_only_gather env token msg name type admins w :
  exists results w',
    gather (map (fun admin_id =>
                   bind (_send_notification_with_receipt env token admin_id msg
                           None name type)
                        (fun sent_ok => ret (Some sent_ok)))
              admins) w = (Ret results, w')
    /\ sent w' = (sent w ++ map (fun a => text_request token a msg) admins)%list.
Proof.
  set (task := fun admin_id : Z =>
                 bind (_send_notification_with_receipt env token admin_id msg
                         None name type)
                      (fun sent_ok => ret (Some sent_ok))).
  revert w. induction admins as [|a admins IH]; intros w.
  - exists [], w. split; [reflexivity|]. cbn [map]. now rewrite app_nil_r.
  - destruct (receipt_run env token a msg None name type w) as (lines & E & _).
    cbn [truthy_str andb] in E. cbv zeta in E.
    assert (task a w
            = (Ret (Some (acknowledged
                            (provider env (List.length (sent w) + 0)
                               (text_request token a msg)))),
               mk_world (sent w ++ [text_request token a msg]) (log w ++ lines)
                 (db_calls w) (customers w))) as T.
    { unfold task, bind. now rewrite E. }
    destruct (IH (mk_world (sent w ++ [text_request token a msg]) (log w ++ lines)
                    (db_calls w) (customers w))) as (rs & w' & G & S).
    do 2 eexists. split.
    + cbn [map gather]. unfold bind at 1, try_except, bind at 1.
      rewrite T. unfold ret at 1. unfold bind at 1. rewrite G. reflexivity.
    + rewrite S. cbn [sent map]. now rewrite <- app_assoc.
Qed.

(** When every answer is a JSON object the text-only senders write no
    record. *)
Lemma simple_json env token admin msg w :
  answers_json env ->
  exists result,
    _send_simple_notification env token admin msg None w
    = (Ret result,
       mk_world (sent w ++ [text_request token admin msg]) (log w) (db_calls w)
         (customers w)).
Proof.
  intros A.
  destruct (A (List.length (sent w)) (text_request token admin msg))
    as (resp & body & P & J).
  unfold _send_simple_notification, bind, try_except.
  fold (text_request token admin msg).
  unfold post, json, logger, ret, raise. rewrite P.
  cbn [sent log db_calls customers]. rewrite J.
  eexists. reflexivity.
Qed.

Lemma simple_gather_json env token msg admins w :
  answers_json env ->
  exists results w',
    gather (map (fun admin_id =>
                   _send_simple_notification env token admin_id msg None)
              admins) w = (Ret results, w')
    /\ log w' = log w.
Proof.
  intros A. revert w. induction admins as [|a admins IH]; intros w.
  - exists [], w. split; reflexivity.
  - destruct (simple_json env token a msg w A) as (b & E).
    destruct (IH (mk_world (sent w ++ [text_request token a msg]) (log w)
                    (db_calls w) (customers w))) as (rs & w' & G & L).
    exists (inr b :: rs), w'. split; [|exact L].
    cbn [map gather]. unfold bind at 1, try_except, bind at 1.
    rewrite E. unfold ret at 1. unfold bind at 1. rewrite G. reflexivity.
Qed.

End RunFacts.

(** ** Messages and attachments: the claims *)

Module MessageClaims.
Import PyStr Py World Amount Notifications Spec Delivery.
Import StrFacts AmountFacts MessageFacts RunFacts.




(** C8 (as amended).  A receipt is sent as an image when the lower-cased
    extension of its file name is one of jpg, jpeg, png, webp, heic, heif,
    or when its declared content type starts with [image/] - whatever the
    extension is, [pdf] included.  Otherwise it is a PDF when the extension
    is [pdf] or the content type is [application/pdf], and a generic
    document in every other case.  Images go to [sendPhoto], PDFs and
    generic documents to [sendDocument].  [receipt.PNG] without a content
    type is an image, [scan] with [application/pdf] a PDF, [data.bin] with
    [text/plain] a generic document. *)
Theorem classification_by_extension_or_type :
  (forall filename ct,
      classify filename ct =
      if image_extension filename || image_type ct then Image
      else if String.eqb (extension filename) ".pdf"
              || match ct with
                 | Some c => String.eqb c "application/pdf"
                 | None => false
                 end
      then Pdf else Document)
  /\ (forall filename ct, image_extension filename = true ->
         classify filename ct = Image)
  /\ (forall filename ct, image_type ct = true -> classify filename ct = Image)
  /\ (forall filename ct, image_extension filename = false ->
         image_type ct = false -> extension filename = ".pdf" ->
         classify filename ct = Pdf)
  /\ (forall filename, image_extension filename = false ->
         classify filename (Some "application/pdf") = Pdf)
  /\ (forall filename ct, image_extension filename = false ->
         image_type ct = false -> extension filename <> ".pdf" ->
         ct <> Some "application/pdf" -> classify filename ct = Document)
  /\ (forall k, api_method k = match k with
                               | Image => "sendPhoto"
                               | _ => "sendDocument"
                               end)
  /\ classify "receipt.PNG" None = Image
  /\ classify "scan" (Some "application/pdf") = Pdf
  /\ classify "data.bin" (Some "text/plain") = Document.
Proof.
  assert (forall filename ct,
      classify filename ct =
      if image_extension filename || image_type ct then Image
      else if String.eqb (extension filename) ".pdf"
              || match ct with
                 | Some c => String.eqb c "application/pdf"
                 | None => false
                 end
      then Pdf else Document) as T.
  { intros. unfold classify. fold (extension filename). now rewrite is_image_table. }
  split; [exact T|]. repeat apply conj.
  - intros filename ct H. now rewrite T, H.
  - intros filename ct H. rewrite T, H. now rewrite orb_true_r.
  - intros filename ct H1 H2 H3. rewrite T, H1, H2, H3. reflexivity.
  - intros filename H1. rewrite T, H1. cbn. now rewrite orb_true_r.
  - intros filename ct H1 H2 H3 H4. rewrite T, H1, H2. cbn [orb].
    apply String.eqb_neq in H3. rewrite H3. cbn [orb].
    destruct ct as [c|]; [|reflexivity].
    destruct (String.eqb_spec c "application/pdf"); [subst; congruence | reflexivity].
  - now destruct k.
  - reflexivity.
  - reflexivity.
  - reflexivity.
Qed.

Lemma classification_by_extension_or_type_witness :
  classify "receipt.PNG" (Some "application/pdf") = Image
  /\ classify "scan.pdf" (Some "image/png") = Image
  /\ classify "scan.PDF" (Some "text/plain") = Pdf
  /\ classify "scan" (Some "application/pdf") = Pdf
  /\ classify "data.bin" None = Document.
Proof.
  pose proof classification_by_extension_or_type as (_ & H1 & H2 & H3 & H4 & H5 & _).
  repeat apply conj.
  - apply H1; reflexivity.
  - apply H2; reflexivity.
  - apply H3; reflexivity.
  - apply H4; reflexivity.
  - apply H5; try reflexivity; discriminate.
Defined.

(** C8, the claim as stated fails: the file [scan.pdf] has the extension
    [pdf], yet with the declared content type [image/png] it is classified
    as an image and sent through [sendPhoto]. *)
Lemma pdf_extension_sent_as_photo :
  extension "scan.pdf" = ".pdf"
  /\ classify "scan.pdf" (Some "image/png") = Image
  /\ api_method (classify "scan.pdf" (Some "image/png")) = "sendPhoto".
Proof. repeat apply conj; reflexivity. Qed.

(** C9 (as amended).  The customer message is one of four templates
    followed by a footer.  The templates are chosen by the status strings
    [новый] (received), [принят] (accepted: with the delivery time slot when
    there is one, else a shorter text) and [отказано] (rejected: with the
    reason when there is one); every other status string, the English
    words [new], [accepted] and [rejected] included, gives the text
    [Статус вашего заказа изменён: ] followed by the status.  The footer
    holds the last six characters of the order id and the status string as
    it was given. *)
Theorem customer_message_templates :
  forall order_id order_status rejection_reason delivery_time_slot,
    let message := customer_message order_id order_status rejection_reason
                     delivery_time_slot in
    (order_status = "новый" ->
       message = "✅ Ваш заказ получен. Вы получите уведомление о времени доставки."
                 ++ footer order_id order_status)
    /\ (order_status = "принят" -> truthy_str delivery_time_slot = true ->
          message = ("✅ Ваш заказ принят! Доставка будет осуществлена в период *"
                     ++ str_opt delivery_time_slot ++ "*.")
                    ++ footer order_id order_status)
    /\ (order_status = "принят" -> truthy_str delivery_time_slot = false ->
          message = "✅ Ваш заказ принят!" ++ footer order_id order_status)
    /\ (order_status = "отказано" -> truthy_str rejection_reason = true ->
          message = ("❌ Ваш заказ отклонен по какой-то причине."
                     ++ nl ++ nl ++ "Причина: " ++ str_opt rejection_reason)
                    ++ footer order_id order_status)
    /\ (order_status = "отказано" -> truthy_str rejection_reason = false ->
          message = "❌ Ваш заказ отклонен по какой-то причине."
                    ++ footer order_id order_status)
    /\ (order_status <> "новый" -> order_status <> "принят" ->
        order_status <> "отказано" ->
          message = ("Статус вашего заказа изменён: " ++ order_status)
                    ++ footer order_id order_status).
Proof.
  intros order_id order_status rejection_reason delivery_time_slot message.
  subst message. unfold customer_message. fold (footer order_id order_status).
  repeat apply conj.
  - intros ->. reflexivity.
  - intros -> H. unfold status_message.
    change (String.eqb "принят" "новый") with false.
    change (String.eqb "принят" "принят") with true. cbv iota. now rewrite H.
  - intros -> H. unfold status_message.
    change (String.eqb "принят" "новый") with false.
    change (String.eqb "принят" "принят") with true. cbv iota. now rewrite H.
  - intros -> H. unfold status_message.
    change (String.eqb "отказано" "новый") with false.
    change (String.eqb "отказано" "принят") with false.
    change (String.eqb "отказано" "отказано") with true. cbv iota. now rewrite H.
  - intros -> H. unfold status_message.
    change (String.eqb "отказано" "новый") with false.
    change (String.eqb "отказано" "принят") with false.
    change (String.eqb "отказано" "отказано") with true. cbv iota. rewrite H.
    reflexivity.
  - intros H1 H2 H3. unfold status_message.
    apply String.eqb_neq in H1, H2, H3. now rewrite H1, H2, H3.
Qed.

Lemma customer_message_templates_witness :
  customer_message Examples.order_id "новый" None None
  = "✅ Ваш заказ получен. Вы получите уведомление о времени доставки."
    ++ footer Examples.order_id "новый"
  /\ customer_message Examples.order_id "принят" None (Some "13:00-14:00")
     = ("✅ Ваш заказ принят! Доставка будет осуществлена в период *"
        ++ "13:00-14:00" ++ "*.") ++ footer Examples.order_id "принят"
  /\ customer_message Examples.order_id "принят" None None
     = "✅ Ваш заказ принят!" ++ footer Examples.order_id "принят"
  /\ customer_message Examples.order_id "отказано" (Some "нет в наличии") None
     = ("❌ Ваш заказ отклонен по какой-то причине."
        ++ nl ++ nl ++ "Причина: " ++ "нет в наличии")
       ++ footer Examples.order_id "отказано"
  /\ customer_message Examples.order_id "отказано" None None
     = "❌ Ваш заказ отклонен по какой-то причине."
       ++ footer Examples.order_id "отказано"
  /\ customer_message Examples.order_id "new" None None
     = ("Статус вашего заказа изменён: " ++ "new") ++ footer Examples.order_id "new".
Proof.
  repeat apply conj.
  - apply (proj1 (customer_message_templates Examples.order_id "новый" None None)).
    reflexivity.
  - apply (proj1 (proj2 (customer_message_templates Examples.order_id "принят"
                           None (Some "13:00-14:00"))));
      reflexivity.
  - apply (proj1 (proj2 (proj2 (customer_message_templates Examples.order_id
                                  "принят" None None))));
      reflexivity.
  - apply (proj1 (proj2 (proj2 (proj2 (customer_message_templates Examples.order_id
                                         "отказано" (Some "нет в наличии") None)))));
      reflexivity.
  - apply (proj1 (proj2 (proj2 (proj2 (proj2 (customer_message_templates
                                                Examples.order_id "отказано"
                                                None None))))));
      reflexivity.
  - apply (proj2 (proj2 (proj2 (proj2 (proj2 (customer_message_templates
                                                Examples.order_id "new"
                                                None None))))));
      discriminate.
Defined.

(** C9, the claim as stated fails: the status string [new] does not give
    the received acknowledgment but the fallback text, and so do [accepted]
    and [rejected]. *)
Lemma english_status_gets_fallback :
  status_message "new" None None = "Статус вашего заказа изменён: new"
  /\ status_message "new" None None
     <> "✅ Ваш заказ получен. Вы получите уведомление о времени доставки."
  /\ status_message "accepted" None (Some "13:00-14:00")
     = "Статус вашего заказа изменён: accepted"
  /\ status_message "rejected" (Some "нет в наличии") None
     = "Статус вашего заказа изменён: rejected".
Proof. repeat apply conj; try reflexivity. discriminate. Qed.

End MessageClaims.

(** ** Deliveries: the claims *)

Module DeliveryClaims.
Import PyStr Py World Amount Notifications Spec Delivery.
Import StrFacts RunFacts.

Lemma calls_for_pruning_conditions (answer : exn + response) :
  calls_for_pruning answer = true <->
  exists resp body d,
    answer = inr resp /\ response_json resp = inr body
    /\ truthy_bool (get (ok body)) = false
    /\ get_default (description body) "Unknown error" = Some d
    /\ permanent_failure d = true.
Proof.
  unfold calls_for_pruning. split.
  - intros H.
    destruct answer as [e|resp]; [discriminate|].
    destruct (response_json resp) as [e|body] eqn:J; [discriminate|].
    apply andb_true_iff in H as [Hok H]. apply negb_true_iff in Hok.
    destruct (get_default (description body) "Unknown error") as [d|] eqn:D;
      [|discriminate].
    exists resp, body, d. repeat apply conj; try assumption; reflexivity.
  - intros (resp & body & d & -> & J & Hok & D & P).
    now rewrite J, Hok, D, P.
Qed.

Lemma permanent_failure_phrase (d : string) :
  permanent_failure d = true <->
  exists phrase, In phrase (invalid_user_phrases ++ blocked_phrases)
                 /\ contains phrase (lower d) = true.
Proof.
  unfold permanent_failure, is_invalid_user, is_blocked.
  rewrite orb_true_iff, !existsb_exists. split.
  - intros [(p & Hin & Hc)|(p & Hin & Hc)]; exists p; split; try assumption;
      apply in_or_app; auto.
  - intros (p & Hin & Hc). apply in_app_or in Hin as [Hin|Hin]; [left|right];
      exists p; now split.
Qed.

(** C2, the code against the claim.  The customer notification never
    deletes a registry document.  It always returns, makes no database
    call and leaves the registry as it was: without a handle the test of
    line 441 is false, and with a handle the test itself raises, because a
    database of Motor has no truth value; the exception is caught by the
    outer handler and logged after the warning about the answer.  That
    happens for every answer that is not [ok], whatever its description
    and error code.  The classification that was to decide the deletion is
    as the claim says: an answer calls for pruning exactly when it is a
    JSON object whose [ok] is not true and whose description contains,
    lower-cased, one of the phrases; the error code plays no part (a 400
    answer that says the chat was not found is classified like a 403
    one).  For the answer [{"ok": false, "error_code": 403, "description":
    "Forbidden: bot was blocked by the user"}] and a supplied handle the
    registry keeps the recipient. *)
Theorem handle_truth_test_prevents_pruning :
  (forall cfg env user_id order_id order_status customer_name rejection_reason
          delivery_time_slot db w,
      let run := notify_customer_order_status cfg env user_id order_id
                   order_status customer_name rejection_reason
                   delivery_time_slot db w in
      fst run = Ret tt /\ db_calls (snd run) = db_calls w
      /\ customers (snd run) = customers w)
  /\ (forall cfg env user_id order_id order_status customer_name rejection_reason
             delivery_time_slot w resp body d,
         truthy_str (telegram_bot_token cfg) = true ->
         provider env (List.length (sent w))
           (customer_request cfg user_id order_id order_status rejection_reason
              delivery_time_slot) = inr resp ->
         response_json resp = inr body ->
         truthy_bool (get (ok body)) = false ->
         get_default (description body) "Unknown error" = Some d ->
         new_records w
           (snd (notify_customer_order_status cfg env user_id order_id
                   order_status customer_name rejection_reason
                   delivery_time_slot (Some motor_database) w))
         = [refusal_record user_id order_id order_status (get (error_code body)) d;
            truth_test_record user_id order_id order_status]
         /\ new_records w
              (snd (notify_customer_order_status cfg env user_id order_id
                      order_status customer_name rejection_reason
                      delivery_time_slot None w))
            = [refusal_record user_id order_id order_status
                 (get (error_code body)) d])
  /\ (forall answer,
         calls_for_pruning answer = true <->
         exists resp body d,
           answer = inr resp /\ response_json resp = inr body
           /\ truthy_bool (get (ok body)) = false
           /\ get_default (description body) "Unknown error" = Some d
           /\ permanent_failure d = true)
  /\ (forall d,
         permanent_failure d = true <->
         exists phrase, In phrase (invalid_user_phrases ++ blocked_phrases)
                        /\ contains phrase (lower d) = true)
  /\ (forall status text o code code' d,
         calls_for_pruning (inr (mk_response status text (inr (mk_body o code d))))
         = calls_for_pruning (inr (mk_response status text (inr (mk_body o code' d)))))
  /\ calls_for_pruning (inr (mk_response 403 "" (inr Examples.blocked_body))) = true
  /\ calls_for_pruning (inr (mk_response 429 "" (inr Examples.rate_limited_body))) = false
  /\ calls_for_pruning (inr (mk_response 400 "" (inr Examples.bad_request_body))) = false
  /\ calls_for_pruning (inl Examples.timed_out) = false
  /\ calls_for_pruning
       (inr (mk_response 400 ""
               (inr (mk_body (Val false) (Val 400%Z)
                       (Val "Bad Request: chat not found"))))) = true
  /\ permanent_failure "FORBIDDEN: BOT WAS BLOCKED BY THE USER" = true
  /\ (let w' := snd (notify_customer_order_status Examples.one_admin
                       (Examples.answering 403 Examples.blocked_body) 42
                       Examples.order_id "принят" None None None
                       (Some motor_database) (empty_world [7; 42; 9]%Z)) in
      db_calls w' = [] /\ customers w' = [7; 42; 9]%Z
      /\ log w'
         = [refusal_record 42 Examples.order_id "принят" (Some 403%Z)
              "Forbidden: bot was blocked by the user";
            truth_test_record 42 Examples.order_id "принят"]).
Proof.
  repeat match goal with |- _ /\ _ => split end; try reflexivity.
  - intros cfg env user_id order_id order_status customer_name rejection_reason
      delivery_time_slot db w run. subst run.
    destruct (truthy_str (telegram_bot_token cfg)) eqn:T.
    + destruct (customer_run cfg env user_id order_id order_status customer_name
                  rejection_reason delivery_time_slot db w T) as (lines & E & _).
      cbv zeta in E. rewrite E. repeat apply conj; reflexivity.
    + unfold notify_customer_order_status. rewrite T.
      repeat apply conj; reflexivity.
  - intros cfg env user_id order_id order_status customer_name rejection_reason
      delivery_time_slot w resp body d T P J O D.
    split.
    + destruct (customer_run cfg env user_id order_id order_status customer_name
                  rejection_reason delivery_time_slot (Some motor_database) w T)
        as (lines & E & _ & L).
      cbv zeta in E, L. rewrite P, J, O, D in L.
      rewrite E. unfold new_records. cbn [snd log].
      now rewrite skipn_length_app, L.
    + destruct (customer_run cfg env user_id order_id order_status customer_name
                  rejection_reason delivery_time_slot None w T)
        as (lines & E & _ & L).
      cbv zeta in E, L. rewrite P, J, O, D in L.
      rewrite E. unfold new_records. cbn [snd log].
      now rewrite skipn_length_app, L.
  - exact calls_for_pruning_conditions.
  - exact permanent_failure_phrase.
  - cbv zeta. repeat apply conj; reflexivity.
Qed.

(** C3 (as amended).  Both admin fan-outs make a delivery attempt to every
    configured administrator, whatever happens to the others, and collect
    one result for each.  With M the number of results that are not [True],
    the fan-out then writes exactly one aggregate error record, which names
    the order and M, when M > 0, and none when M = 0.  That record is the
    whole of what the run logs when every call is answered with a JSON
    object and, for the accepted-order notification, with a success status
    (the failures then being answers that are not acknowledged); the other
    records of a run are error records of single recipients, written before
    the aggregate one by the senders, which log the exceptions they catch:
    a call that raises, a body that is not JSON and, for the accepted-order
    notification, an HTTP error status. *)
Theorem admin_fan_out_report :
  forall cfg env order_id customer_name customer_phone delivery_address
         total_amount items user_id receipt_file_id delivery_time_slot w,
    truthy_str (telegram_bot_token cfg) = true -> admin_ids cfg <> [] ->
    (exists results w1,
        let w' := mk_world (sent w1)
                    (log w1 ++ aggregate_records (new_order_aggregate order_id)
                                 (failed_count results))
                    (db_calls w1) (customers w1) in
        gather (map (fun admin_id =>
                       _send_simple_notification env
                         (str_opt (telegram_bot_token cfg)) admin_id
                         (new_order_message order_id) None)
                  (admin_ids cfg)) w = (Ret results, w1)
        /\ notify_admins_new_order cfg env order_id customer_name customer_phone
             delivery_address total_amount items user_id receipt_file_id w
           = (Ret tt, w')
        /\ batch_report env (admin_ids cfg) (new_order_message order_id)
             (new_order_aggregate order_id) w results w'
        /\ (answers_json env ->
            new_records w w'
            = aggregate_records (new_order_aggregate order_id)
                (failed_count results)))
    /\ (exists details name type w0 results w1,
           let message := accepted_message order_id customer_name customer_phone
                            delivery_address total_amount items
                            delivery_time_slot details in
           let w' := mk_world (sent w1)
                       (log w1 ++ aggregate_records (accepted_aggregate order_id)
                                    (failed_count results))
                       (db_calls w1) (customers w1) in
           fst (items_details env items w) = Ret details
           /\ fst (fetch_receipt env receipt_file_id
                     (snd (items_details env items w)))
              = Ret (stored_receipt env receipt_file_id, name, type)
           /\ sent w0 = sent w
           /\ gather
                (map (fun admin_id =>
                        bind (_send_notification_with_receipt env
                                (str_opt (telegram_bot_token cfg)) admin_id message
                                (stored_receipt env receipt_file_id) name type)
                             (fun sent_ok => ret (Some sent_ok)))
                     (admin_ids cfg)) w0 = (Ret results, w1)
           /\ notify_admin_order_accepted cfg env order_id customer_name
                customer_phone delivery_address total_amount items user_id
                receipt_file_id delivery_time_slot w = (Ret tt, w')
           /\ batch_report env (admin_ids cfg) message
                (accepted_aggregate order_id) w results w'
           /\ (answers_all env ->
               new_records w w'
               = aggregate_records (accepted_aggregate order_id)
                   (failed_count results))).
Proof.
  intros cfg env order_id customer_name customer_phone delivery_address
    total_amount items user_id receipt_file_id delivery_time_slot w Ht Ha.
  split.
  - destruct (new_order_run cfg env order_id customer_name customer_phone
                delivery_address total_amount items user_id receipt_file_id w
                Ht Ha) as (results & w1 & G & E & B).
    exists results, w1. cbv zeta in *.
    repeat match goal with |- _ /\ _ => split end; try assumption.
    intros A.
    destruct (simple_gather_json env (str_opt (telegram_bot_token cfg))
                (new_order_message order_id) (admin_ids cfg) w A)
      as (results' & w1' & G' & L).
    rewrite G in G'. injection G' as _ <-.
    unfold new_records. cbn [log]. rewrite L. apply skipn_length_app.
  - destruct (accepted_run cfg env order_id customer_name customer_phone
                delivery_address total_amount items user_id receipt_file_id
                delivery_time_slot w Ht Ha)
      as (details & name & type & w0 & results & w1 & D & F & S & G & E & B).
    exists details, name, type, w0, results, w1. cbv zeta in *.
    repeat match goal with |- _ /\ _ => split end; try assumption.
    intros A. destruct B as (_ & _ & _ & lines & N & _ & Hnone & _).
    rewrite N, (Hnone A). reflexivity.
Qed.

Lemma admin_fan_out_report_witness :
  truthy_str (telegram_bot_token Examples.two_admins) = true
  /\ admin_ids Examples.two_admins <> []
  /\ (exists w',
         notify_admins_new_order Examples.two_admins Examples.unreachable
           Examples.order_id "" "" "" 1500 [Examples.two_at_500] 1 None
           (empty_world []) = (Ret tt, w'))
  /\ (exists w',
         notify_admin_order_accepted Examples.two_admins Examples.unreachable
           Examples.order_id "" "" "" 1500 [Examples.two_at_500] 1 None ""
           (empty_world []) = (Ret tt, w'))
  /\ answers_json (Examples.answering 403 Examples.blocked_body)
  /\ log (snd (notify_admins_new_order Examples.two_admins
                 (Examples.answering 403 Examples.blocked_body)
                 Examples.order_id "" "" "" 1500 [Examples.two_at_500] 1 None
                 (empty_world [])))
     = [new_order_aggregate Examples.order_id 2].
Proof.
  assert (truthy_str (telegram_bot_token Examples.two_admins) = true) as H1
    by reflexivity.
  assert (admin_ids Examples.two_admins <> []) as H2 by discriminate.
  assert (answers_json (Examples.answering 403 Examples.blocked_body)) as H3.
  { intros n r. do 2 eexists. split; reflexivity. }
  split; [exact H1|]. split; [exact H2|].
  destruct (admin_fan_out_report Examples.two_admins Examples.unreachable
              Examples.order_id "" "" "" 1500 [Examples.two_at_500] 1%Z None ""
              (empty_world []) H1 H2)
    as [(r & w1 & _ & E & _) (d & n & t & w0 & r' & w1' & _ & _ & _ & _ & E' & _)].
  split; [eexists; eassumption|]. split; [eexists; eassumption|].
  split; [exact H3|].
  destruct (admin_fan_out_report Examples.two_admins
              (Examples.answering 403 Examples.blocked_body)
              Examples.order_id "" "" "" 1500 [Examples.two_at_500] 1%Z None ""
              (empty_world []) H1 H2)
    as [(r2 & w2 & G2 & E2 & _ & J2) _].
  cbv zeta in E2, J2. rewrite E2. cbn [snd].
  injection G2 as <- <-. exact (J2 H3).
Defined.

(** C3, the claim as stated fails: with one administrator whose delivery
    raises (N = 1, M = 1) the log holds two error records, the one of the
    recipient and the aggregate one, not one record in total; with one
    administrator whose file call raises and whose text call is
    acknowledged (M = 0) the log still holds an error record; and with one
    administrator whose text call of the accepted-order notification is
    answered with the status 403 and a JSON object, no call raises and the
    log holds two error records as well. *)
Lemma one_failure_two_error_records :
  log (snd (notify_admins_new_order Examples.one_admin Examples.unreachable
              Examples.order_id "" "" "" 1500 [Examples.two_at_500] 1 None
              (empty_world [])))
  = [mk_log ERROR "Ошибка при отправке уведомления администратору 7: connection refused";
     mk_log ERROR ("Не удалось отправить уведомление о новом заказе "
                   ++ Examples.order_id ++ " 1 админам")]
  /\ log (snd (notify_admin_order_accepted Examples.one_admin
                 (Examples.files_refused Examples.receipt_file)
                 Examples.order_id "" "" "" 1500 [Examples.two_at_500] 1
                 (Some "65a1b2c3d4e5f6a7b8c9d0aa") "" (empty_world [])))
     = [mk_log ERROR "Исключение при отправке файла администратору 7"]
  /\ log (snd (notify_admin_order_accepted Examples.one_admin
                 (Examples.answering 403 Examples.blocked_body)
                 Examples.order_id "" "" "" 1500 [Examples.two_at_500] 1 None ""
                 (empty_world [])))
     = [mk_log ERROR "Ошибка при отправке уведомления администратору 7: ";
        accepted_aggregate Examples.order_id 1].
Proof. repeat apply conj; reflexivity. Qed.

(** C4.  For one recipient of the accepted-order notification: when there
    is receipt data (and then a file name), one call carrying the file,
    with the message as its caption, is made first, to [sendPhoto] for an
    image and to [sendDocument] for a PDF or a generic document.  If the
    provider acknowledges it the outcome is [True] and nothing else is
    sent.  If it does not - an answer that is not [ok], an HTTP error
    status, or an exception - the file is not sent again and one text call
    ([sendMessage]) follows.  Without receipt data the text call is the
    only call.  The outcome is [True] exactly when one of the calls made
    was acknowledged. *)
Theorem receipt_then_text_fallback :
  (forall env token admin msg data fname ctype w,
      let n := List.length (sent w) in
      let has_file := truthy_str data && truthy_str fname in
      let file_call :=
        file_request token admin msg (str_opt data) (str_opt fname) ctype in
      let text_call := text_request token admin msg in
      let file_ok := has_file && acknowledged (provider env n file_call) in
      let text_ok :=
        acknowledged (provider env (n + (if has_file then 1 else 0)) text_call) in
      let calls :=
        if has_file then (if file_ok then [file_call] else [file_call; text_call])
        else [text_call] in
      let outcome := if file_ok then true else text_ok in
      (exists lines,
          _send_notification_with_receipt env token admin msg data fname ctype w
          = (Ret outcome,
             mk_world (sent w ++ calls) (log w ++ lines) (db_calls w) (customers w)))
      /\ (outcome = true <-> file_ok = true \/ (In text_call calls /\ text_ok = true)))
  /\ (forall token admin msg data fname ctype,
         truthy_str (Some fname) = true ->
         file_request token admin msg data fname ctype
         = PostMultipart
             ("https://api.telegram.org/bot" ++ token ++ "/"
              ++ match classify fname ctype with
                 | Image => "sendPhoto"
                 | _ => "sendDocument"
                 end)
             (str_int admin) msg "Markdown"
             (match classify fname ctype with
              | Image => "photo"
              | _ => "document"
              end)
             fname data (if truthy_str ctype then ctype else None) 30)
  /\ (forall token admin msg,
         text_request token admin msg
         = PostJson ("https://api.telegram.org/bot" ++ token ++ "/sendMessage")
             admin msg "Markdown" None 30)
  /\ (forall env receipt_file_id w,
         exists name type w',
           fetch_receipt env receipt_file_id w
           = (Ret (stored_receipt env receipt_file_id, name, type), w')
           /\ (stored_receipt env receipt_file_id <> None -> truthy_str name = true)).
Proof.
  repeat match goal with |- _ /\ _ => split end.
  - intros env token admin msg data fname ctype w n has_file file_call text_call
      file_ok text_ok calls outcome.
    split.
    + destruct (receipt_run env token admin msg data fname ctype w)
        as (lines & E & _).
      exists lines. exact E.
    + subst outcome calls text_ok file_ok. destruct has_file; cbn [andb].
      * destruct (acknowledged (provider env n file_call)).
        -- split; auto.
        -- split.
           ++ intros H. right. split; [right; left; reflexivity|exact H].
           ++ intros [H|[_ H]]; [discriminate|exact H].
      * split.
        -- intros H. right. split; [left; reflexivity|exact H].
        -- intros [H|[_ H]]; [discriminate|exact H].
  - intros token admin msg data fname ctype H. unfold file_request.
    destruct fname as [|c f]; [discriminate|].
    now destruct (classify (String c f) ctype).
  - reflexivity.
  - intros env receipt_file_id w.
    destruct (fetch_receipt_run env receipt_file_id w) as (name & type & reads & E & H).
    exists name, type. eexists. split; [exact E|exact H].
Qed.

Lemma receipt_then_text_fallback_witness :
  truthy_str (Some "receipt.png") = true
  /\ file_request "TOKEN" 7 "text" "data" "receipt.png" None
     = PostMultipart "https://api.telegram.org/botTOKEN/sendPhoto" "7" "text"
         "Markdown" "photo" "receipt.png" "data" None 30
  /\ (exists name type w',
         fetch_receipt (Examples.files_refused Examples.receipt_file)
           (Some "65a1b2c3d4e5f6a7b8c9d0aa") (empty_world [])
         = (Ret (Some "JPEGDATA", name, type), w')
         /\ truthy_str name = true).
Proof.
  pose proof receipt_then_text_fallback as (_ & F & _ & R).
  split; [reflexivity|]. split.
  - apply (F "TOKEN" 7%Z "text" "data" "receipt.png" None). reflexivity.
  - destruct (R (Examples.files_refused Examples.receipt_file)
                (Some "65a1b2c3d4e5f6a7b8c9d0aa") (empty_world []))
      as (name & type & w' & E & H).
    exists name, type, w'. split; [exact E|].
    apply H. discriminate.
Defined.

(** C5.  Failures of the two enrichment steps of the accepted-order
    notification never reach the caller.  Fetching the receipt always
    returns: without a reference, when the lookup in the blob store raises,
    when reading the file raises and when the file is empty, the receipt
    data is [None].  Resolving the names of a line item always returns:
    when the item has no variant name and the catalogue gives none, the
    variant name is blank.  Whatever the catalogue and the blob store do,
    the notification returns normally and every administrator is sent a
    call carrying the message; that message is composed from the order and
    the catalogue alone, and when there is no receipt data each
    administrator gets exactly the text call. *)
Theorem enrichment_failures_degrade :
  (forall env receipt_file_id w,
      exists name type reads,
        fetch_receipt env receipt_file_id w
        = (Ret (stored_receipt env receipt_file_id, name, type),
           mk_world (sent w) (log w) (db_calls w ++ reads) (customers w)))
  /\ (forall env receipt_file_id,
         truthy_str receipt_file_id = false ->
         stored_receipt env receipt_file_id = None)
  /\ (forall env receipt_file_id e,
         gridfs_get env (str_opt receipt_file_id) = inl e ->
         stored_receipt env receipt_file_id = None)
  /\ (forall env receipt_file_id f e,
         gridfs_get env (str_opt receipt_file_id) = inr f -> grid_read f = inl e ->
         stored_receipt env receipt_file_id = None)
  /\ (forall env receipt_file_id f,
         gridfs_get env (str_opt receipt_file_id) = inr f -> grid_read f = inr "" ->
         stored_receipt env receipt_file_id = None)
  /\ (forall env it w,
         exists d reads,
           item_details env it w
           = (Ret d, mk_world (sent w) (log w) (db_calls w ++ reads) (customers w)))
  /\ (forall env it w,
         truthy_str (get (item_variant_name it)) = false -> lookup_fails env it ->
         exists d w', item_details env it w = (Ret d, w')
                      /\ detail_variant_name d = "")
  /\ (forall cfg env order_id customer_name customer_phone delivery_address
             total_amount items user_id receipt_file_id delivery_time_slot w,
         truthy_str (telegram_bot_token cfg) = true -> admin_ids cfg <> [] ->
         exists details w',
           let message := accepted_message order_id customer_name customer_phone
                            delivery_address total_amount items
                            delivery_time_slot details in
           fst (items_details env items w) = Ret details
           /\ notify_admin_order_accepted cfg env order_id customer_name
                customer_phone delivery_address total_amount items user_id
                receipt_file_id delivery_time_slot w = (Ret tt, w')
           /\ (forall a, In a (admin_ids cfg) ->
                 exists r, In r (skipn (List.length (sent w)) (sent w'))
                           /\ addressed_to a r = true /\ request_text r = message)
           /\ (stored_receipt env receipt_file_id = None ->
                skipn (List.length (sent w)) (sent w')
                = map (fun a => text_request (str_opt (telegram_bot_token cfg)) a
                                  message)
                    (admin_ids cfg)))
  /\ (forall env1 env2 items w1 w2,
         (forall p, find_one env1 p = find_one env2 p) ->
         fst (items_details env1 items w1) = fst (items_details env2 items w2)).
Proof.
  repeat match goal with |- _ /\ _ => split end.
  - intros env receipt_file_id w.
    destruct (fetch_receipt_run env receipt_file_id w) as (name & type & reads & E & _).
    now exists name, type, reads.
  - intros env receipt_file_id H. unfold stored_receipt. now rewrite H.
  - intros env receipt_file_id e H. unfold stored_receipt. rewrite H.
    now destruct (_ && _).
  - intros env receipt_file_id f e H1 H2. unfold stored_receipt. rewrite H1, H2.
    now destruct (_ && _).
  - intros env receipt_file_id f H1 H2. unfold stored_receipt. rewrite H1, H2.
    now destruct (_ && _).
  - exact item_details_run.
  - exact item_details_blank.
  - intros cfg env order_id customer_name customer_phone delivery_address
      total_amount items user_id receipt_file_id delivery_time_slot w Ht Ha.
    destruct (accepted_run cfg env order_id customer_name customer_phone
                delivery_address total_amount items user_id receipt_file_id
                delivery_time_slot w Ht Ha)
      as (details & name & type & w0 & results & w1 & D & _ & S0 & G & E & B).
    cbv zeta in G, E, B. exists details. eexists. cbv zeta.
    split; [exact D|]. split; [exact E|]. split.
    + destruct B as (_ & B & _). exact B.
    + intros Hnone. cbn [sent]. rewrite Hnone in G.
      destruct (text_only_gather env (str_opt (telegram_bot_token cfg))
                  (accepted_message order_id customer_name customer_phone
                     delivery_address total_amount items delivery_time_slot details)
                  name type (admin_ids cfg) w0) as (results' & w1' & G' & S).
      rewrite G in G'. injection G' as _ <-.
      rewrite S, S0. apply skipn_length_app.
  - exact items_details_catalogue.
Qed.

Lemma enrichment_failures_degrade_witness :
  stored_receipt Examples.unreachable None = None
  /\ stored_receipt Examples.unreachable (Some "65a1b2c3d4e5f6a7b8c9d0aa") = None
  /\ stored_receipt (Examples.files_refused Examples.unreadable_file)
       (Some "65a1b2c3d4e5f6a7b8c9d0aa") = None
  /\ stored_receipt (Examples.files_refused Examples.empty_file)
       (Some "65a1b2c3d4e5f6a7b8c9d0aa") = None
  /\ (exists d w',
         item_details Examples.unreachable Examples.flavoured (empty_world [])
         = (Ret d, w') /\ detail_variant_name d = "")
  /\ (exists w',
         notify_admin_order_accepted Examples.one_admin Examples.unreachable
           Examples.order_id "" "" "" 1500 [Examples.flavoured] 1
           (Some "65a1b2c3d4e5f6a7b8c9d0aa") "" (empty_world [])
         = (Ret tt, w')
         /\ exists message,
              skipn 0 (sent w') = [text_request "TOKEN" 7 message])
  /\ fst (items_details Examples.unreachable [Examples.flavoured] (empty_world []))
     = fst (items_details (Examples.files_refused Examples.receipt_file)
              [Examples.flavoured] (empty_world [42%Z])).
Proof.
  pose proof enrichment_failures_degrade
    as (_ & H1 & H2 & H3 & H4 & _ & H5 & H & H6).
  repeat apply conj.
  - apply H1. reflexivity.
  - apply (H2 Examples.unreachable (Some "65a1b2c3d4e5f6a7b8c9d0aa") Examples.refused).
    reflexivity.
  - apply (H3 (Examples.files_refused Examples.unreadable_file)
              (Some "65a1b2c3d4e5f6a7b8c9d0aa") Examples.unreadable_file
              Examples.refused); reflexivity.
  - apply (H4 (Examples.files_refused Examples.empty_file)
              (Some "65a1b2c3d4e5f6a7b8c9d0aa") Examples.empty_file); reflexivity.
  - apply H5; [reflexivity | exact I].
  - assert (truthy_str (telegram_bot_token Examples.one_admin) = true) as T
      by reflexivity.
    assert (admin_ids Examples.one_admin <> []) as A by discriminate.
    destruct (H Examples.one_admin Examples.unreachable Examples.order_id "" "" ""
                1500 [Examples.flavoured] 1%Z (Some "65a1b2c3d4e5f6a7b8c9d0aa") ""
                (empty_world []) T A) as (details & w' & _ & E & _ & S).
    exists w'. split; [exact E|].
    eexists. apply S. reflexivity.
  - apply H6. reflexivity.
Defined.

(** C6.  When the bot credential is missing (or empty) or no administrator
    is configured, both admin notifications return normally and leave the
    world as it was: no provider call, no log record, no read of the
    catalogue or the blob store, no change of the registry. *)
Theorem unconfigured_admin_notification_is_noop :
  forall cfg env order_id customer_name customer_phone delivery_address
         total_amount items user_id receipt_file_id delivery_time_slot w,
    truthy_str (telegram_bot_token cfg) = false \/ admin_ids cfg = [] ->
    notify_admins_new_order cfg env order_id customer_name customer_phone
      delivery_address total_amount items user_id receipt_file_id w = (Ret tt, w)
    /\ notify_admin_order_accepted cfg env order_id customer_name customer_phone
         delivery_address total_amount items user_id receipt_file_id
         delivery_time_slot w = (Ret tt, w).
Proof.
  intros cfg env order_id customer_name customer_phone delivery_address
    total_amount items user_id receipt_file_id delivery_time_slot w.
  unfold notify_admins_new_order, notify_admin_order_accepted.
  intros [H|H]; rewrite H.
  - split; reflexivity.
  - destruct (negb _); split; reflexivity.
Qed.

Lemma unconfigured_admin_notification_is_noop_witness :
  (truthy_str (telegram_bot_token Examples.no_token) = false
   \/ admin_ids Examples.no_token = [])
  /\ notify_admins_new_order Examples.no_token Examples.unreachable
       Examples.order_id "" "" "" 1500 [Examples.two_at_500] 1 None
       (empty_world [42%Z]) = (Ret tt, empty_world [42%Z])
  /\ notify_admin_order_accepted (mk_settings (Some "TOKEN") [])
       Examples.unreachable Examples.order_id "" "" "" 1500
       [Examples.two_at_500] 1 None "" (empty_world [42%Z])
     = (Ret tt, empty_world [42%Z]).
Proof.
  split; [left; reflexivity|]. split.
  - apply (unconfigured_admin_notification_is_noop Examples.no_token
             Examples.unreachable Examples.order_id "" "" "" 1500
             [Examples.two_at_500] 1%Z None "").
    left; reflexivity.
  - apply (unconfigured_admin_notification_is_noop (mk_settings (Some "TOKEN") [])
             Examples.unreachable Examples.order_id "" "" "" 1500
             [Examples.two_at_500] 1%Z None "").
    right; reflexivity.
Defined.

End DeliveryClaims.

(** * Further properties *)

(** ** Amounts *)

Module AmountBounds.
Import PyStr Amount Spec StrFacts AmountFacts.

Lemma uint_no_minus (d : Decimal.uint) :
  prefix "-" (DecimalString.NilZero.string_of_uint d) = false.
Proof. destruct d; reflexivity. Qed.

Lemma str_int_minus (z : Z) : prefix "-" (str_int z) = (z <? 0)%Z.
Proof.
  unfold str_int. destruct z as [|p|p]; cbn [Z.to_int Z.ltb Z.compare].
  - reflexivity.
  - apply uint_no_minus.
  - cbn. now destruct (DecimalString.NilZero.string_of_uint (Pos.to_uint p)).
Qed.

Lemma prefix_minus_app (a b : string) :
  prefix "-" (a ++ b) = match a with
                        | EmptyString => prefix "-" b
                        | String _ _ => prefix "-" a
                        end.
Proof.
  destruct a as [|c a]; [reflexivity|].
  cbn [append]. rewrite !prefix_cons, !prefix_nil_l. reflexivity.
Qed.

Lemma round_half_even_nonneg (x : Q) : 0 <= x -> (0 <= round_half_even x)%Z.
Proof.
  intros H. unfold round_half_even.
  assert (0 <= Qfloor x)%Z as F.
  { change 0%Z with (Qfloor 0). now apply Qfloor_resp_le. }
  destruct (Qcompare _ _); [destruct (Z.even _)| |]; lia.
Qed.

Lemma hundredths_nonneg (a : Q) : (0 <= hundredths a)%Z.
Proof.
  apply round_half_even_nonneg.
  apply Qmult_le_0_compat; [apply Qabs_nonneg|discriminate].
Qed.

(** X1.  The rendering of an amount starts with a minus sign exactly when
    the amount is below zero. *)
Theorem format_amount_minus_sign :
  forall amount, prefix "-" (format_amount amount) = true <-> amount < 0.
Proof.
  intros a. rewrite format_amount_refines. unfold format_amount_spec.
  destruct (Qeq_bool a (inject_Z (Qfloor a))) eqn:F.
  - apply Qeq_bool_eq in F. rewrite str_int_minus, Z.ltb_lt.
    rewrite F at 2. change 0 with (inject_Z 0). rewrite <- Zlt_Qlt. reflexivity.
  - rewrite prefix_minus_app. unfold sign.
    destruct (Qcompare_spec a 0) as [E|E|E].
    + exfalso. apply Qeq_bool_neq in F. apply F.
      rewrite (Qfloor_comp _ _ E). exact E.
    + split; [intros _; exact E|reflexivity].
    + rewrite prefix_minus_app.
      assert (prefix "-" (str_int (hundredths a / 100)) = false) as N.
      { rewrite str_int_minus. apply Z.ltb_ge.
        apply Z.div_pos; [apply hundredths_nonneg|lia]. }
      split.
      * intros H. destruct (str_int (hundredths a / 100)) eqn:S.
        -- pose proof (str_int_free_of_dot (hundredths a / 100)) as _.
           unfold str_int in S.
           destruct (Z.to_int (hundredths a / 100)) as [d|d]; cbn in S;
             [destruct d; discriminate S|discriminate S].
        -- congruence.
      * intros H. exfalso. apply (Qlt_irrefl 0). now apply (Qlt_trans _ a).
Qed.

Lemma Qfloor_unit (x : Q) : 0 <= x -> x < 1 -> Qfloor x = 0%Z.
Proof.
  intros L U.
  pose proof (Qfloor_le x) as A. pose proof (Qlt_floor x) as B.
  assert (inject_Z (Qfloor x) < inject_Z 1) as A' by (change (inject_Z 1) with 1; lra).
  assert (inject_Z (-1) < inject_Z (Qfloor x)) as B'.
  { rewrite inject_Z_plus in B. change (inject_Z 1) with 1 in B.
    change (inject_Z (-1)) with (-1 # 1). lra. }
  rewrite <- Zlt_Qlt in A', B'. lia.
Qed.

Lemma hundredths_tiny (a : Q) : Qabs a <= 1 # 200 -> hundredths a = 0%Z.
Proof.
  intros H. unfold hundredths, round_half_even.
  pose proof (Qabs_nonneg a) as N.
  change (inject_Z 100) with 100.
  assert (Qfloor (Qabs a * 100) = 0%Z) as F by (apply Qfloor_unit; lra).
  rewrite F. change (inject_Z 0) with 0.
  destruct (Qcompare_spec (Qabs a * 100 - 0) (1 # 2)) as [E|E|E];
    [reflexivity|reflexivity|lra].
Qed.

(** X2.  An amount that is not zero and whose magnitude is at most half a
    hundredth is rendered without a fractional part: as [0] when it is
    positive and as [-0] when it is negative. *)
Theorem format_amount_below_half_hundredth :
  forall amount,
    ~ amount == 0 -> Qabs amount <= 1 # 200 ->
    format_amount amount = if Qle_bool 0 amount then "0" else "-0".
Proof.
  intros a NZ T. rewrite format_amount_refines. unfold format_amount_spec.
  assert (Qeq_bool a (inject_Z (Qfloor a)) = false) as F.
  { apply not_true_iff_false. intros E. apply Qeq_bool_eq in E.
    apply NZ.
    pose proof (Qabs_wd _ _ E) as A.
    change (Qabs (inject_Z (Qfloor a))) with (inject_Z (Z.abs (Qfloor a))) in A.
    assert (inject_Z (Z.abs (Qfloor a)) < inject_Z 1) as T'
      by (change (inject_Z 1) with 1; lra).
    rewrite <- Zlt_Qlt in T'.
    assert (Qfloor a = 0%Z) as Z0 by lia.
    rewrite Z0 in E. exact E. }
  rewrite F, (hundredths_tiny a T). unfold sign.
  destruct (Qcompare_spec a 0) as [E|E|E].
  - contradiction.
  - destruct (Qle_bool 0 a) eqn:L; [|reflexivity].
    apply Qle_bool_iff in L. lra.
  - destruct (Qle_bool 0 a) eqn:L; [reflexivity|].
    exfalso. apply not_true_iff_false in L. apply L. apply Qle_bool_iff. lra.
Qed.

Lemma format_amount_below_half_hundredth_witness :
  format_amount (-4 # 1000) = "-0" /\ format_amount (binary64 5 (-10)) = "0".
Proof.
  split.
  - apply (format_amount_below_half_hundredth (-4 # 1000)).
    + intros E. discriminate E.
    + intros E. discriminate E.
  - apply (format_amount_below_half_hundredth (binary64 5 (-10))).
    + intros E. discriminate E.
    + intros E. discriminate E.
Defined.
End AmountBounds.

(** ** Strings *)

Module StringProperties.
Import PyStr Spec Notifications StrSpec StrFacts.

Lemma hex_digit_unreserved (n : nat) : (n < 16)%nat -> is_unreserved (hex_digit n) = true.
Proof.
  intros H. do 16 (destruct n as [|n]; [reflexivity|]). lia.
Qed.

Lemma hex_digit_inj (n m : nat) :
  (n < 16)%nat -> (m < 16)%nat -> hex_digit n = hex_digit m -> n = m.
Proof.
  intros Hn Hm.
  do 16 (destruct n as [|n];
         [do 16 (destruct m as [|m]; [first [reflexivity|discriminate]|]); lia|]).
  lia.
Qed.

Lemma byte_high (c : ascii) : (nat_of_ascii c / 16 < 16)%nat.
Proof.
  pose proof (nat_ascii_bounded c).
  apply Nat.Div0.div_lt_upper_bound. lia.
Qed.

Lemma byte_low (c : ascii) : (nat_of_ascii c mod 16 < 16)%nat.
Proof. apply Nat.mod_upper_bound. lia. Qed.

Lemma quote_url_safe (s : string) : all_chars url_safe (quote s) = true.
Proof.
  induction s as [|c r IH]; [reflexivity|].
  cbn [quote]. destruct (is_unreserved c) eqn:U; cbn [all_chars].
  - unfold url_safe at 1. now rewrite U.
  - rewrite IH. unfold url_safe.
    rewrite (hex_digit_unreserved _ (byte_high c)), (hex_digit_unreserved _ (byte_low c)).
    reflexivity.
Qed.

Lemma all_chars_free_of (p : ascii -> bool) (c : ascii) (s : string) :
  p c = false -> all_chars p s = true -> free_of c s = true.
Proof.
  intros Hc. induction s as [|a r IH]; [reflexivity|].
  cbn [all_chars free_of]. intros H. apply andb_true_iff in H as [Ha Hr].
  rewrite (IH Hr), andb_true_r. apply negb_true_iff, Ascii.eqb_neq.
  intros ->. congruence.
Qed.

Lemma quote_inj (a b : string) : quote a = quote b -> a = b.
Proof.
  revert b. induction a as [|c r IH]; intros [|d t]; cbn [quote].
  - reflexivity.
  - destruct (is_unreserved d); discriminate.
  - destruct (is_unreserved c); discriminate.
  - destruct (is_unreserved c) eqn:Uc, (is_unreserved d) eqn:Ud; intros E.
    + injection E as -> E. now rewrite (IH _ E).
    + injection E as -> _. discriminate Uc.
    + injection E as <- _. discriminate Ud.
    + injection E as Eh El E.
      assert (nat_of_ascii c / 16 = nat_of_ascii d / 16)%nat as Eh'
        by (apply hex_digit_inj; [apply byte_high..|exact Eh]).
      assert (nat_of_ascii c mod 16 = nat_of_ascii d mod 16)%nat as El'
        by (apply hex_digit_inj; [apply byte_low..|exact El]).
      rewrite (IH _ E). f_equal.
      rewrite <- (ascii_nat_embedding c), <- (ascii_nat_embedding d). f_equal.
      pose proof (Nat.div_mod_eq (nat_of_ascii c) 16) as Dc.
      pose proof (Nat.div_mod_eq (nat_of_ascii d) 16) as Dd.
      rewrite Eh', El' in Dc. congruence.
Qed.

(** X3.  The address link is the address in square brackets followed by
    the 2GIS search URL of the encoded address in parentheses.  The encoded
    address holds only unreserved characters and percent signs: no closing
    parenthesis, no slash and no space.  Different addresses have different
    encodings. *)
Theorem address_link_target_is_encoded :
  forall delivery_address,
    address_link delivery_address =
      "[" ++ delivery_address ++ "](https://2gis.kz/search/"
        ++ quote delivery_address ++ ")"
    /\ all_chars url_safe (quote delivery_address) = true
    /\ free_of ")" (quote delivery_address) = true
    /\ free_of "/" (quote delivery_address) = true
    /\ free_of " " (quote delivery_address) = true
    /\ (forall other, quote delivery_address = quote other -> delivery_address = other).
Proof.
  intros a. repeat apply conj.
  - reflexivity.
  - apply quote_url_safe.
  - apply (all_chars_free_of url_safe); [reflexivity|apply quote_url_safe].
  - apply (all_chars_free_of url_safe); [reflexivity|apply quote_url_safe].
  - apply (all_chars_free_of url_safe); [reflexivity|apply quote_url_safe].
  - apply quote_inj.
Qed.

(** ** [order_id[-6:]] *)

Lemma string_of_list_app (a b : list ascii) :
  string_of_list_ascii (a ++ b)%list = string_of_list_ascii a ++ string_of_list_ascii b.
Proof. induction a as [|c a IH]; [reflexivity|]. cbn. now rewrite IH. Qed.

Lemma take_chars_rev_prefix (n : nat) (l : list ascii) :
  exists rest, l = (take_chars_rev n l ++ rest)%list.
Proof.
  revert n. induction l as [|c r IH]; intros n.
  - exists []. now destruct n.
  - destruct n as [|k]; [now exists (c :: r)|].
    cbn [take_chars_rev]. destruct (is_continuation c).
    + destruct (IH (S k)) as [rest E]. exists rest. cbn. now rewrite <- E.
    + destruct (IH k) as [rest E]. exists rest. cbn. now rewrite <- E.
Qed.

Lemma take_chars_rev_all (n : nat) (l : list ascii) :
  (length l <= n)%nat -> take_chars_rev n l = l.
Proof.
  revert n. induction l as [|c r IH]; intros n H.
  - now destruct n.
  - cbn [length] in H. destruct n as [|k]; [lia|].
    cbn [take_chars_rev]. destruct (is_continuation c).
    + rewrite IH by lia. reflexivity.
    + rewrite IH by lia. reflexivity.
Qed.

Lemma is_ascii_not_continuation (c : ascii) : is_ascii c = true -> is_continuation c = false.
Proof.
  unfold is_ascii, is_continuation. intros H. apply Nat.ltb_lt in H.
  apply andb_false_iff. left. apply Nat.leb_gt. exact H.
Qed.

Lemma take_chars_rev_ascii (n : nat) (l : list ascii) :
  forallb is_ascii l = true -> take_chars_rev n l = firstn n l.
Proof.
  revert n. induction l as [|c r IH]; intros n H.
  - now destruct n.
  - cbn [forallb] in H. apply andb_true_iff in H as [Hc Hr].
    destruct n as [|k]; [reflexivity|].
    cbn [take_chars_rev firstn]. rewrite (is_ascii_not_continuation c Hc).
    now rewrite IH.
Qed.

Lemma all_chars_forallb (p : ascii -> bool) (s : string) :
  all_chars p s = forallb p (list_ascii_of_string s).
Proof. induction s as [|c r IH]; [reflexivity|]. cbn. now rewrite IH. Qed.

Lemma length_list_ascii (s : string) : length (list_ascii_of_string s) = String.length s.
Proof. induction s as [|c r IH]; [reflexivity|]. cbn. now rewrite IH. Qed.

Lemma length_string_of_list (l : list ascii) : String.length (string_of_list_ascii l) = length l.
Proof. induction l as [|c r IH]; [reflexivity|]. cbn. now rewrite IH. Qed.

Lemma forallb_rev {A : Type} (p : A -> bool) (l : list A) :
  forallb p (List.rev l) = forallb p l.
Proof.
  induction l as [|a l IH]; [reflexivity|].
  cbn. rewrite forallb_app, IH. cbn. rewrite andb_true_r. apply andb_comm.
Qed.

(** X4.  For a positive [n], [s[-n:]] is a suffix of [s]; it is [s] itself
    when [s] has at most [n] bytes, and for an ASCII string it has
    [min n (len s)] characters.  The messages show [order_id[-6:]]. *)
Theorem last_chars_is_a_suffix :
  forall n s,
    (0 < n)%nat ->
    (exists before, s = before ++ last_chars n s)
    /\ ((String.length s <= n)%nat -> last_chars n s = s)
    /\ (all_chars is_ascii s = true ->
        String.length (last_chars n s) = Nat.min n (String.length s)).
Proof.
  intros n s _. unfold last_chars. repeat apply conj.
  - destruct (take_chars_rev_prefix n (List.rev (list_ascii_of_string s))) as [rest E].
    exists (string_of_list_ascii (List.rev rest)).
    rewrite <- string_of_list_app, <- rev_app_distr, <- E, rev_involutive.
    symmetry. apply string_of_list_ascii_of_string.
  - intros H. rewrite take_chars_rev_all.
    + rewrite rev_involutive. apply string_of_list_ascii_of_string.
    + now rewrite length_rev, length_list_ascii.
  - intros H. rewrite take_chars_rev_ascii.
    + rewrite length_string_of_list, length_rev, length_firstn, length_rev,
        length_list_ascii. reflexivity.
    + rewrite forallb_rev, <- all_chars_forallb. exact H.
Qed.

Lemma last_chars_is_a_suffix_witness :
  last_chars 6 "abc" = "abc"
  /\ String.length (last_chars 6 "65f1c0ffee12345678abcdef") = 6%nat.
Proof.
  split.
  - apply (proj1 (proj2 (last_chars_is_a_suffix 6 "abc" ltac:(lia)))). cbn. lia.
  - apply (proj2 (proj2 (last_chars_is_a_suffix 6 "65f1c0ffee12345678abcdef" ltac:(lia)))).
    reflexivity.
Defined.

(** ** [e.response.text[:200]] *)

(** X5.  [s[:n]] is a prefix of [s]; it is [s] itself when [s] has at most
    [n] bytes, and for an ASCII string it has [min n (len s)] characters.
    The HTTP error record shows [e.response.text[:200]]. *)
Theorem first_chars_is_a_prefix :
  forall n s,
    (exists rest, s = first_chars n s ++ rest)
    /\ ((String.length s <= n)%nat -> first_chars n s = s)
    /\ (all_chars is_ascii s = true ->
        String.length (first_chars n s) = Nat.min n (String.length s)).
Proof.
  intros n s. revert n. induction s as [|c r IH]; intros n.
  - repeat apply conj.
    + now exists "".
    + reflexivity.
    + intros _. cbn. now rewrite Nat.min_0_r.
  - cbn [first_chars]. repeat apply conj.
    + destruct (is_continuation c).
      * destruct (proj1 (IH n)) as [rest E]. exists rest. cbn. now rewrite <- E.
      * destruct n as [|k]; [now exists (String c r)|].
        destruct (proj1 (IH k)) as [rest E]. exists rest. cbn. now rewrite <- E.
    + cbn [String.length]. intros H. destruct (is_continuation c).
      * now rewrite (proj1 (proj2 (IH n))) by lia.
      * destruct n as [|k]; [lia|]. now rewrite (proj1 (proj2 (IH k))) by lia.
    + cbn [all_chars String.length]. intros H.
      apply andb_true_iff in H as [Hc Hr].
      rewrite (is_ascii_not_continuation c Hc).
      destruct n as [|k]; [reflexivity|].
      cbn [String.length Nat.min]. now rewrite (proj2 (proj2 (IH k)) Hr).
Qed.

Lemma first_chars_is_a_prefix_witness :
  first_chars 200 "Bad Gateway" = "Bad Gateway"
  /\ String.length (first_chars 3 "Bad Gateway") = 3%nat.
Proof.
  split.
  - apply (proj1 (proj2 (first_chars_is_a_prefix 200 "Bad Gateway"))). cbn. lia.
  - apply (proj2 (proj2 (first_chars_is_a_prefix 3 "Bad Gateway"))). reflexivity.
Defined.

(** ** Phrases *)

Lemma prefix_iff (p s : string) : prefix p s = true <-> exists b, s = p ++ b.
Proof.
  revert s. induction p as [|c p IH]; intros s.
  - rewrite prefix_nil_l. split; [intros _; now exists s|reflexivity].
  - destruct s as [|d s].
    + cbn. split; [discriminate|intros [b E]; discriminate E].
    + rewrite prefix_cons. split.
      * intros H. apply andb_true_iff in H as [Hc Hp].
        apply Ascii.eqb_eq in Hc. subst d. apply IH in Hp as [b ->]. now exists b.
      * intros [b E]. cbn in E. injection E as -> ->.
        rewrite Ascii.eqb_refl. apply IH. now exists b.
Qed.

Lemma contains_iff (p s : string) :
  contains p s = true <-> exists a b, s = a ++ p ++ b.
Proof.
  induction s as [|d s IH].
  - cbn [contains]. destruct (prefix p "") eqn:P.
    + split; [intros _|reflexivity]. apply prefix_iff in P as [b E]. now exists "", b.
    + split; [discriminate|]. intros [a [b E]].
      destruct a as [|x a]; [|discriminate E].
      cbn in E. assert (prefix p "" = true) by (apply prefix_iff; now exists b). congruence.
  - cbn [contains]. destruct (prefix p (String d s)) eqn:P.
    + split; [intros _|reflexivity]. apply prefix_iff in P as [b E]. now exists "", b.
    + rewrite IH. split.
      * intros [a [b ->]]. now exists (String d a), b.
      * intros [a [b E]]. destruct a as [|x a].
        -- cbn in E. assert (prefix p (String d s) = true) by (apply prefix_iff; now exists b).
           congruence.
        -- cbn in E. injection E as _ ->. now exists a, b.
Qed.

Lemma contains_longer (a p s : string) :
  contains (a ++ p) s = true -> contains p s = true.
Proof.
  rewrite !contains_iff. intros [x [y ->]]. exists (x ++ a), y.
  now rewrite !append_assoc.
Qed.

(** X6.  Of the four phrases that classify a recipient as having blocked
    the bot, two decide: a description is classified as blocked exactly
    when it contains [blocked] or [user is deactivated]. *)
Theorem blocked_phrases_reduce_to_two :
  forall description,
    is_blocked description =
      contains "blocked" description || contains "user is deactivated" description.
Proof.
  intros d. unfold is_blocked, blocked_phrases. cbn [existsb].
  set (s := d).
  pose proof (contains_longer "bot " "blocked" s) as A.
  pose proof (contains_longer "bot was " "blocked" s) as B.
  change ("bot " ++ "blocked") with "bot blocked" in A.
  change ("bot was " ++ "blocked") with "bot was blocked" in B.
  destruct (contains "blocked" s), (contains "bot blocked" s),
    (contains "bot was blocked" s), (contains "user is deactivated" s);
    try reflexivity; try (now discriminate A); try (now discriminate B).
Qed.
End StringProperties.

(** ** Notifications *)

Module RunProperties.
Import PyStr Py World Amount Notifications Spec Delivery Observations RunFacts.

Lemma success_count_le (results : list (exn + option bool)) :
  (success_count results <= length results)%nat.
Proof. unfold success_count. apply filter_length_le. Qed.

Lemma failed_count_cons (r : exn + option bool) (rs : list (exn + option bool)) :
  failed_count (r :: rs) = ((if is_True r then 0 else 1) + failed_count rs)%nat.
Proof.
  pose proof (success_count_le rs) as L.
  unfold failed_count, success_count in *. cbn [filter length].
  destruct (is_True r); cbn [length]; lia.
Qed.

Lemma gather_cons {A : Type} (t : M A) (ts : list (M A)) (w w1 w2 : world)
    (a : A) (rs : list (exn + A)) :
  t w = (Ret a, w1) -> gather ts w1 = (Ret rs, w2) ->
  gather (t :: ts) w = (Ret (inr a :: rs), w2).
Proof.
  intros E1 E2. cbn [gather]. unfold bind at 1, try_except, bind at 1.
  rewrite E1. unfold ret at 1. unfold bind at 1. rewrite E2. reflexivity.
Qed.

(** *** The text-only sender *)

Lemma simple_exact env token admin msg keyboard w :
  let r := simple_request token admin msg keyboard in
  let answer := provider env (length (sent w)) r in
  let result :=
    match answer with
    | inr resp =>
        match response_json resp with
        | inr body => get_default (ok body) false
        | inl _ => Some false
        end
    | inl _ => Some false
    end in
  let lines :=
    match answer with
    | inr resp =>
        match response_json resp with
        | inr _ => []
        | inl e => [simple_failure_record admin e]
        end
    | inl e => [simple_failure_record admin e]
    end in
  _send_simple_notification env token admin msg keyboard w
  = (Ret result,
     mk_world (sent w ++ [r]) (log w ++ lines) (db_calls w) (customers w)).
Proof.
  intros r answer result lines. subst answer result lines r.
  unfold _send_simple_notification, bind, try_except, simple_request,
    simple_failure_record.
  unfold post, json, logger, ret, raise.
  destruct keyboard as [[|k ks]|].
  all: run_all; rewrite ?app_nil_r; reflexivity.
Qed.

Lemma simple_batch env token msg admins w :
  exists results lines,
    gather (map (fun admin_id =>
                   _send_simple_notification env token admin_id msg None)
              admins) w
    = (Ret results,
       mk_world (sent w ++ map (fun a => text_request token a msg) admins)
         (log w ++ lines) (db_calls w) (customers w))
    /\ length results = length admins
    /\ (acknowledges_all env -> lines = [] /\ failed_count results = 0%nat)
    /\ (unreachable_provider env ->
        length lines = length admins /\ failed_count results = length admins).
Proof.
  revert w. induction admins as [|a admins IH]; intros w.
  - exists [], []. cbn [map gather]. rewrite !app_nil_r.
    repeat apply conj; try reflexivity; try (now destruct w); intros _; now split.
  - pose proof (simple_exact env token a msg None w) as E. cbv zeta in E.
    change (simple_request token a msg None) with (text_request token a msg) in E.
    match type of E with _ = (Ret ?r, mk_world _ (_ ++ ?l) _ _) =>
      set (result := r) in *; set (line := l) in * end.
    destruct (IH (mk_world (sent w ++ [text_request token a msg]) (log w ++ line)
                    (db_calls w) (customers w)))
      as (rs & lines & G & Hlen & Hack & Hout).
    cbn [sent log db_calls customers] in G.
    exists (inr result :: rs), (line ++ lines)%list. repeat apply conj.
    + cbn [map]. rewrite (gather_cons _ _ _ _ _ _ _ E G).
      now rewrite <- !app_assoc.
    + cbn [length]. now rewrite Hlen.
    + intros A. destruct (Hack A) as [-> F]. rewrite failed_count_cons, F.
      specialize (A (length (sent w)) (text_request token a msg)).
      subst result line. unfold acknowledged in A.
      destruct (provider env _ _) as [e|resp]; [discriminate A|].
      apply andb_true_iff in A as [_ A].
      destruct (response_json resp) as [e|body]; [discriminate A|].
      destruct (ok body) as [| |[|]]; try discriminate A. now split.
    + intros U. destruct (Hout U) as [L F]. rewrite failed_count_cons, F.
      destruct (U (length (sent w)) (text_request token a msg)) as [e He].
      subst result line. rewrite He. cbn [is_True length app].
      rewrite L. now split.
Qed.

Lemma new_order_exact cfg env order_id customer_name customer_phone
    delivery_address total_amount items user_id receipt_file_id w :
  configured cfg = true ->
  exists results lines,
    notify_admins_new_order cfg env order_id customer_name customer_phone
      delivery_address total_amount items user_id receipt_file_id w
    = (Ret tt,
       mk_world
         (sent w ++ map (fun a => text_request (str_opt (telegram_bot_token cfg)) a
                                     (new_order_message order_id))
                      (admin_ids cfg))
         (log w ++ lines ++ aggregate_records (new_order_aggregate order_id)
                               (failed_count results))
         (db_calls w) (customers w))
    /\ length results = length (admin_ids cfg)
    /\ (acknowledges_all env -> lines = [] /\ failed_count results = 0%nat)
    /\ (unreachable_provider env ->
        length lines = length (admin_ids cfg)
        /\ failed_count results = length (admin_ids cfg)).
Proof.
  intros C. unfold configured in C. apply andb_true_iff in C as [Htoken Hadmins].
  destruct (simple_batch env (str_opt (telegram_bot_token cfg))
              (new_order_message order_id) (admin_ids cfg) w)
    as (results & lines & G & Hlen & Hack & Hout).
  exists results, lines. split; [|repeat apply conj; assumption].
  unfold notify_admins_new_order. rewrite Htoken. cbn [negb].
  destruct (admin_ids cfg) as [|a admins] eqn:Ha; [discriminate Hadmins|].
  fold (new_order_message order_id). unfold bind at 1. rewrite G.
  fold (failed_count results). unfold logger, ret, aggregate_records.
  destruct (0 <? failed_count results)%nat; cbn [sent log db_calls customers].
  - now rewrite <- app_assoc.
  - now rewrite !app_nil_r.
Qed.

Lemma unconfigured_new_order cfg env order_id customer_name customer_phone
    delivery_address total_amount items user_id receipt_file_id w :
  configured cfg = false ->
  notify_admins_new_order cfg env order_id customer_name customer_phone
    delivery_address total_amount items user_id receipt_file_id w = (Ret tt, w).
Proof.
  unfold configured, notify_admins_new_order. intros C.
  destruct (truthy_str (telegram_bot_token cfg)); [|reflexivity].
  destruct (admin_ids cfg); [reflexivity|discriminate C].
Qed.

Lemma unconfigured_accepted cfg env order_id customer_name customer_phone
    delivery_address total_amount items user_id receipt_file_id slot w :
  configured cfg = false ->
  notify_admin_order_accepted cfg env order_id customer_name customer_phone
    delivery_address total_amount items user_id receipt_file_id slot w = (Ret tt, w).
Proof.
  unfold configured, notify_admin_order_accepted. intros C.
  destruct (truthy_str (telegram_bot_token cfg)); [|reflexivity].
  destruct (admin_ids cfg); [reflexivity|discriminate C].
Qed.

(** X8.  The new-order notification returns normally.  When the token is
    set and there are administrators it makes exactly one [sendMessage]
    call for each administrator, in the order of the list, each with the
    same text, which shows the last six characters of the order identifier
    and nothing else of the order; otherwise it makes no call.  It touches
    neither the database nor the registry. *)
Theorem new_order_sends_one_message_per_admin :
  forall cfg env order_id customer_name customer_phone delivery_address
         total_amount items user_id receipt_file_id w,
  exists lines,
    notify_admins_new_order cfg env order_id customer_name customer_phone
      delivery_address total_amount items user_id receipt_file_id w
    = (Ret tt,
       mk_world
         (sent w ++ if configured cfg
                    then map (fun a =>
                                text_request (str_opt (telegram_bot_token cfg)) a
                                  (new_order_message order_id))
                           (admin_ids cfg)
                    else [])
         (log w ++ lines) (db_calls w) (customers w)).
Proof.
  intros. destruct (configured cfg) eqn:C.
  - destruct (new_order_exact cfg env order_id customer_name customer_phone
                delivery_address total_amount items user_id receipt_file_id w C)
      as (results & lines & E & _).
    eexists. exact E.
  - exists []. rewrite !app_nil_r.
    rewrite unconfigured_new_order by assumption. now destruct w.
Qed.

(** *** The sender with a receipt *)

Lemma acknowledges_answers env : acknowledges_all env -> answers_all env.
Proof.
  intros A n r. specialize (A n r). unfold acknowledged in A.
  destruct (provider env n r) as [e|resp]; [discriminate A|].
  apply andb_true_iff in A as [S A].
  destruct (response_json resp) as [e|body] eqn:J; [discriminate A|].
  exists resp, body. repeat apply conj; [reflexivity|exact S|exact J].
Qed.

Lemma receipt_outage env token admin msg data fname ctype w :
  unreachable_provider env ->
  exists lines,
    _send_notification_with_receipt env token admin msg data fname ctype w
    = (Ret false,
       mk_world
         (sent w ++ if truthy_str data && truthy_str fname
                    then [file_request token admin msg (str_opt data)
                            (str_opt fname) ctype;
                          text_request token admin msg]
                    else [text_request token admin msg])
         (log w ++ lines) (db_calls w) (customers w))
    /\ (1 <= length lines)%nat.
Proof.
  intros U.
  set (fr := file_request token admin msg (str_opt data) (str_opt fname) ctype).
  set (tr := text_request token admin msg).
  assert (List.length (sent w ++ [fr]) = List.length (sent w) + 1)%nat as L
    by (rewrite length_app; reflexivity).
  unfold _send_notification_with_receipt, bind, try_except.
  fold fr tr.
  unfold post, raise_for_status, json, logger, ret, raise.
  destruct (truthy_str data && truthy_str fname).
  - destruct (U (length (sent w)) fr) as [e1 E1].
    destruct (U (length (sent w) + 1)%nat tr) as [e2 E2].
    cbn -[append str_int Nat.add]. rewrite E1.
    destruct (exn_class_of e1); cbn -[append str_int Nat.add]; rewrite L, E2;
      cbn -[append str_int Nat.add]; rewrite <- !app_assoc;
      (eexists; split; [reflexivity|cbn; lia]).
  - destruct (U (length (sent w)) tr) as [e2 E2].
    cbn -[append str_int Nat.add]. rewrite E2.
    cbn -[append str_int Nat.add]. eexists; split; [reflexivity|cbn; lia].
Qed.

Lemma receipt_batch env token msg data fname ctype admins w :
  let has_file := truthy_str data && truthy_str fname in
  let tr := fun a => text_request token a msg in
  let fr := fun a => file_request token a msg (str_opt data) (str_opt fname) ctype in
  exists results blocks lines,
    gather (map (fun admin_id =>
                   bind (_send_notification_with_receipt env token admin_id msg
                           data fname ctype)
                        (fun sent_ok => ret (Some sent_ok)))
              admins) w
    = (Ret results,
       mk_world (sent w ++ concat blocks) (log w ++ lines) (db_calls w)
         (customers w))
    /\ length results = length admins
    /\ Forall2 (fun a calls =>
                  if has_file then calls = [fr a] \/ calls = [fr a; tr a]
                  else calls = [tr a]) admins blocks
    /\ (acknowledges_all env ->
        lines = [] /\ failed_count results = 0%nat
        /\ blocks = map (fun a => if has_file then [fr a] else [tr a]) admins)
    /\ (unreachable_provider env ->
        (length admins <= length lines)%nat
        /\ failed_count results = length admins).
Proof.
  intros has_file tr fr.
  set (task := fun admin_id : Z =>
                 bind (_send_notification_with_receipt env token admin_id msg
                         data fname ctype)
                      (fun sent_ok => ret (Some sent_ok))).
  revert w. induction admins as [|a admins IH]; intros w.
  - exists [], [], []. cbn [map gather concat]. rewrite !app_nil_r.
    repeat apply conj; try reflexivity; try (now destruct w); try constructor;
      intros _; repeat apply conj; reflexivity.
  - destruct (receipt_run env token a msg data fname ctype w) as (line & E & _ & Hnone).
    cbv zeta in E. fold has_file in E. fold (fr a) in E. fold (tr a) in E.
    match type of E with _ = (Ret ?r, mk_world (_ ++ ?c) _ _ _) =>
      set (result := r) in *; set (calls := c) in * end.
    assert (task a w = (Ret (Some result),
                        mk_world (sent w ++ calls) (log w ++ line) (db_calls w)
                          (customers w))) as T
      by (unfold task, bind; now rewrite E).
    destruct (IH (mk_world (sent w ++ calls) (log w ++ line) (db_calls w)
                    (customers w)))
      as (rs & blocks & lines & G & Hlen & Hblocks & Hack & Hout).
    cbn [sent log db_calls customers] in G.
    exists (inr (Some result) :: rs), (calls :: blocks), (line ++ lines)%list.
    repeat apply conj.
    + cbn [map]. rewrite (gather_cons _ _ _ _ _ _ _ T G).
      cbn [concat]. now rewrite <- !app_assoc.
    + cbn [length]. now rewrite Hlen.
    + constructor; [|assumption]. subst calls.
      destruct has_file; [|reflexivity].
      cbn [andb]. destruct (acknowledged _); auto.
    + intros A. destruct (Hack A) as (-> & F & ->).
      rewrite (Hnone (acknowledges_answers env A)), failed_count_cons, F.
      subst result calls. cbn [map].
      destruct has_file; cbn [andb]; rewrite !A; now repeat split.
    + intros U. destruct (Hout U) as [L F].
      destruct (receipt_outage env token a msg data fname ctype w U) as (line' & E' & L').
      rewrite E in E'. injection E' as R C Ln.
      apply app_inv_head in Ln. subst line'.
      rewrite failed_count_cons, F, R. cbn [is_True length].
      rewrite length_app. split; lia.
Qed.

(** *** Enrichment *)

Lemma item_details_exact env it w :
  exists d,
    item_details env it w
    = (Ret d,
       mk_world (sent w) (log w)
         (db_calls w ++ if needs_lookup it
                        then [FindProduct (str_opt (get (item_product_id it)))]
                        else [])
         (customers w))
    /\ keeps_given it d.
Proof.
  unfold item_details, needs_lookup, keeps_given, bind, try_except,
    products_find_one, ret, raise.
  destruct (truthy_str (get (item_variant_name it))) eqn:V; cbn [negb andb].
  - eexists. split; [rewrite app_nil_r; destruct w; reflexivity|].
    cbn [detail_quantity detail_variant_name detail_product_name fst snd].
    repeat apply conj; try reflexivity.
    intros _. destruct (get (item_variant_name it)) as [[|c n]|];
      try discriminate V. reflexivity.
  - destruct (truthy_str (get (item_variant_id it)) && truthy_str (get (item_product_id it))).
    + cbn [sent log db_calls customers].
      destruct (find_one env _) as [e|[p|]]; cbn [sent log db_calls customers].
      * eexists. split; [reflexivity|]. repeat apply conj; try reflexivity.
        intros H; discriminate H.
      * destruct (get_default (product_variants p) []) as [l|].
        -- eexists. split; [reflexivity|].
           cbn [detail_quantity detail_variant_name detail_product_name fst snd].
           repeat apply conj; try reflexivity.
           ++ intros H; discriminate H.
           ++ intros H. now rewrite H.
        -- eexists. split; [reflexivity|]. repeat apply conj; try reflexivity.
           intros H; discriminate H.
      * eexists. split; [reflexivity|]. repeat apply conj; try reflexivity.
        intros H; discriminate H.
    + eexists. split; [rewrite app_nil_r; destruct w; reflexivity|].
      repeat apply conj; try reflexivity. intros H; discriminate H.
Qed.

Lemma items_details_exact env items w :
  exists ds,
    items_details env items w
    = (Ret ds,
       mk_world (sent w) (log w) (db_calls w ++ catalogue_reads items)
         (customers w))
    /\ Forall2 keeps_given items ds.
Proof.
  revert w. induction items as [|it rest IH]; intros w.
  - exists []. split; [|constructor].
    cbn. rewrite app_nil_r. now destruct w.
  - destruct (item_details_exact env it w) as (d & E1 & K).
    destruct (IH (mk_world (sent w) (log w)
                    (db_calls w ++ if needs_lookup it
                                   then [FindProduct (str_opt (get (item_product_id it)))]
                                   else [])
                    (customers w)))
      as (ds & E2 & Ks).
    exists (d :: ds). split; [|now constructor].
    cbn [items_details]. unfold bind at 1. rewrite E1.
    unfold bind at 1. rewrite E2. cbn [sent log db_calls customers].
    unfold ret, catalogue_reads. cbn [filter].
    destruct (needs_lookup it); cbn [map]; now rewrite <- app_assoc.
Qed.

Lemma fetch_receipt_exact env receipt_file_id w :
  exists name type,
    fetch_receipt env receipt_file_id w
    = (Ret (stored_receipt env receipt_file_id, name, type),
       mk_world (sent w) (log w) (db_calls w ++ receipt_reads receipt_file_id)
         (customers w))
    /\ (stored_receipt env receipt_file_id <> None -> truthy_str name = true).
Proof.
  unfold fetch_receipt, receipt_reads, stored_receipt, fs_get, ObjectId, bind,
    try_except, read, ret, raise.
  destruct (truthy_str receipt_file_id); cbn [andb].
  - destruct (valid_object_id (str_opt receipt_file_id)).
    + destruct (gridfs_get env (str_opt receipt_file_id)) as [e|f].
      * do 2 eexists. split; [reflexivity|]. congruence.
      * cbn [sent log db_calls customers]. destruct (grid_read f) as [e|data].
        -- do 2 eexists. split; [reflexivity|]. congruence.
        -- do 2 eexists. split; [reflexivity|]. intros _.
           unfold or_str. now destruct (grid_filename f) as [[|c s]|].
    + exists None, None. rewrite app_nil_r. split; [now destruct w|congruence].
  - exists None, None. rewrite app_nil_r. split; [now destruct w|congruence].
Qed.

Lemma accepted_exact cfg env order_id customer_name customer_phone
    delivery_address total_amount items user_id receipt_file_id
    delivery_time_slot w :
  configured cfg = true ->
  exists details name type results blocks lines,
    let token := str_opt (telegram_bot_token cfg) in
    let data := stored_receipt env receipt_file_id in
    let message := accepted_message order_id customer_name customer_phone
                     delivery_address total_amount items delivery_time_slot
                     details in
    let tr := fun a => text_request token a message in
    let fr := fun a => file_request token a message (str_opt data) (str_opt name) type in
    fst (items_details env items w) = Ret details
    /\ Forall2 keeps_given items details
    /\ notify_admin_order_accepted cfg env order_id customer_name customer_phone
         delivery_address total_amount items user_id receipt_file_id
         delivery_time_slot w
       = (Ret tt,
          mk_world (sent w ++ concat blocks)
            (log w ++ lines ++ aggregate_records (accepted_aggregate order_id)
                                  (failed_count results))
            (db_calls w ++ catalogue_reads items ++ receipt_reads receipt_file_id)
            (customers w))
    /\ length results = length (admin_ids cfg)
    /\ Forall2 (fun a calls =>
                  match data with
                  | Some _ => calls = [fr a] \/ calls = [fr a; tr a]
                  | None => calls = [tr a]
                  end) (admin_ids cfg) blocks
    /\ (acknowledges_all env ->
        lines = [] /\ failed_count results = 0%nat
        /\ blocks = map (fun a => match data with
                                  | Some _ => [fr a]
                                  | None => [tr a]
                                  end) (admin_ids cfg))
    /\ (unreachable_provider env ->
        (length (admin_ids cfg) <= length lines)%nat
        /\ failed_count results = length (admin_ids cfg)).
Proof.
  intros C. unfold configured in C. apply andb_true_iff in C as [Htoken Hadmins].
  destruct (items_details_exact env items w) as (details & E1 & K).
  destruct (fetch_receipt_exact env receipt_file_id
              (mk_world (sent w) (log w) (db_calls w ++ catalogue_reads items)
                 (customers w)))
    as (name & type & E2 & Hname).
  cbn [sent log db_calls customers] in E2.
  set (message := accepted_message order_id customer_name customer_phone
                    delivery_address total_amount items delivery_time_slot details).
  destruct (receipt_batch env (str_opt (telegram_bot_token cfg)) message
              (stored_receipt env receipt_file_id) name type (admin_ids cfg)
              (mk_world (sent w) (log w)
                 ((db_calls w ++ catalogue_reads items) ++ receipt_reads receipt_file_id)
                 (customers w)))
    as (results & blocks & lines & G & Hlen & Hblocks & Hack & Hout).
  cbv zeta in G, Hblocks, Hack. cbn [sent log db_calls customers] in G.
  assert (truthy_str (stored_receipt env receipt_file_id) && truthy_str name
          = match stored_receipt env receipt_file_id with
            | Some _ => true
            | None => false
            end) as Hfile.
  { destruct (stored_receipt env receipt_file_id) as [data|] eqn:S; [|reflexivity].
    rewrite Hname by discriminate. rewrite andb_true_r.
    unfold stored_receipt in S.
    destruct (_ && _); [|discriminate S].
    destruct (gridfs_get env _) as [e|f]; [discriminate S|].
    destruct (grid_read f) as [e|d]; [discriminate S|].
    destruct (truthy_str (Some d)) eqn:T; [|discriminate S].
    now injection S as <-. }
  rewrite Hfile in Hblocks, Hack.
  exists details, name, type, results, blocks, lines. cbv zeta. fold message.
  repeat apply conj.
  - now rewrite E1.
  - exact K.
  - unfold notify_admin_order_accepted. rewrite Htoken. cbn [negb].
    destruct (admin_ids cfg) as [|a admins] eqn:Ha; [discriminate Hadmins|].
    unfold bind at 1. rewrite E1. unfold bind at 1. rewrite E2.
    fold message. unfold bind at 1. rewrite G.
    fold (failed_count results). unfold logger, ret, aggregate_records.
    destruct (0 <? failed_count results)%nat; cbn [sent log db_calls customers].
    + now rewrite <- !app_assoc.
    + now rewrite !app_nil_r, <- !app_assoc.
  - exact Hlen.
  - destruct (stored_receipt env receipt_file_id); exact Hblocks.
  - intros A. destruct (Hack A) as (L & F & B). repeat apply conj; try assumption.
    rewrite B. now destruct (stored_receipt env receipt_file_id).
  - exact Hout.
Qed.

Lemma blocks_length {A : Type} (P : Z -> list A -> Prop) (admins : list Z)
    (blocks : list (list A)) :
  (forall a calls, P a calls -> (1 <= length calls <= 2)%nat) ->
  Forall2 P admins blocks ->
  (length admins <= length (concat blocks) <= 2 * length admins)%nat.
Proof.
  intros H. induction 1 as [|a calls admins blocks Ha _ IH]; [cbn; lia|].
  cbn [concat length]. rewrite length_app. specialize (H a calls Ha). lia.
Qed.

(** X9.  The calls of a configured accepted-order notification are, in
    some order, the calls made for each administrator.  With a stored
    receipt every administrator gets the attachment call, followed or not
    by the text call; without one every administrator gets the text call
    alone.  So there are between one and two calls for each
    administrator. *)
Theorem accepted_calls_by_recipient :
  forall cfg env order_id customer_name customer_phone delivery_address
         total_amount items user_id receipt_file_id delivery_time_slot w,
    configured cfg = true ->
    exists details name type blocks calls,
      let token := str_opt (telegram_bot_token cfg) in
      let data := stored_receipt env receipt_file_id in
      let message := accepted_message order_id customer_name customer_phone
                       delivery_address total_amount items delivery_time_slot
                       details in
      let tr := fun a => text_request token a message in
      let fr := fun a => file_request token a message (str_opt data)
                           (str_opt name) type in
      let run := notify_admin_order_accepted cfg env order_id customer_name
                   customer_phone delivery_address total_amount items user_id
                   receipt_file_id delivery_time_slot w in
      fst (items_details env items w) = Ret details
      /\ fst run = Ret tt
      /\ sent (snd run) = (sent w ++ calls)%list
      /\ Permutation calls (concat blocks)
      /\ Forall2 (fun a block =>
                    match data with
                    | Some _ => block = [fr a] \/ block = [fr a; tr a]
                    | None => block = [tr a]
                    end) (admin_ids cfg) blocks
      /\ (length (admin_ids cfg) <= length calls
          <= 2 * length (admin_ids cfg))%nat.
Proof.
  intros until w. intros C.
  destruct (accepted_exact cfg env order_id customer_name customer_phone
              delivery_address total_amount items user_id receipt_file_id
              delivery_time_slot w C)
    as (details & name & type & results & blocks & lines & E1 & _ & E & _ & B & _).
  cbv zeta in E, B |- *.
  exists details, name, type, blocks, (concat blocks). rewrite E. cbn [fst snd sent].
  repeat apply conj; try reflexivity; try assumption.
  - eapply blocks_length; [|exact B]. cbv beta.
    intros a calls H. destruct (stored_receipt env receipt_file_id).
    + destruct H as [-> | ->]; cbn; lia.
    + subst calls. cbn. lia.
  - eapply blocks_length; [|exact B]. cbv beta.
    intros a calls H. destruct (stored_receipt env receipt_file_id).
    + destruct H as [-> | ->]; cbn; lia.
    + subst calls. cbn. lia.
Qed.

Lemma accepted_calls_by_recipient_witness :
  configured Examples.two_admins = true
  /\ exists blocks calls,
       sent (snd (notify_admin_order_accepted Examples.two_admins
                    (Examples.files_refused Examples.receipt_file)
                    Examples.order_id "Aigerim" "+77010000000" "Abay 10" 1500
                    [Examples.two_at_500] 42 (Some "65f000000000000000000001")
                    "10:00-12:00" (empty_world [])))
       = calls
       /\ Permutation calls (concat blocks)
       /\ length blocks = 2%nat
       /\ (2 <= length calls <= 4)%nat.
Proof.
  split; [reflexivity|].
  destruct (accepted_calls_by_recipient Examples.two_admins
              (Examples.files_refused Examples.receipt_file) Examples.order_id
              "Aigerim" "+77010000000" "Abay 10" 1500 [Examples.two_at_500] 42
              (Some "65f000000000000000000001") "10:00-12:00" (empty_world [])
              eq_refl)
    as (details & name & type & blocks & calls & _ & _ & S & P & F & L).
  exists blocks, calls. repeat apply conj.
  - exact S.
  - exact P.
  - symmetry. exact (Forall2_length F).
  - apply L.
  - apply L.
Defined.

Lemma blocks_single (f : Z -> request) (admins : list Z) :
  length (concat (map (fun a => [f a]) admins)) = length admins.
Proof. induction admins as [|a admins IH]; [reflexivity|]. cbn. now rewrite IH. Qed.

(** X10.  When the provider acknowledges every call, neither admin
    notification writes a record, and the accepted-order notification makes
    exactly one call for each administrator. *)
Theorem acknowledged_batches_are_silent :
  forall cfg env order_id customer_name customer_phone delivery_address
         total_amount items user_id receipt_file_id delivery_time_slot w,
    configured cfg = true -> acknowledges_all env ->
    let new_order := notify_admins_new_order cfg env order_id customer_name
                       customer_phone delivery_address total_amount items user_id
                       receipt_file_id w in
    let accepted := notify_admin_order_accepted cfg env order_id customer_name
                      customer_phone delivery_address total_amount items user_id
                      receipt_file_id delivery_time_slot w in
    log (snd new_order) = log w
    /\ log (snd accepted) = log w
    /\ length (sent (snd accepted)) = (length (sent w) + length (admin_ids cfg))%nat.
Proof.
  intros until w. intros C A new_order accepted. subst new_order accepted.
  destruct (new_order_exact cfg env order_id customer_name customer_phone
              delivery_address total_amount items user_id receipt_file_id w C)
    as (rs1 & l1 & E1 & _ & Hack1 & _).
  destruct (accepted_exact cfg env order_id customer_name customer_phone
              delivery_address total_amount items user_id receipt_file_id
              delivery_time_slot w C)
    as (details & name & type & rs2 & blocks & l2 & _ & _ & E2 & _ & _ & Hack2 & _).
  cbv zeta in E2, Hack2.
  destruct (Hack1 A) as [-> F1]. destruct (Hack2 A) as (-> & F2 & B).
  rewrite E1, E2, F1, F2. cbn [snd sent log aggregate_records Nat.ltb Nat.leb app].
  rewrite !app_nil_r. repeat apply conj; try reflexivity.
  rewrite length_app, B. f_equal.
  destruct (stored_receipt env receipt_file_id); apply blocks_single.
Qed.

Lemma acknowledged_batches_are_silent_witness :
  log (snd (notify_admins_new_order Examples.two_admins
              (Examples.answering 200 Examples.accepted_body) Examples.order_id
              "Aigerim" "+77010000000" "Abay 10" 1500 [Examples.two_at_500] 42
              None (empty_world []))) = []
  /\ log (snd (notify_admin_order_accepted Examples.two_admins
                 (Examples.answering 200 Examples.accepted_body) Examples.order_id
                 "Aigerim" "+77010000000" "Abay 10" 1500 [Examples.two_at_500] 42
                 None "10:00-12:00" (empty_world []))) = []
  /\ length (sent (snd (notify_admin_order_accepted Examples.two_admins
                          (Examples.answering 200 Examples.accepted_body)
                          Examples.order_id "Aigerim" "+77010000000" "Abay 10"
                          1500 [Examples.two_at_500] 42 None "10:00-12:00"
                          (empty_world [])))) = 2%nat.
Proof.
  apply (acknowledged_batches_are_silent Examples.two_admins
           (Examples.answering 200 Examples.accepted_body) Examples.order_id
           "Aigerim" "+77010000000" "Abay 10" 1500 [Examples.two_at_500] 42 None
           "10:00-12:00" (empty_world [])).
  - reflexivity.
  - intros n r. reflexivity.
Defined.

(** X11.  When every call to the provider raises, both admin
    notifications still return normally.  The log then ends with the
    aggregate diagnostic, which counts every administrator, and before it
    holds the records written for the single recipients: one for each
    administrator for a new order, and at least one for each for an
    accepted order. *)
Theorem outage_is_reported_once :
  forall cfg env order_id customer_name customer_phone delivery_address
         total_amount items user_id receipt_file_id delivery_time_slot w,
    configured cfg = true -> unreachable_provider env ->
    let failures := length (admin_ids cfg) in
    let new_order := notify_admins_new_order cfg env order_id customer_name
                       customer_phone delivery_address total_amount items user_id
                       receipt_file_id w in
    let accepted := notify_admin_order_accepted cfg env order_id customer_name
                      customer_phone delivery_address total_amount items user_id
                      receipt_file_id delivery_time_slot w in
    fst new_order = Ret tt
    /\ fst accepted = Ret tt
    /\ (exists lines,
          log (snd new_order)
          = (log w ++ lines ++ [new_order_aggregate order_id failures])%list
          /\ length lines = failures)
    /\ (exists lines,
          log (snd accepted)
          = (log w ++ lines ++ [accepted_aggregate order_id failures])%list
          /\ (failures <= length lines)%nat).
Proof.
  intros until w. intros C U failures new_order accepted.
  subst new_order accepted failures.
  destruct (new_order_exact cfg env order_id customer_name customer_phone
              delivery_address total_amount items user_id receipt_file_id w C)
    as (rs1 & l1 & E1 & _ & _ & Hout1).
  destruct (accepted_exact cfg env order_id customer_name customer_phone
              delivery_address total_amount items user_id receipt_file_id
              delivery_time_slot w C)
    as (details & name & type & rs2 & blocks & l2 & _ & _ & E2 & _ & _ & _ & Hout2).
  cbv zeta in E2, Hout2.
  destruct (Hout1 U) as [L1 F1]. destruct (Hout2 U) as [L2 F2].
  rewrite E1, E2, F1, F2. cbn [fst snd log].
  assert (aggregate_records (new_order_aggregate order_id) (length (admin_ids cfg))
          = [new_order_aggregate order_id (length (admin_ids cfg))]
          /\ aggregate_records (accepted_aggregate order_id) (length (admin_ids cfg))
             = [accepted_aggregate order_id (length (admin_ids cfg))]) as [-> ->].
  { unfold configured in C. apply andb_true_iff in C as [_ C].
    destruct (admin_ids cfg); [discriminate C|]. now split. }
  repeat apply conj; try reflexivity.
  - now exists l1.
  - now exists l2.
Qed.

Lemma outage_is_reported_once_witness :
  configured Examples.two_admins = true
  /\ unreachable_provider Examples.unreachable
  /\ exists lines,
       log (snd (notify_admins_new_order Examples.two_admins Examples.unreachable
                   Examples.order_id "Aigerim" "+77010000000" "Abay 10" 1500
                   [Examples.two_at_500] 42 None (empty_world [])))
       = (log (empty_world []) ++ lines
            ++ [new_order_aggregate Examples.order_id 2])%list
       /\ length lines = 2%nat.
Proof.
  split; [reflexivity|].
  split; [intros n r; exists Examples.refused; reflexivity|].
  exact (proj1 (proj2 (proj2
           (outage_is_reported_once Examples.two_admins Examples.unreachable
              Examples.order_id "Aigerim" "+77010000000" "Abay 10" 1500
              [Examples.two_at_500] 42 None "10:00-12:00" (empty_world []) eq_refl
              (fun _ _ => ex_intro _ Examples.refused eq_refl))))).
Defined.

(** X12.  The admin notifications never change the customer registry.
    The new-order notification makes no database call.  The accepted-order
    notification looks a product up in the catalogue once for each line
    item that has no variant name and names both a variant and a product,
    in the order of the items, and then asks the blob store once when the
    receipt reference is an object identifier (24 hexadecimal digits); a
    reference that is none raises before the blob store is asked.  It makes
    no other database call, and none when it is not configured. *)
Theorem admin_notifications_only_read :
  forall cfg env order_id customer_name customer_phone delivery_address
         total_amount items user_id receipt_file_id delivery_time_slot w,
    let new_order := notify_admins_new_order cfg env order_id customer_name
                       customer_phone delivery_address total_amount items user_id
                       receipt_file_id w in
    let accepted := notify_admin_order_accepted cfg env order_id customer_name
                      customer_phone delivery_address total_amount items user_id
                      receipt_file_id delivery_time_slot w in
    db_calls (snd new_order) = db_calls w
    /\ customers (snd new_order) = customers w
    /\ db_calls (snd accepted)
       = (db_calls w ++ if configured cfg
                        then catalogue_reads items ++ receipt_reads receipt_file_id
                        else [])%list
    /\ customers (snd accepted) = customers w.
Proof.
  intros until w. intros new_order accepted. subst new_order accepted.
  destruct (configured cfg) eqn:C.
  - destruct (new_order_exact cfg env order_id customer_name customer_phone
                delivery_address total_amount items user_id receipt_file_id w C)
      as (rs1 & l1 & E1 & _).
    destruct (accepted_exact cfg env order_id customer_name customer_phone
                delivery_address total_amount items user_id receipt_file_id
                delivery_time_slot w C)
      as (details & name & type & rs2 & blocks & l2 & _ & _ & E2 & _).
    cbv zeta in E2. rewrite E1, E2. now repeat split.
  - rewrite unconfigured_new_order, unconfigured_accepted by assumption.
    cbn [snd]. rewrite app_nil_r. now repeat split.
Qed.

(** X13.  The enrichment of the line items never raises and yields one
    entry for each line item, in order.  An entry has the quantity of its
    line item (1 when there is none), the variant name of the line item
    when that is not empty, and the product name of the line item (the
    default when there is none) when that is not empty. *)
Theorem items_details_keep_given_fields :
  forall env items w,
  exists details,
    fst (items_details env items w) = Ret details
    /\ length details = length items
    /\ Forall2 keeps_given items details.
Proof.
  intros env items w.
  destruct (items_details_exact env items w) as (ds & E & K).
  exists ds. rewrite E. repeat apply conj; [reflexivity| |exact K].
  symmetry. eapply Forall2_length. exact K.
Qed.

(** X14.  The lines of the product list of two lists of entries, one after
    the other, are the lines of the first list followed by the lines of the
    second, numbered from where the first list ends. *)
Theorem items_lines_app :
  forall first rest idx,
    items_lines idx (first ++ rest)
    = items_lines idx first ++ items_lines (idx + Z.of_nat (length first)) rest.
Proof.
  induction first as [|d first IH]; intros rest idx.
  - cbn [app items_lines length Z.of_nat append]. now rewrite Z.add_0_r.
  - cbn [app items_lines length]. rewrite IH, !StrFacts.append_assoc.
    replace (idx + 1 + Z.of_nat (length first))%Z
      with (idx + Z.of_nat (S (length first)))%Z by lia.
    reflexivity.
Qed.

(** *** The registry *)

Lemma unconfigured_customer cfg env user_id order_id order_status customer_name
    rejection_reason delivery_time_slot db w :
  truthy_str (telegram_bot_token cfg) = false ->
  notify_customer_order_status cfg env user_id order_id order_status
    customer_name rejection_reason delivery_time_slot db w = (Ret tt, w).
Proof. unfold notify_customer_order_status. now intros ->. Qed.

(** X16.  The customer notification never raises, whatever the settings
    and the answers.  It makes at most one call to the provider and at most
    one database call, a deletion for the recipient.  The documents of all
    other users stay in the registry, in their order, and at most one
    document leaves it. *)
Theorem customer_notification_registry_safety :
  forall cfg env user_id order_id order_status customer_name rejection_reason
         delivery_time_slot db w,
    let run := notify_customer_order_status cfg env user_id order_id order_status
                 customer_name rejection_reason delivery_time_slot db w in
    fst run = Ret tt
    /\ others user_id (customers (snd run)) = others user_id (customers w)
    /\ (length (customers w) <= S (length (customers (snd run))))%nat
    /\ (length (customers (snd run)) <= length (customers w))%nat
    /\ (exists calls, sent (snd run) = (sent w ++ calls)%list
                      /\ (length calls <= 1)%nat)
    /\ (exists calls, db_calls (snd run) = (db_calls w ++ calls)%list
                      /\ Forall (eq (DeleteCustomer user_id)) calls
                      /\ (length calls <= 1)%nat).
Proof.
  intros until w. intros run. subst run.
  destruct (truthy_str (telegram_bot_token cfg)) eqn:T.
  - destruct (customer_run cfg env user_id order_id order_status customer_name
                rejection_reason delivery_time_slot db w T) as (lines & E & _).
    cbv zeta in E. rewrite E. cbn [fst snd sent db_calls customers].
    repeat apply conj; try reflexivity; try lia.
    + eexists. split; [reflexivity|]. cbn. lia.
    + exists []. rewrite app_nil_r. repeat split; [constructor|cbn; lia].
  - rewrite unconfigured_customer by assumption. cbn [fst snd].
    repeat apply conj; try reflexivity; try lia.
    + exists []. rewrite app_nil_r. split; [reflexivity|cbn; lia].
    + exists []. rewrite app_nil_r. repeat split; [constructor|cbn; lia].
Qed.


(** X7.  The text-only sender never raises.  It makes exactly one
    [sendMessage] call, which carries the keyboard only when the keyboard
    is not empty, and touches neither the database nor the registry.  Its
    result is [True] exactly when the provider answers with a JSON object
    whose [ok] is true, whatever the HTTP status.  It writes at most one
    record, the one of the exception it caught. *)
Theorem simple_notification_outcome :
  forall env token admin_id message keyboard w,
    let r := simple_request token admin_id message keyboard in
    let run := _send_simple_notification env token admin_id message keyboard w in
    exists result,
      fst run = Ret result
      /\ sent (snd run) = (sent w ++ [r])%list
      /\ db_calls (snd run) = db_calls w
      /\ customers (snd run) = customers w
      /\ (result = Some true <->
          exists resp body,
            provider env (length (sent w)) r = inr resp
            /\ response_json resp = inr body /\ ok body = Val true)
      /\ (log (snd run) = log w
          \/ exists e, log (snd run) = (log w ++ [simple_failure_record admin_id e])%list).
Proof.
  intros env token admin msg keyboard w r run. subst run.
  rewrite (simple_exact env token admin msg keyboard w). cbv zeta. fold r.
  cbn [fst snd sent log db_calls customers].
  eexists. split; [reflexivity|]. repeat apply conj; try reflexivity.
  - destruct (provider env (length (sent w)) r) as [e|resp].
    + intros H; discriminate H.
    + destruct (response_json resp) as [e|body] eqn:J; [intros H; discriminate H|].
      intros H. exists resp, body. repeat apply conj; try reflexivity; try exact J.
      destruct (ok body) as [| |[|]]; try discriminate H. reflexivity.
  - intros (resp & body & -> & -> & ->). reflexivity.
  - destruct (provider env (length (sent w)) r) as [e|resp].
    + right. now exists e.
    + destruct (response_json resp) as [e|body].
      * right. now exists e.
      * left. now rewrite app_nil_r.
Qed.

(** X15.  A receipt stored under a well-formed reference, that is not empty
    and has neither a file name nor a content type, is fetched under the
    name [receipt] and the type [application/octet-stream], and is then
    sent with [sendDocument] in the field [document]. *)
Theorem unnamed_receipt_is_sent_as_document :
  forall env receipt_file_id f data token admin_id message w,
    truthy_str receipt_file_id = true ->
    valid_object_id (str_opt receipt_file_id) = true ->
    gridfs_get env (str_opt receipt_file_id) = inr f ->
    grid_read f = inr data ->
    truthy_str (Some data) = true ->
    truthy_str (grid_filename f) = false ->
    truthy_str (grid_content_type f) = false ->
    fst (fetch_receipt env receipt_file_id w)
    = Ret (Some data, Some "receipt", Some "application/octet-stream")
    /\ file_request token admin_id message data "receipt"
         (Some "application/octet-stream")
       = PostMultipart ("https://api.telegram.org/bot" ++ token ++ "/sendDocument")
           (str_int admin_id) message "Markdown" "document" "receipt" data
           (Some "application/octet-stream") 30.
Proof.
  intros env rid f data token admin msg w Hid Hoid Hf Hd Hdata Hname Htype.
  split; [|reflexivity].
  unfold fetch_receipt, fs_get, ObjectId, bind, try_except, read, ret, raise.
  rewrite Hid, Hoid, Hf. cbn [fst]. rewrite Hd, Hdata. cbn [fst].
  destruct (grid_filename f) as [[|c n]|]; try discriminate Hname;
    destruct (grid_content_type f) as [[|c' n']|]; try discriminate Htype;
    reflexivity.
Qed.

Lemma unnamed_receipt_is_sent_as_document_witness :
  fst (fetch_receipt
         (mk_env (fun _ _ => inl Examples.refused) (fun _ => inr None)
            (fun _ => inr (mk_grid_file (inr "%PDF-1.7") None None))
            (fun _ => None) (fun _ => ""))
         (Some "65f000000000000000000001") (empty_world []))
  = Ret (Some "%PDF-1.7", Some "receipt", Some "application/octet-stream")
  /\ file_request "TOKEN" 7 "text" "%PDF-1.7" "receipt"
       (Some "application/octet-stream")
     = PostMultipart ("https://api.telegram.org/bot" ++ "TOKEN" ++ "/sendDocument")
         (str_int 7) "text" "Markdown" "document" "receipt" "%PDF-1.7"
         (Some "application/octet-stream") 30.
Proof.
  apply (unnamed_receipt_is_sent_as_document
           (mk_env (fun _ _ => inl Examples.refused) (fun _ => inr None)
              (fun _ => inr (mk_grid_file (inr "%PDF-1.7") None None))
              (fun _ => None) (fun _ => ""))
           (Some "65f000000000000000000001")
           (mk_grid_file (inr "%PDF-1.7") None None));
    reflexivity.
Defined.

(** X18.  When the provider answers the customer notification with a JSON
    object whose [ok] is true, the notification adds the one call and
    nothing else: no record, no database call, no change of the registry.
    The HTTP status of the answer is not looked at. *)
Theorem customer_ok_answer_is_final :
  forall cfg env user_id order_id order_status customer_name rejection_reason
         delivery_time_slot db w resp body,
    truthy_str (telegram_bot_token cfg) = true ->
    provider env (length (sent w))
      (customer_request cfg user_id order_id order_status rejection_reason
         delivery_time_slot) = inr resp ->
    response_json resp = inr body ->
    ok body = Val true ->
    notify_customer_order_status cfg env user_id order_id order_status
      customer_name rejection_reason delivery_time_slot db w
    = (Ret tt,
       mk_world (sent w ++ [customer_request cfg user_id order_id order_status
                              rejection_reason delivery_time_slot])
         (log w) (db_calls w) (customers w)).
Proof.
  intros until body. intros T P J O.
  destruct (customer_run cfg env user_id order_id order_status customer_name
              rejection_reason delivery_time_slot db w T) as (lines & E & _ & S).
  cbv zeta in E, S. rewrite P, J, O in S. cbn [get truthy_bool] in S.
  rewrite E, S. now rewrite app_nil_r.
Qed.

Lemma customer_ok_answer_is_final_witness :
  notify_customer_order_status Examples.one_admin
    (Examples.answering 500 Examples.accepted_body) 42 Examples.order_id "принят"
    (Some "Aigerim") None (Some "10:00-12:00") (Some motor_database)
    (empty_world [42%Z])
  = (Ret tt,
     mk_world (sent (empty_world [42%Z])
               ++ [customer_request Examples.one_admin 42 Examples.order_id "принят"
                     None (Some "10:00-12:00")])
       (log (empty_world [42%Z])) (db_calls (empty_world [42%Z]))
       (customers (empty_world [42%Z]))).
Proof.
  apply (customer_ok_answer_is_final Examples.one_admin
           (Examples.answering 500 Examples.accepted_body) 42 Examples.order_id
           "принят" (Some "Aigerim") None (Some "10:00-12:00") (Some motor_database)
           (empty_world [42%Z]) (mk_response 500 "" (inr Examples.accepted_body))
           Examples.accepted_body);
    reflexivity.
Defined.
End RunProperties.

(** ** The webhook tool as a whole *)

Module ToolFacts.
Import PyStr Py SetupWebhook WebhookTool ToolSpec.

Ltac tool_step :=
  match goal with
  | |- context [match ?x with _ => _ end] =>
      match x with
      | context [match _ with _ => _ end] => fail 1
      | _ => destruct x eqn:?
      end
  end.

Ltac tool_run :=
  repeat first [ progress (cbn -[append str_int normalize webhook_url setup_url
                                  status_url nl]) | tool_step ].

Lemma setup_webhook_run net backend_url bot_token w :
  let c := setup_webhook_call backend_url bot_token in
  let answer := net (List.length (called w)) c in
  exists lines,
    setup_webhook net backend_url bot_token w
    = (inr (setup_accepted bot_token answer),
       mk_tool_world (printed w ++ lines) (called w ++ [c]))
    /\ (In "✅ Webhook успешно настроен!" lines
        <-> setup_accepted bot_token answer = true)
    /\ lines <> [].
Proof.
  intros c answer. subst c answer.
  unfold setup_webhook, setup_webhook_call, setup_accepted.
  unfold tbind, ttry, print, request, json_object, tret, traise.
  destruct (truthy_str bot_token).
  - tool_run.
    all: rewrite <- ?app_assoc; cbn [app].
    all: eexists; split; [reflexivity|].
    all: split; [|discriminate].
    all: cbn [In]; split; [|intros; try discriminate; tauto].
    all: intros H; repeat destruct H as [H|H]; try discriminate H; try tauto.
  - tool_run.
    all: rewrite <- ?app_assoc; cbn [app].
    all: eexists; split; [reflexivity|].
    all: split; [|discriminate].
    all: cbn [In]; split; [|intros; try discriminate; tauto].
    all: intros H; repeat destruct H as [H|H]; try discriminate H; try tauto.
Qed.

Lemma check_webhook_status_run net backend_url w :
  let c := check_webhook_status_call backend_url in
  let answer := net (List.length (called w)) c in
  exists lines,
    check_webhook_status net backend_url w
    = (inr tt, mk_tool_world (printed w ++ lines) (called w ++ [c]))
    /\ match status_shown answer with
       | Some dumped =>
           lines = [nl ++ "📊 Проверяем статус webhook...";
                    "   Status endpoint: " ++ status_url backend_url;
                    nl ++ "📋 Текущий статус webhook:"; dumped]
       | None => List.length lines = 3%nat
       end.
Proof.
  intros c answer. subst c answer.
  unfold check_webhook_status, check_webhook_status_call, status_shown.
  unfold tbind, ttry, print, request, tret, traise.
  tool_run.
  all: rewrite <- ?app_assoc; cbn [app].
  all: eexists; split; reflexivity.
Qed.

Lemma main_run net args w :
  let u := arg_backend_url args in
  let token := arg_bot_token args in
  let n := List.length (called w) in
  let success := setup_accepted token (net n (setup_webhook_call u token)) in
  let queried := arg_check_status args || success in
  exists lines,
    main net args w
    = (inr (if success then 0 else 1)%Z,
       mk_tool_world (printed w ++ lines)
         (called w ++ setup_webhook_call u token
                      :: (if queried then [check_webhook_status_call u] else [])))
    /\ last lines ""
       = (if success
          then nl ++ "✅ Готово! Webhook настроен и готов к работе."
          else nl ++ "❌ Не удалось настроить webhook. Проверьте ошибки выше.").
Proof.
  intros u token n success queried. subst u token n success queried.
  unfold main.
  unfold tbind at 1, print at 1. unfold tbind at 1, print at 1.
  unfold tbind at 1, print at 1. cbn [printed called].
  unfold tbind at 1.
  destruct (setup_webhook_run net (arg_backend_url args) (arg_bot_token args)
              (mk_tool_world
                 (((printed w ++ [times "=" 60])
                   ++ ["🤖 Настройка Webhook для Telegram Bot"])
                  ++ [times "=" 60]) (called w)))
    as (l1 & E1 & _). cbn [printed called] in E1. cbv zeta in E1.
  rewrite E1. clear E1.
  set (success := setup_accepted (arg_bot_token args) _).
  destruct (arg_check_status args || success) eqn:Q.
  - unfold tbind at 1.
    match goal with |- context [check_webhook_status net ?u ?v] =>
      destruct (check_webhook_status_run net u v) as (l2 & E2 & _) end.
    cbn [printed called] in E2. cbv zeta in E2. rewrite E2. clear E2.
    destruct success; unfold tbind, print, tret; cbn [printed called].
    + eexists. rewrite <- !app_assoc. cbn [app]. split; [reflexivity|].
      rewrite ?app_assoc, ?app_comm_cons. apply last_last.
    + eexists. rewrite <- !app_assoc. cbn [app]. split; [reflexivity|].
      rewrite ?app_assoc, ?app_comm_cons. apply last_last.
  - apply orb_false_iff in Q as [_ ->].
    unfold tbind, print, tret; cbn [printed called].
    eexists. rewrite <- !app_assoc. cbn [app]. split; [reflexivity|].
    rewrite ?app_assoc, ?app_comm_cons. apply last_last.
Qed.


(** X19.  [setup_webhook] never raises and makes exactly one call.  With a
    bot token it returns [True] exactly when the answer is a JSON object
    whose [ok] is true, whatever the HTTP status; without one, exactly when
    the status is 200 and the answer is a JSON object whose [success] is
    true.  It prints at least one line, and the line that reports success
    exactly when it returns [True]. *)
Theorem setup_webhook_reports_its_result :
  forall net backend_url bot_token w,
    let c := setup_webhook_call backend_url bot_token in
    let run := setup_webhook net backend_url bot_token w in
    fst run = inr (setup_accepted bot_token (net (List.length (called w)) c))
    /\ called (snd run) = (called w ++ [c])%list
    /\ exists lines,
         printed (snd run) = (printed w ++ lines)%list
         /\ lines <> []
         /\ (In "✅ Webhook успешно настроен!" lines <-> fst run = inr true).
Proof.
  intros net u token w c run. subst c run.
  destruct (setup_webhook_run net u token w) as (lines & E & I & N).
  cbv zeta in E, I. rewrite E. cbn [fst snd called printed].
  repeat apply conj; try reflexivity.
  exists lines. repeat apply conj; [reflexivity|exact N| |].
  - intros H. apply I in H. now rewrite H.
  - intros H. apply I. now injection H.
Qed.

(** X20.  [check_webhook_status] never raises and makes exactly one call,
    to the status endpoint.  When the status is 200 and the body is JSON it
    prints its two opening lines, a heading and the body; otherwise it
    prints its two opening lines and one line of error. *)
Theorem check_webhook_status_never_fails :
  forall net backend_url w,
    let c := check_webhook_status_call backend_url in
    let run := check_webhook_status net backend_url w in
    fst run = inr tt
    /\ called (snd run) = (called w ++ [c])%list
    /\ exists lines,
         printed (snd run) = (printed w ++ lines)%list
         /\ match status_shown (net (List.length (called w)) c) with
            | Some dumped =>
                lines = [nl ++ "📊 Проверяем статус webhook...";
                         "   Status endpoint: " ++ status_url backend_url;
                         nl ++ "📋 Текущий статус webhook:"; dumped]
            | None => List.length lines = 3%nat
            end.
Proof.
  intros net u w c run. subst c run.
  destruct (check_webhook_status_run net u w) as (lines & E & S).
  cbv zeta in E, S. rewrite E. cbn [fst snd called printed].
  repeat apply conj; try reflexivity.
  exists lines. split; [reflexivity|exact S].
Qed.

(** X21.  [main] exits with status 0 when [setup_webhook] succeeded and
    with status 1 otherwise, and its last line says which.  It first calls
    the setup endpoint, and then the status endpoint exactly when
    [--check-status] was given or the setup succeeded. *)
Theorem main_exit_status :
  forall net args w,
    let u := arg_backend_url args in
    let token := arg_bot_token args in
    let success :=
      setup_accepted token (net (List.length (called w)) (setup_webhook_call u token)) in
    let run := main net args w in
    fst run = inr (if success then 0 else 1)%Z
    /\ called (snd run)
       = (called w ++ setup_webhook_call u token
                      :: (if arg_check_status args || success
                          then [check_webhook_status_call u]
                          else []))%list
    /\ exists lines,
         printed (snd run) = (printed w ++ lines)%list
         /\ last lines ""
            = (if success
               then nl ++ "✅ Готово! Webhook настроен и готов к работе."
               else nl ++ "❌ Не удалось настроить webhook. Проверьте ошибки выше.").
Proof.
  intros net args w u token success run. subst u token success run.
  destruct (main_run net args w) as (lines & E & L).
  cbv zeta in E, L. rewrite E. cbn [fst snd called printed].
  repeat apply conj; try reflexivity.
  exists lines. split; [reflexivity|exact L].
Qed.

End ToolFacts.
